(* ===== verification/_CoqProject ===== *)
-Q . S2P
Prelude.v
PyInt.v
Json.v
JsonDecode.v
Url.v
Http.v
Server.v
DotenvParser.v
Dotenv.v
Firebase.v
App.v
