(* ===== verification/Prelude.v ===== *)
(** * A verification development of gnarlycrly/qr-feedback-router

    The repository is one Python module, [src/backend/app.py] (21 lines),
    the bootstrap of a Flask service.  Importing the module
      - imports [os], flask, flask_cors, firebase_admin and its
        [credentials], [firestore] and [auth] modules, and dotenv
        (lines 1-6),
      - loads a [.env] file into [os.environ] ([load_dotenv()], line 8),
      - builds the Flask application ([Flask(__name__)], line 9) and
        attaches flask_cors with its default options ([CORS(app)], line 10),
      - reads the path [os.getenv("FIREBASE_KEY_PATH")] and loads a
        service-account certificate from it (line 11),
      - registers the default Firebase app and opens a Firestore client
        (lines 12-13),
      - registers the view [index] on the URL rule ["/"] (lines 15-17),
        which answers [jsonify({"message": ...})].
    Run as a script (lines 19-21) it also reads [PORT] (default [5000]),
    converts it with Python's [int()] and serves with
    [app.run(host="0.0.0.0", port=port, debug=True)].

    The module is glue: what it does is what the calls it makes do.  The
    development therefore models each call at the level of the library
    behaviour the line depends on (the Python runtime, python-dotenv,
    Flask/werkzeug routing, flask_cors, the json encoder, firebase_admin),
    and maps every such definition to the line of [app.py] that invokes it.

    ** Files (in dependency order, see [_CoqProject])
    - [Prelude]: this header; the Python exception type [exn] and the
      [result] error monad (stdpp's [mbind]/[mret] instances, so
      [x ← c; k] reads like the sequential Python code), the character
      classes of CPython ([str_isspace], [py_digit]), ASCII case mapping,
      [span] (what a regex [[...]*] reads), [lstrip_chars]/[rstrip_chars],
      [str.split] on a character and on blanks ([str_split], [split_ws]),
      Python dicts as association lists ([dict_get], [dict_set]: insertion
      order and at most one entry per key), the hint database [pyrt] and
      the shared lemmas on [result], strings, dicts (lookup under a
      permutation, [dict_set] of a new key) and [merge_sort] (it commutes
      with a map that keeps the order, [merge_sort_map]).
    - [PyInt] (Module [PyInt]): CPython's [int(str)] ([int_of_str]: the
      blanks [int()] skips ([int_isspace]: [Py_ISSPACE] below 127, the
      Unicode spaces above), sign, digits with single underscores, the
      4300-digit limit above the 640-digit threshold) and [str(int)]
      ([py_str]); [py_int] is [int()] on the value [os.getenv] returns
      (line 20).  Theorems: [int(str(z))] gives back [z] under any padding
      of such blanks, and a 4301-digit literal raises [ValueError].
    - [Json] (Module [Json]): JSON values ([jvalue]); [json.dumps] with
      the options Flask passes ([sort_keys=True], [ensure_ascii=True],
      compact separators or [indent=2]) and Flask's [jsonify] body.
      Theorem: compact output is printable ASCII.
    - [JsonDecode] (Module [JsonDecode]): Python's [json.load]/[json.loads]
      as firebase_admin calls them on the key file (line 11) and on
      [FIREBASE_CONFIG] (line 12): [JSONDecoder.decode] around the C
      scanner of [_json.c] ([scan_once_unicode], [scanstring_unicode]
      with its escapes and surrogate pairs, [_parse_array_unicode],
      [_parse_object_unicode], [_match_number_unicode] with [int()]'s
      digit limit) on a [str] as its code points ([ustr]), returning a
      [pyobj] or a [JSONDecodeError] with its position.  Theorems: the
      decoder terminates and its result does not depend on the fuel;
      [json.loads] inverts Flask's [json.dumps] (the [dict] items come
      back in key order); text after a complete value raises
      ["Extra data"] at its first character.
    - [Url] (Module [Url]): what werkzeug's development server (line 21)
      does to a request target with CPython's [urllib.parse]: [urlsplit]
      (WHATWG stripping, scheme, netloc with its bracket checks, fragment,
      query), [unquote] ([unquote_to_bytes] split on [%], then UTF-8
      with ["replace"]) and [parse_qsl], over CPython's UTF-8 decoder as
      a byte automaton ([feed]: well-formed sequences and maximal invalid
      subparts, each given to the error handler).  Lemmas: the decoder
      loses no byte, its output re-encoded is well-formed whatever the
      input, well-formed text is left alone, the split-based
      [unquote_to_bytes] equals a one-pass percent-decoder.
    - [Http] (Module [Http]): requests (method, decoded path and query,
      the host name of the URLs werkzeug builds, headers), responses,
      Flask's URL map for this app (the rule ["/"] and the static rule
      Flask always adds, with the [path] converter's pattern), werkzeug's
      [MapAdapter.match] (leading slashes reduced to one; the strict-slash
      redirect of an empty path; matching with automatic [HEAD]/[OPTIONS];
      slash merging; the absolute [Location] of [make_redirect_url] and
      [iri_to_uri] with [urllib.parse.quote]), Flask's dispatch, the
      [Allow] header in the order the process iterates werkzeug's method
      set (a permutation, a field of [app_config]), flask_cors's
      [after_request] hook with its default options, and the empty body
      of a raw [HEAD].  Theorems: [GET /] (and [//], [///], ...) answers
      200 with the JSON body; other methods and paths answer what werkzeug
      answers (the 308 of an empty path, 404, 405, the 308 of a merged
      path, the automatic [OPTIONS], [HEAD] as [GET] without body); every
      response carries the CORS origin header.
    - [Server] (Module [Server]): one request through the stack
      [app.run(..., debug=True)] starts: [handle_one_request] and
      [parse_request] of [http.server] (length limit 414, 400, 505,
      HTTP/0.9, the [//] reduction), werkzeug's [make_environ] ([PATH_INFO]
      and the query as UTF-8, the host from the [Host] headers or the
      bound address), [DebuggedApplication] (its commands and [/console])
      and then [Http.wsgi_app].  Theorems: [PATH_INFO] is always well-formed
      UTF-8, so Flask routes on exactly the unquoted path; a request line
      [GET] with a target of slashes written [/] or [%2F] gets the index
      JSON through the whole stack; [/console] reaches the debugger.
    - [DotenvParser] (Module [DotenvParser]): python-dotenv's parser of
      [.env] text: its [Reader] as a state-and-error monad ([reader]), the
      regular expressions of [parser.py] as readers with [re]'s greedy and
      backtracking semantics, [parse_key], [parse_value], [parse_binding]
      (an [Error] skips the rest of the line), [parse_stream] (Equations,
      well-founded on the length of the unread text) and [DotEnv.parse].
      Theorems: printed files parse back, at most one binding per
      character, blank and comment lines yield nothing, a line without a
      key is an error binding that does not stop the parse.
    - [Dotenv] (Module [Dotenv]): [os.environ] as a [gmap string string],
      [os.getenv], python-dotenv's [find_dotenv] (walk from the directory
      of [app.py], or from the working directory, to the root),
      [${VAR:-default}] interpolation and the non-overriding merge of
      [load_dotenv] (line 8) with the checks of [os.environ] on each
      assignment, over the text the parser reads; [load_dotenv] returns
      the environment it leaves, also when an assignment raises.
      Theorems: existing variables are never overwritten; the load raises
      exactly when an assignment is refused; when it returns, the result
      is a left-biased union and loading again changes nothing; the
      interpolation scan terminates.
    - [Firebase] (Module [Firebase]): [credentials.Certificate] (line 11)
      reading the key file as text and decoding it with
      [JsonDecode.loads], the registry [_apps] of [initialize_app] with
      the options from [FIREBASE_CONFIG] (JSON text or a JSON file,
      line 12), the project-id lookup and the service cache of
      [firestore.client] (line 13) with [firestore.Client]'s check that
      the project is a string, every error path a [Raise].
      Theorems: when a certificate is accepted, that a key file written
      by [json.dump] is accepted with its [project_id], the registry
      invariant (no app is ever replaced), the second default
      [initialize_app] fails, when the client exists, and that a
      [FIREBASE_CONFIG] holding the JSON text
      of a config object binds the client to its [projectId] (the
      decoder, the option filter, the registry and the lookup composed).
    - [App] (Module [App]): the import of the module (lines 1-17) as a
      computation in [result] over a [host] (installed modules,
      environment, [.env] and [.flaskenv] files, working directory, key
      files, free ports, the debugger), [app.run] (its [FLASK_RUN_FROM_CLI]
      check, its own [.env] pass, werkzeug's [get_sockaddr] with glibc's
      [getaddrinfo], the bind and its [sys.exit(1)], the reloader's child
      that runs the script again and serves on the inherited socket), the
      script entry (lines 19-21), and the process as a labelled step
      relation [Booting → Serving | Exited | Crashed] whose runs are lists
      of events, each request answered by [Server.handle_one_request].
      Theorems: the first missing module decides the import error; a
      [.env] line [os.environ] refuses, a missing [FIREBASE_KEY_PATH] or a
      key file [json.load] cannot decode each stop the script, and such a
      process never answers a request; the address and port a started
      server listens on; port 5000 by default; a [PORT] beyond 16 bits
      wraps, a negative one raises [OverflowError]; with
      [FLASK_RUN_FROM_CLI=true] the script exits without serving; every
      [GET] of a slash path a running server answers has the indented
      body.

    ** Fuel and bounds
    - [PyInt.str_of_N] runs [n_digits] with [S (N.size n)] steps: a
      number of [k] bits is below [10^(k+1)] ([size_fuel]), so the digits
      are always complete, as the round trip C10 uses.
    - [Dotenv.parse_vars] takes fuel; [parse_variables] gives it
      [S (length s)], and every step consumes input ([match_var_length]),
      so C17 shows this is always enough.
    - [DotenvParser.parse_stream] needs no fuel: it is defined by
      well-founded recursion on the length of the unread text, and
      [parse_binding_progress] discharges the obligation.
    - [JsonDecode.scan_once], [array_items] and [object_items] are one
      mutual [Fixpoint] on fuel (the C code recurses through
      [scan_once_unicode] and loops in the container parsers).  Each
      step consumes a character, and a container item takes two steps,
      so [loads] runs with [S (2 * length doc)]: [scan_total] shows that
      this never runs out, [scan_mono] that more fuel changes nothing
      (C33).
    - Integers are unbounded [Z] as in Python; the widths are those of
      the socket layer: [getaddrinfo] converts the port to a C [long]
      ([OverflowError] beyond), glibc reads it into a 32-bit [int] and
      keeps 16 bits ([App.getaddrinfo_port]), and [bind] refuses a port
      outside [0..65535].
    - [Url] and [Server] need no fuel: the UTF-8 decoder, the
      percent-decoder and the request-line split are automata or
      recursions over the text, one character per step.  The one bound is
      the request line's: [rfile.readline(65537)] and the 414 answer above
      65536 bytes, which the end-to-end theorem takes as a hypothesis.

    ** Not modelled
    - Network I/O and threads; the reloader's restart when a source file
      changes (the files are fixed; its first child is modelled), and the
      variables [WERKZEUG_RUN_MAIN] and [WERKZEUG_SERVER_FD] set before
      start-up; the HTML text of werkzeug's error pages (an error response
      carries its status code only); host names that IDNA encoding
      rewrites or refuses ([BadHost], 400); the versions are those of
      Flask 3.0 ([flask.cli.load_dotenv] loads [.env] then [.flaskenv])
      and werkzeug 3.0.
    - In the server: the header lines ([http.client.parse_headers], its
      431 answers; the model takes the headers parsed), keep-alive and
      [Expect: 100-continue] (they change what is written before the
      answer, not the answer), the debugger's own commands, its secret,
      PIN and console page (parameters [dbg_command] and [dbg_console]),
      and the address grammar of [ipaddress.ip_address] (a parameter of
      [urlsplit], consulted only for a bracketed netloc).  The request
      line and the target follow the [http.server] and [urllib.parse] of
      CPython 3.11.
    - The parsing of PEM keys (a parameter of [Firebase.world]); the
      rounding of JSON floats to doubles ([PFloat] keeps the exact
      decimal) and the interpreter's recursion limit on nesting depth,
      which [json.loads] turns into [RecursionError]; the warnings python-dotenv logs for invalid
      [.env] lines (the bindings carry their [error] flag); what the
      imported packages do on import beyond being importable.
    - A Python [str] is a sequence of [ascii], read as the code points
      [0..255] (a [.env] file is given decoded: one that is not UTF-8,
      which raises [UnicodeDecodeError], is not modelled); whitespace
      follows [str.isspace] on that range, except the blanks of [int()]; case
      mapping ([str.upper], [str.lower]) is the ASCII one, so theorems
      about method names assume ASCII text. *)

From stdpp Require Export base gmap strings list sorting.
From Stdlib Require Export ZArith Ascii.

Declare Scope py_scope.
Delimit Scope py_scope with py.

(** ** Python exceptions

    The exceptions the modelled code can raise, with the message or the
    datum the library puts in them. *)
Inductive exn :=
  | ValueError (msg : string)
  | TypeError (msg : string)
  | FileNotFoundError (path : string)
  | AttributeError (msg : string)
  | OverflowError (msg : string)
  | OSError (msg : string)
  | ModuleNotFoundError (name : string)
  | ImportError (msg : string)
  | JSONDecodeError (msg : string) (pos : nat)
  | SystemExit (code : Z).

#[export] Instance exn_eq_dec : EqDecision exn.
Proof. solve_decision. Defined.

(** A computation either returns a value or raises. *)
Inductive result (A : Type) := Ok (a : A) | Raise (e : exn).
Arguments Ok {A} a.
Arguments Raise {A} e.

#[export] Instance result_ret : MRet result := λ A a, Ok a.
#[export] Instance result_bind : MBind result :=
  λ A B f r, match r with Ok a => f a | Raise e => Raise e end.
#[export] Instance result_fmap : FMap result :=
  λ A B f r, match r with Ok a => Ok (f a) | Raise e => Raise e end.

Notation "'raise!' e" := (Raise e) (at level 10, e at level 9) : py_scope.
Open Scope py_scope.

(** A Python value as far as the modelled code passes them around:
    [os.getenv(k, default)] returns a [str], the [default] (an [int] on
    line 20) or [None]. *)
Inductive pyval := PyStr (s : string) | PyInt (z : Z) | PyNone.

Definition is_ok {A} (r : result A) : bool :=
  match r with Ok _ => true | Raise _ => false end.

(** ** Character classes of CPython, on ASCII *)

(** A character of a Python [str] is a code point; the model has those
    of [0..255] (Latin-1), one [ascii] each.  [str.isspace()], the regex
    class [\s] of a [str] pattern and the default of [str.strip()] test
    [Py_UNICODE_ISSPACE]: on [0..255] the codes [0x09..0x0D], the
    separators [0x1C..0x1F], the space, [0x85] and [0xA0].  ([int()]
    skips fewer: see [PyInt.int_isspace].) *)
Definition str_isspace (c : ascii) : bool :=
  let n := nat_of_ascii c in
  bool_decide (9 ≤ n ≤ 13 ∨ 28 ≤ n ≤ 32 ∨ n = 133 ∨ n = 160).

(** [_PyLong_DigitValue[c] < 10]: the decimal value of ['0'..'9']. *)
Definition py_digit (c : ascii) : option nat :=
  let n := nat_of_ascii c in
  if (48 <=? n) && (n <? 58) then Some (n - 48) else None.

(** [str.upper] on an ASCII character. *)
Definition ascii_upper (c : ascii) : ascii :=
  let n := nat_of_ascii c in
  if (97 <=? n) && (n <=? 122) then ascii_of_nat (n - 32) else c.

(** [str.lower] on an ASCII character. *)
Definition ascii_lower (c : ascii) : ascii :=
  let n := nat_of_ascii c in
  if (65 <=? n) && (n <=? 90) then ascii_of_nat (n + 32) else c.

Fixpoint string_lower (s : string) : string :=
  match s with
  | EmptyString => EmptyString
  | String c s' => String (ascii_lower c) (string_lower s')
  end.

Fixpoint string_upper (s : string) : string :=
  match s with
  | EmptyString => EmptyString
  | String c s' => String (ascii_upper c) (string_upper s')
  end.

(** Characters that a Rocq string literal cannot spell directly. *)
Definition dq_char : ascii := ascii_of_nat 34.    (* double quote *)
Definition bs_char : ascii := ascii_of_nat 92.    (* backslash *)
Definition nl_char : ascii := ascii_of_nat 10.    (* line feed *)

(** [sep.join(xs)] *)
Fixpoint str_join (sep : string) (xs : list string) : string :=
  match xs with
  | [] => ""
  | [x] => x
  | x :: xs' => x +:+ sep +:+ str_join sep xs'
  end.

(** [s.removeprefix(pre)] when [s.startswith(pre)]. *)
Fixpoint strip_prefix (pre s : string) : option string :=
  match pre, s with
  | EmptyString, _ => Some s
  | String a pre', String b s' => if bool_decide (a = b) then strip_prefix pre' s' else None
  | String _ _, EmptyString => None
  end.

(** The longest prefix of [s] whose characters satisfy [p], and the rest:
    what a regular expression [[...]*] reads. *)
Fixpoint span (p : ascii → bool) (s : string) : string * string :=
  match s with
  | EmptyString => (EmptyString, EmptyString)
  | String c s' => if p c then let (w, r) := span p s' in (String c w, r) else (EmptyString, s)
  end.

(** [s.lstrip(chars)] and [s.rstrip(chars)]: the characters [p] accepts
    off one end. *)
Fixpoint lstrip_chars (p : ascii → bool) (s : string) : string :=
  match s with
  | String c s' => if p c then lstrip_chars p s' else s
  | EmptyString => s
  end.

Definition rstrip_chars (p : ascii → bool) (s : string) : string :=
  String.rev (lstrip_chars p (String.rev s)).

(** [str.lstrip()] and [str.rstrip()]: blanks in the sense of
    [str.isspace]. *)
Definition lstrip : string → string := lstrip_chars str_isspace.
Definition rstrip : string → string := rstrip_chars str_isspace.

Definition is_char (c : ascii) : ascii → bool := λ d, bool_decide (d = c).

(** [s.split(sep)] for a one-character separator: the pieces between the
    separators, empty ones included. *)
Fixpoint str_split (sep : ascii) (s : string) : list string :=
  match s with
  | EmptyString => [""]
  | String c s' =>
      match str_split sep s' with
      | [] => [String c ""]
      | w :: ws => if bool_decide (c = sep) then "" :: w :: ws else String c w :: ws
      end
  end.

(** [s.split()]: the runs of characters that are not [str.isspace].
    [split_ws_go] returns the (possibly empty) word at the front of [s]
    and the words after it. *)
Fixpoint split_ws_go (s : string) : string * list string :=
  match s with
  | EmptyString => ("", [])
  | String c s' =>
      let '(w, ws) := split_ws_go s' in
      if str_isspace c then ("", if bool_decide (w = "") then ws else w :: ws)
      else (String c w, ws)
  end.

Definition split_ws (s : string) : list string :=
  let '(w, ws) := split_ws_go s in if bool_decide (w = "") then ws else w :: ws.

(** Every character satisfies [p]. *)
Fixpoint all_chars (p : ascii → bool) (s : string) : bool :=
  match s with
  | EmptyString => true
  | String c s' => p c && all_chars p s'
  end.

(** A Python [dict] with [str] keys, as an association list in insertion
    order: [d[k] = v] replaces the value in place or appends the item. *)
Definition dict (A : Type) := list (string * A).

Fixpoint dict_get {K A} `{EqDecision K} (k : K) (d : list (K * A)) : option A :=
  match d with
  | [] => None
  | (k', v) :: d' => if bool_decide (k = k') then Some v else dict_get k d'
  end.

Fixpoint dict_set {K A} `{EqDecision K} (k : K) (v : A) (d : list (K * A)) : list (K * A) :=
  match d with
  | [] => [(k, v)]
  | (k', v') :: d' => if bool_decide (k = k') then (k, v) :: d' else (k', v') :: dict_set k v d'
  end.

(** ** Automation *)

Create HintDb pyrt discriminated.
Create Rewrite HintDb pyrt.

Ltac inv_clear H := inversion H; clear H; subst.

(** Close a decidable goal on concrete data by evaluating its decision
    procedure. *)
Ltac decide_eval := apply (bool_decide_unpack _); vm_compute; exact I.

(** ** Shared lemmas on [result] *)

Lemma bind_Ok {A B} (a : A) (f : A → result B) : (Ok a ≫= f) = f a.
Proof. reflexivity. Qed.

Lemma bind_Raise {A B} (e : exn) (f : A → result B) : (Raise e ≫= f) = Raise e.
Proof. reflexivity. Qed.

Lemma bind_eq_Ok {A B} (r : result A) (f : A → result B) b :
  (r ≫= f) = Ok b ↔ ∃ a, r = Ok a ∧ f a = Ok b.
Proof. destruct r; simpl; split; [eauto|by intros (?&[= ->]&?)|done|by intros (?&?&?)]. Qed.

Lemma bind_eq_Raise {A B} (r : result A) (f : A → result B) e :
  (r ≫= f) = Raise e ↔ r = Raise e ∨ ∃ a, r = Ok a ∧ f a = Raise e.
Proof.
  destruct r as [a|e']; simpl; split.
  - intros ?. right. eauto.
  - by intros [?|(?&[= ->]&?)].
  - intros [= ->]. by left.
  - intros [[= ->]|(?&?&?)]; [done|discriminate].
Qed.

Lemma fmap_eq_Ok {A B} (f : A → B) r b : f <$> r = Ok b ↔ ∃ a, r = Ok a ∧ b = f a.
Proof. destruct r; simpl; split; [intros [= <-]; eauto|by intros (?&[= ->]&->)|done|by intros (?&?&?)]. Qed.

#[export] Hint Rewrite @bind_Ok @bind_Raise : pyrt.

(** ** Shared lemmas on strings

    stdpp makes [String.append] opaque to [simpl]; [string_app_cons] is the
    one computation step the proofs rewrite with. *)

Lemma string_app_cons a (s t : string) : String a s +:+ t = String a (s +:+ t).
Proof. reflexivity. Qed.

Lemma string_app_nil_l (s : string) : "" +:+ s = s.
Proof. reflexivity. Qed.

Lemma string_app_nil_r (s : string) : s +:+ "" = s.
Proof. induction s; [done|]. by rewrite string_app_cons, IHs. Qed.

Lemma string_app_assoc (s1 s2 s3 : string) : s1 +:+ (s2 +:+ s3) = (s1 +:+ s2) +:+ s3.
Proof. induction s1; [done|]. by rewrite !string_app_cons, IHs1. Qed.

Lemma string_length_app (s1 s2 : string) :
  String.length (s1 +:+ s2) = String.length s1 + String.length s2.
Proof. induction s1; [done|]. rewrite string_app_cons. simpl. lia. Qed.

#[export] Hint Rewrite string_app_cons string_app_nil_l string_app_nil_r
  string_length_app : pyrt.

Lemma strip_prefix_app pre s : strip_prefix pre (pre +:+ s) = Some s.
Proof. induction pre as [|a pre IH]; [done|]. rewrite string_app_cons. simpl. by rewrite bool_decide_true. Qed.

Lemma strip_prefix_Some pre s r : strip_prefix pre s = Some r → s = pre +:+ r.
Proof.
  revert s. induction pre as [|a pre IH]; intros [|b s]; simpl; [by intros [= <-]|by intros [= <-]|done|].
  destruct (decide (a = b)) as [->|]; [rewrite bool_decide_true by done|by rewrite bool_decide_false].
  intros ?. rewrite string_app_cons. f_equal. by apply IH.
Qed.

Lemma all_chars_app p s t : all_chars p (s +:+ t) = all_chars p s && all_chars p t.
Proof. induction s as [|c s IH]; [done|]. rewrite string_app_cons. simpl. by rewrite IH, andb_assoc. Qed.

#[export] Hint Rewrite all_chars_app : pyrt.

(** [span] splits its argument, and stops at the first character that
    fails [p]. *)
Lemma span_app p s : (span p s).1 +:+ (span p s).2 = s.
Proof.
  induction s as [|c s IH]; [done|]. simpl. destruct (p c); [|done].
  destruct (span p s) as [w r]. simpl in *. by rewrite string_app_cons, IH.
Qed.

Lemma span_length p s : String.length (span p s).2 ≤ String.length s.
Proof.
  induction s as [|c s IH]; simpl; [lia|]. destruct (p c); simpl; [|lia].
  destruct (span p s) as [w r]. simpl in *. lia.
Qed.

Lemma span_stop p k c t :
  all_chars p k = true → p c = false → span p (k +:+ String c t) = (k, String c t).
Proof.
  induction k as [|c' k IH]; simpl; [by intros _ ->|].
  intros [Hc Hk]%andb_true_iff Hp. rewrite Hc, IH by done. reflexivity.
Qed.

(** ** Sorting

    [merge_sort] commutes with a map that keeps the order of the
    elements: sorting the images is the image of the sorted list. *)

Section merge_sort_map.
Context {A B} (R : relation B) `{∀ x y, Decision (R x y)}
  (R' : relation A) `{∀ x y, Decision (R' x y)} (g : A → B).
Hypothesis HR : ∀ x y, R (g x) (g y) ↔ R' x y.

Lemma list_merge_map l1 l2 : list_merge R (map g l1) (map g l2) = map g (list_merge R' l1 l2).
Proof.
  revert l2; induction l1 as [|x1 l1 IH1]; intros l2; [by destruct l2|].
  induction l2 as [|x2 l2 IH2]; [done|]. simpl. pose proof (HR x1 x2) as Hx.
  destruct (decide (R (g x1) (g x2))), (decide (R' x1 x2)); [| tauto | tauto |].
  - simpl. f_equal. exact (IH1 (x2 :: l2)).
  - simpl. f_equal. exact IH2.
Qed.

Local Abbreviation smap := (map (fmap (map g))).

Lemma merge_list_to_stack_map st l :
  merge_list_to_stack R (smap st) (map g l) = smap (merge_list_to_stack R' st l).
Proof.
  revert l. induction st as [|[l'|] st IH]; intros l; simpl; [done| |done].
  by rewrite list_merge_map, IH.
Qed.

Lemma merge_stack_map st : merge_stack R (smap st) = map g (merge_stack R' st).
Proof. induction st as [|[l|] st IH]; simpl; [done| |done]. by rewrite IH, list_merge_map. Qed.

Lemma merge_sort_map l : merge_sort R (map g l) = map g (merge_sort R' l).
Proof.
  unfold merge_sort.
  assert (∀ st, merge_sort_aux R (smap st) (map g l) = map g (merge_sort_aux R' st l)) as Hst.
  { induction l as [|x l IH]; intros st; simpl; [apply merge_stack_map|].
    change [g x] with (map g [x]). by rewrite merge_list_to_stack_map, IH. }
  exact (Hst []).
Qed.
End merge_sort_map.

(** ** Shared lemmas on dicts *)

Lemma dict_get_set_eq {K A} `{EqDecision K} (k : K) (v : A) d : dict_get k (dict_set k v d) = Some v.
Proof.
  induction d as [|[k' v'] d IH]; simpl; [by rewrite bool_decide_true|].
  case_bool_decide; simpl; [by rewrite bool_decide_true|by rewrite bool_decide_false].
Qed.

Lemma dict_get_set_ne {K A} `{EqDecision K} (k j : K) (v : A) d : j ≠ k → dict_get j (dict_set k v d) = dict_get j d.
Proof.
  intros Hne. induction d as [|[k' v'] d IH]; simpl; [by rewrite bool_decide_false|].
  case_bool_decide as Hk; simpl.
  - subst. by rewrite !bool_decide_false.
  - by rewrite IH.
Qed.

(** A key not yet in the dict is appended. *)
Lemma dict_set_fresh {K A} `{EqDecision K} (k : K) (v : A) d :
  k ∉ d.*1 → dict_set k v d = d ++ [(k, v)].
Proof.
  induction d as [|[k' v'] d IH]; [done|]. rewrite fmap_cons, not_elem_of_cons. intros [Hne Hd].
  simpl. rewrite bool_decide_false by done. by rewrite IH.
Qed.

(** Lookup in a dict with distinct keys depends only on its items, and
    commutes with a renaming of the keys that is injective. *)
Section dict_lemmas.
Context {K A : Type} `{EqDecision K}.
Implicit Types (k : K) (d : list (K * A)).

Lemma dict_get_None k d : dict_get k d = None ↔ k ∉ d.*1.
Proof.
  induction d as [|[k' v'] d IH]; simpl; [split; [intros _; apply not_elem_of_nil|done]|].
  rewrite ?fmap_cons, not_elem_of_cons, <-IH.
  case_bool_decide as Hk; [subst; split; [done|by intros [? _]]|].
  split; [by intros ?; split|by intros [_ ?]].
Qed.

Lemma dict_get_elem k v d : NoDup d.*1 → dict_get k d = Some v ↔ (k, v) ∈ d.
Proof.
  induction d as [|[k' v'] d IH]; simpl; intros Hnd.
  - split; [done|]. by intros ?%not_elem_of_nil.
  - rewrite ?fmap_cons in Hnd. apply NoDup_cons in Hnd as [Hk' Hnd].
    rewrite elem_of_cons, <-IH by done. case_bool_decide as Hk; subst.
    + split; [by intros [= ->]; left|]. intros [[= ->]|Hin]; [done|].
      exfalso. apply Hk'. destruct (decide (k' ∈ d.*1)) as [|Hn]; [done|].
      apply dict_get_None in Hn. congruence.
    + split; [by right|]. by intros [[= -> _]|?].
Qed.

Lemma dict_get_Permutation k d d' : NoDup d.*1 → d ≡ₚ d' → dict_get k d = dict_get k d'.
Proof.
  intros Hnd Hp. assert (Hnd' : NoDup d'.*1) by (by rewrite <-Hp).
  destruct (dict_get k d) as [v|] eqn:E.
  - symmetry. apply dict_get_elem; [done|]. rewrite <-Hp. by apply dict_get_elem.
  - symmetry. apply dict_get_None. rewrite <-Hp. by apply dict_get_None.
Qed.
End dict_lemmas.

Lemma dict_get_map {K K' A B} `{EqDecision K, EqDecision K'} (f : K → K') (g : A → B) k
    (d : list (K * A)) :
  Inj eq eq f → dict_get (f k) (map (λ kv, (f kv.1, g kv.2)) d) = g <$> dict_get k d.
Proof.
  intros Hf. induction d as [|[k' v'] d IH]; [done|]. simpl.
  case_bool_decide as E1; case_bool_decide as E2; subst; try done.
  - by apply Hf in E1.
Qed.

(** Keeping the items whose key satisfies [P] keeps the value of such a
    key. *)
Lemma dict_get_filter {K A} `{EqDecision K} (P : K → Prop) `{∀ kv : K * A, Decision (P kv.1)} k
    (d : list (K * A)) :
  P k → dict_get k (filter (λ kv, P kv.1) d) = dict_get k d.
Proof.
  intros Hk. induction d as [|[k' v'] d IH]; [done|]. rewrite filter_cons. cbn [fst].
  case_decide as Hp; simpl; case_bool_decide; subst; done.
Qed.

Lemma ascii_upper_idem c : ascii_upper (ascii_upper c) = ascii_upper c.
Proof. destruct c as [[] [] [] [] [] [] [] []]; reflexivity. Qed.

Lemma string_upper_idem s : string_upper (string_upper s) = string_upper s.
Proof. induction s; simpl; [done|]. by rewrite ascii_upper_idem, IHs. Qed.

Lemma py_digit_lt c d : py_digit c = Some d → d < 10.
Proof. unfold py_digit. case_match; [|done]. intros [= <-]. apply andb_true_iff in H as [?%Nat.leb_le ?%Nat.ltb_lt]. lia. Qed.

Lemma py_digit_not_space c d : py_digit c = Some d → str_isspace c = false.
Proof. destruct c as [[] [] [] [] [] [] [] []]; vm_compute; congruence. Qed.

#[export] Hint Resolve py_digit_lt py_digit_not_space : pyrt.

(** ** Stripping and splitting *)

Lemma rev_app_app s t acc : String.rev_app (s +:+ t) acc = String.rev_app t (String.rev_app s acc).
Proof. revert acc. induction s as [|c s IH]; intros acc; [done|]. apply IH. Qed.

Lemma rev_app_acc s acc : String.rev_app s acc = String.rev_app s "" +:+ acc.
Proof.
  revert acc. induction s as [|c s IH]; intros acc; [done|]. cbn [String.rev_app].
  rewrite IH, (IH (String c "")), <-string_app_assoc. done.
Qed.

Lemma rev_rev s : String.rev (String.rev s) = s.
Proof.
  unfold String.rev. induction s as [|c s IH]; [done|]. cbn [String.rev_app].
  rewrite (rev_app_acc s (String c "")), rev_app_app. cbn [String.rev_app]. by rewrite IH.
Qed.

Lemma lstrip_rev_app p t acc :
  all_chars p t = true → lstrip_chars p (String.rev_app t acc) = lstrip_chars p acc.
Proof.
  revert acc. induction t as [|c t IH]; intros acc; [done|]. cbn [all_chars String.rev_app].
  intros [Hc Ht]%andb_true_iff. rewrite IH by done. cbn [lstrip_chars]. by rewrite Hc.
Qed.

(** [s.rstrip(chars)] removes a tail of stripped characters up to the
    last character it keeps. *)
Lemma rstrip_chars_app p s c t :
  all_chars p t = true → p c = false → rstrip_chars p (s +:+ String c "" +:+ t) = s +:+ String c "".
Proof.
  intros Ht Hc. unfold rstrip_chars, String.rev. rewrite string_app_assoc, rev_app_app, lstrip_rev_app by done.
  rewrite rev_app_app. cbn [String.rev_app lstrip_chars]. rewrite Hc.
  change (String.rev_app (String c (String.rev_app s "")) "")
    with (String.rev_app (String.rev_app s "") (String c "")).
  rewrite rev_app_acc. change (String.rev_app (String.rev_app s "") "") with (String.rev (String.rev s)).
  by rewrite rev_rev.
Qed.

Definition no_space (w : string) : bool := all_chars (λ c, negb (str_isspace c)) w.

Lemma split_ws_go_word w rest :
  no_space w = true → split_ws_go (w +:+ rest) = (w +:+ (split_ws_go rest).1, (split_ws_go rest).2).
Proof.
  induction w as [|c w IH]; [intros _; rewrite !string_app_nil_l; by destruct (split_ws_go rest)|].
  unfold no_space. cbn [all_chars].
  intros [Hc Hw]%andb_true_iff. rewrite string_app_cons. cbn [split_ws_go]. rewrite IH by done.
  destruct (split_ws_go rest). apply negb_true_iff in Hc. by rewrite Hc.
Qed.

(** [" ".join(words).split()] gives the words back when each is
    non-empty and has no blank. *)
Lemma split_ws_join ws :
  ws ≠ [] → Forall (λ w, w ≠ "" ∧ no_space w = true) ws → split_ws (str_join " " ws) = ws.
Proof.
  intros Hne Hws. cut (split_ws_go (str_join " " ws) = (default "" (head ws), tail ws)).
  { intros Hgo. unfold split_ws. rewrite Hgo. destruct ws as [|w ws]; [done|]. apply Forall_cons in Hws as [[Hw _] _].
    cbn. by rewrite bool_decide_false. }
  clear Hne. induction Hws as [|w ws [Hw Hnw] Hws IH]; [done|].
  destruct ws as [|w' ws'].
  - cbn [str_join]. rewrite <-(string_app_nil_r w), split_ws_go_word by done. by rewrite !string_app_nil_r.
  - change (str_join " " (w :: w' :: ws')) with (w +:+ String " " (str_join " " (w' :: ws'))).
    rewrite split_ws_go_word by done. cbn [split_ws_go].
    rewrite IH. apply Forall_cons in Hws as [[Hw' _] _]. cbn. rewrite bool_decide_false by done.
    by rewrite string_app_nil_r.
Qed.

Lemma all_chars_impl (p q : ascii → bool) s :
  (∀ c, p c = true → q c = true) → all_chars p s = true → all_chars q s = true.
Proof.
  intros Hpq. induction s as [|c s IH]; [done|]. cbn [all_chars].
  intros [Hc Hs]%andb_true_iff. by rewrite Hpq, IH.
Qed.
