(* ===== verification/PyInt.v ===== *)
(** * PyInt: CPython's conversions between [int] and decimal [str]

    Line 20 of [src/backend/app.py] computes [int(os.getenv("PORT", 5000))].
    When [PORT] is set, [os.getenv] returns a [str] and [int] parses it with
    [PyLong_FromUnicodeObject] / [PyLong_FromString] (base 10); when it is
    not, [int(5000)] returns the default unchanged.  This file models that
    parser on Latin-1 text (leading and trailing blanks as [int()] skips them, an
    optional sign, decimal digits with single underscores between them, the
    [sys.int_info.default_max_str_digits] limit of 4300 digits) and the
    printer [str(int)] ([long_to_decimal_string]), and proves that parsing
    inverts printing, also under white-space padding, and that over-long
    digit strings are refused. *)

From S2P Require Import Prelude.

Module PyInt.

(** ** The printer [str(int)] *)

Definition digit_char (d : nat) : ascii := ascii_of_nat (48 + d).
Arguments digit_char : simpl never.

(** Decimal digits of [n], most significant first; [fuel] bounds the
    number of digits (see [str_of_N]). *)
Fixpoint n_digits (fuel : nat) (n : N) : list nat :=
  match fuel with
  | O => []
  | S f =>
      if (n <? 10)%N then [N.to_nat n]
      else n_digits f (n / 10)%N ++ [N.to_nat (n mod 10)%N]
  end.

Definition string_of_digits (ds : list nat) : string :=
  foldr (λ d s, String (digit_char d) s) "" ds.

(** [N.size n] bits are at least as many as decimal digits, so the fuel
    [1 + N.size n] never runs out ([n_digits_value]). *)
Definition str_of_N (n : N) : string :=
  string_of_digits (n_digits (S (N.to_nat (N.size n))) n).

(** [str(z)]: a minus sign, then the digits of [|z|]. *)
Definition py_str (z : Z) : string :=
  if (z <? 0)%Z then "-" +:+ str_of_N (Z.abs_N z) else str_of_N (Z.to_N z).

(** ** The parser [int(str)] (base 10) *)

(** The blanks [int()] skips.  [PyLong_FromUnicodeObject] first runs
    [_PyUnicode_TransformDecimalAndSpaceToASCII], which keeps a code point
    below 127 as it is and maps a [Py_UNICODE_ISSPACE] code point from 127
    up to an ASCII space; the parser then skips [Py_ISSPACE], the six
    ASCII blanks [\t \n \v \f \r] and space.  So [0x1C..0x1F], which
    [str.isspace()] accepts, are not blanks for [int()]; [0x85] and [0xA0]
    are. *)
Definition int_isspace (c : ascii) : bool :=
  let n := nat_of_ascii c in
  if n <? 127 then bool_decide (9 ≤ n ≤ 13 ∨ n = 32) else str_isspace c.

(** Skip blanks: the [Py_ISSPACE] loops of
    [PyLong_FromString], before the sign and after the digits. *)
Fixpoint skip_space (s : string) : string :=
  match s with
  | String c s' => if int_isspace c then skip_space s' else s
  | EmptyString => s
  end.

(** An optional sign; [true] for ['-']. *)
Definition take_sign (s : string) : bool * string :=
  match s with
  | String "+"%char s' => (false, s')
  | String "-"%char s' => (true, s')
  | _ => (false, s)
  end.

(** The first pass of [long_from_string_base]: consume digits and
    underscores, counting the digits; two underscores in a row, or an
    underscore before the end of the run, is a syntax error ([None]). *)
Fixpoint scan (prev_us : bool) (s : string) (acc : N) (nd : nat)
  : option (N * nat * string) :=
  match s with
  | String c s' =>
      match py_digit c with
      | Some d => scan false s' (acc * 10 + N.of_nat d)%N (S nd)
      | None =>
          if bool_decide (c = "_"%char) then
            if prev_us then None else scan true s' acc nd
          else if prev_us then None else Some (acc, nd, s)
      end
  | EmptyString => if prev_us then None else Some (acc, nd, s)
  end.

Definition default_max_str_digits : nat := 4300.
Definition max_str_digits_threshold : nat := 640.

Definition invalid_literal : exn :=
  ValueError "invalid literal for int() with base 10".
Definition exceeds_limit : exn :=
  ValueError "Exceeds the limit for integer string conversion".

(** What follows the optional sign in [PyLong_FromString(s, NULL, 10)],
    with the end-of-buffer check of [PyLong_FromUnicodeObject]: a leading
    underscore is refused, the digit limit is checked after the scan (only
    above the 640-digit threshold and only when the limit is not 0), an
    empty digit run is refused, and only white space may follow the digits.
    The message omits the [repr] of the argument that CPython appends. *)
Definition parse_body (max_digits : nat) (neg : bool) (body : string) : result Z :=
  match body with
  | String "_"%char _ => raise! invalid_literal
  | _ =>
      match scan false body 0%N 0 with
      | None => raise! invalid_literal
      | Some (v, nd, rest) =>
          if (max_str_digits_threshold <? nd) && (0 <? max_digits) && (max_digits <? nd)
          then raise! exceeds_limit
          else if nd =? 0 then raise! invalid_literal
          else match skip_space rest with
               | EmptyString => Ok (if neg then (- Z.of_N v)%Z else Z.of_N v)
               | _ => raise! invalid_literal
               end
      end
  end.

(** [int(s)] for a [str] [s]: leading white space, the sign, the body. *)
Definition int_of_str (max_digits : nat) (s : string) : result Z :=
  let '(neg, body) := take_sign (skip_space s) in
  parse_body max_digits neg body.

(** [str(z)] as [long_to_decimal_string_internal] computes it, with the
    digit limit it checks once the string is built: longer than the
    640-character threshold and more than [max_digits] digits without the
    sign (when the limit is not 0) raise [ValueError]. *)
Definition exceeds_limit_to_str : exn :=
  ValueError "Exceeds the limit for integer string conversion; use sys.set_int_max_str_digits() to increase the limit".

Definition py_str_checked (max_digits : nat) (z : Z) : result string :=
  let s := py_str z in
  let nd := String.length (str_of_N (Z.abs_N z)) in
  if (max_str_digits_threshold <? String.length s) && (0 <? max_digits) && (max_digits <? nd)
  then raise! exceeds_limit_to_str else Ok s.

(** [int(v)] on the values [os.getenv] returns: [int] of an [int] is the
    identity, [int(None)] raises [TypeError]. *)
Definition py_int (max_digits : nat) (v : pyval) : result Z :=
  match v with
  | PyStr s => int_of_str max_digits s
  | PyInt z => Ok z
  | PyNone => raise! (TypeError "int() argument must be a string, a bytes-like object or a real number, not 'NoneType'")
  end.

(** ** Helpers on digit lists *)

(** The value of a digit list, as [scan] accumulates it. *)
Definition digits_value (acc : N) (ds : list nat) : N :=
  foldl (λ a d, a * 10 + N.of_nat d)%N acc ds.

(** [rest] stops a digit run: it is empty or starts with a character that
    is neither a digit nor an underscore. *)
Definition stops_run (rest : string) : Prop :=
  match rest with
  | EmptyString => True
  | String c _ => py_digit c = None ∧ c ≠ "_"%char
  end.

Lemma py_digit_digit_char d : d < 10 → py_digit (digit_char d) = Some d.
Proof. intros ?. do 10 (destruct d as [|d]; [reflexivity|]). lia. Qed.

Lemma n_digits_lt fuel n : Forall (λ d, d < 10) (n_digits fuel n).
Proof.
  revert n; induction fuel as [|f IH]; intros n; simpl; [constructor|].
  destruct (N.ltb_spec n 10); [constructor; [lia|constructor]|].
  apply Forall_app; split; [apply IH|constructor; [|constructor]].
  pose proof (N.mod_lt n 10). lia.
Qed.

Lemma n_digits_value fuel n :
  (n < 10 ^ N.of_nat fuel)%N → digits_value 0 (n_digits fuel n) = n.
Proof.
  revert n; induction fuel as [|f IH]; intros n Hn; simpl.
  - simpl in Hn. unfold digits_value. simpl. lia.
  - destruct (N.ltb_spec n 10); [unfold digits_value; simpl; lia|].
    unfold digits_value in *. rewrite foldl_app, IH; simpl.
    + rewrite N2Nat.id. pose proof (N.div_mod n 10). lia.
    + rewrite Nat2N.inj_succ, N.pow_succ_r' in Hn.
      apply N.Div0.div_lt_upper_bound; lia.
Qed.

Lemma n_digits_length fuel n k :
  0 < k → (n < 10 ^ N.of_nat k)%N → length (n_digits fuel n) ≤ k.
Proof.
  revert n k; induction fuel as [|f IH]; intros n k Hk Hn; simpl; [lia|].
  destruct (N.ltb_spec n 10); simpl; [lia|].
  rewrite length_app; simpl.
  destruct k as [|[|k]]; [lia| |].
  - simpl in Hn. lia.
  - enough (length (n_digits f (n / 10)) ≤ S k) by lia.
    apply IH; [lia|]. rewrite Nat2N.inj_succ, N.pow_succ_r' in Hn.
    apply N.Div0.div_lt_upper_bound; lia.
Qed.

Lemma n_digits_nonempty f n : n_digits (S f) n ≠ [].
Proof. simpl. case_match; [done|]. intros ?%app_eq_nil. naive_solver. Qed.

Lemma size_fuel n : (n < 10 ^ N.of_nat (S (N.to_nat (N.size n))))%N.
Proof.
  pose proof (N.size_gt n) as H. rewrite Nat2N.inj_succ, N2Nat.id.
  assert (2 ^ N.size n ≤ 10 ^ N.size n)%N by (apply N.pow_le_mono_l; lia).
  rewrite N.pow_succ_r'. lia.
Qed.

Lemma str_of_N_digits n :
  str_of_N n = string_of_digits (n_digits (S (N.to_nat (N.size n))) n).
Proof. reflexivity. Qed.

(** ** Helpers on the scanner *)

Lemma py_digit_not_int_space c d : py_digit c = Some d → int_isspace c = false.
Proof.
  unfold py_digit, int_isspace. intros H.
  destruct (48 <=? nat_of_ascii c) eqn:E1; [|discriminate].
  destruct (nat_of_ascii c <? 58) eqn:E2; [|discriminate].
  apply Nat.leb_le in E1. apply Nat.ltb_lt in E2.
  rewrite (proj2 (Nat.ltb_lt _ 127)) by lia. apply bool_decide_false. lia.
Qed.

(** Skipping blanks consumes [ws] exactly when every character of it is
    a blank. *)
Lemma skip_space_all ws : skip_space ws = "" ↔ all_chars int_isspace ws = true.
Proof.
  induction ws as [|c ws IH]; [done|]. simpl.
  destruct (int_isspace c); [exact IH|done].
Qed.

Lemma skip_space_app ws s : skip_space ws = "" → skip_space (ws +:+ s) = skip_space s.
Proof.
  induction ws as [|c ws IH]; [done|]. intros H. rewrite string_app_cons.
  simpl in *. destruct (int_isspace c); [by apply IH|discriminate].
Qed.

Lemma skip_space_digit c s : py_digit c ≠ None → skip_space (String c s) = String c s.
Proof. intros H. simpl. destruct (py_digit c) eqn:E; [|done]. by rewrite (py_digit_not_int_space _ _ E). Qed.

Lemma scan_stop rest acc nd : stops_run rest → scan false rest acc nd = Some (acc, nd, rest).
Proof.
  destruct rest as [|c rest]; simpl; [done|]. intros [-> Hus].
  by rewrite bool_decide_false.
Qed.

Lemma string_of_digits_cons d ds :
  string_of_digits (d :: ds) = String (digit_char d) (string_of_digits ds).
Proof. reflexivity. Qed.

Lemma scan_digits ds rest acc nd :
  Forall (λ d, d < 10) ds → stops_run rest →
  scan false (string_of_digits ds +:+ rest) acc nd
  = Some (digits_value acc ds, nd + length ds, rest).
Proof.
  revert acc nd. induction ds as [|d ds IH]; intros acc nd Hds Hrest.
  - rewrite Nat.add_0_r. by apply scan_stop.
  - apply Forall_cons in Hds as [Hd Hds].
    rewrite string_of_digits_cons, string_app_cons. cbn [scan].
    rewrite py_digit_digit_char, IH by done.
    replace (nd + length (d :: ds)) with (S nd + length ds) by (simpl; lia).
    reflexivity.
Qed.

Lemma stops_run_space ws : skip_space ws = "" → stops_run ws.
Proof.
  destruct ws as [|c ws]; simpl; [done|].
  destruct (int_isspace c) eqn:E; [|discriminate]. intros _.
  split; [destruct (py_digit c) eqn:D; [by rewrite (py_digit_not_int_space _ _ D) in E|done]|].
  by intros ->.
Qed.

Lemma str_of_N_cons n : ∃ d ds,
  str_of_N n = string_of_digits (d :: ds) ∧
  Forall (λ d, d < 10) (d :: ds) ∧ digits_value 0 (d :: ds) = n ∧
  d :: ds = n_digits (S (N.to_nat (N.size n))) n.
Proof.
  rewrite str_of_N_digits. pose proof (n_digits_lt (S (N.to_nat (N.size n))) n) as Hlt.
  pose proof (n_digits_value _ _ (size_fuel n)) as Hv.
  destruct (n_digits _ n) as [|d ds] eqn:E; [by apply n_digits_nonempty in E|].
  exists d, ds. naive_solver.
Qed.

(** A digit character is no sign and no underscore. *)
Lemma take_sign_digits d ds s :
  d < 10 → take_sign (string_of_digits (d :: ds) +:+ s) = (false, string_of_digits (d :: ds) +:+ s).
Proof.
  intros ?. rewrite string_of_digits_cons, string_app_cons.
  do 10 (destruct d as [|d]; [reflexivity|]). lia.
Qed.

Lemma skip_space_digits d ds s :
  d < 10 → skip_space (string_of_digits (d :: ds) +:+ s) = string_of_digits (d :: ds) +:+ s.
Proof.
  intros ?. rewrite string_of_digits_cons, string_app_cons.
  apply skip_space_digit. by rewrite py_digit_digit_char.
Qed.

(** A body that starts with a digit goes straight to the scan. *)
Lemma parse_body_digits_scan max_digits neg d ds ws :
  d < 10 → Forall (λ d, d < 10) ds → stops_run ws →
  parse_body max_digits neg (string_of_digits (d :: ds) +:+ ws)
  = let nd := length (d :: ds) in
    if (max_str_digits_threshold <? nd) && (0 <? max_digits) && (max_digits <? nd)
    then raise! exceeds_limit
    else if nd =? 0 then raise! invalid_literal
    else match skip_space ws with
         | EmptyString => Ok (if neg then (- Z.of_N (digits_value 0 (d :: ds)))%Z
                               else Z.of_N (digits_value 0 (d :: ds)))
         | _ => raise! invalid_literal
         end.
Proof.
  intros Hd Hds Hws. unfold parse_body.
  rewrite scan_digits by (by constructor || done).
  rewrite string_of_digits_cons, string_app_cons.
  do 10 (destruct d as [|d]; [reflexivity|]). lia.
Qed.

(** The body of a well-formed literal: digits, then white space. *)
Lemma parse_body_digits max_digits neg ds ws :
  ds ≠ [] → Forall (λ d, d < 10) ds → skip_space ws = "" →
  (max_digits = 0 ∨ length ds ≤ max_digits) →
  parse_body max_digits neg (string_of_digits ds +:+ ws)
  = Ok (if neg then (- Z.of_N (digits_value 0 ds))%Z else Z.of_N (digits_value 0 ds)).
Proof.
  intros Hne Hds Hws Hmax. destruct ds as [|d ds']; [done|].
  apply Forall_cons in Hds as [Hd Hds].
  rewrite parse_body_digits_scan by (done || by apply stops_run_space).
  cbv zeta. rewrite Hws.
  destruct Hmax as [->|Hmax]; [by rewrite andb_false_r|].
  by replace (max_digits <? length (d :: ds')) with false by (symmetry; apply Nat.ltb_ge; lia);
    rewrite andb_false_r.
Qed.

Lemma string_of_digits_length ds : String.length (string_of_digits ds) = length ds.
Proof. induction ds as [|d ds IH]; simpl; [done|]. by rewrite IH. Qed.

Lemma digits_value_lt acc ds :
  Forall (λ d, d < 10) ds → (digits_value acc ds < (acc + 1) * 10 ^ N.of_nat (length ds))%N.
Proof.
  revert acc. induction ds as [|d ds IH]; intros acc Hds; [unfold digits_value; simpl; lia|].
  apply Forall_cons in Hds as [Hd Hds]. unfold digits_value in *. simpl.
  specialize (IH (acc * 10 + N.of_nat d)%N Hds).
  rewrite Nat2N.inj_succ, N.pow_succ_r'. nia.
Qed.

(** [str(n)] has no leading zero, apart from ["0"] itself. *)
Lemma str_of_N_canonical n : ∃ d ds,
  str_of_N n = string_of_digits (d :: ds) ∧ Forall (λ d, d < 10) (d :: ds) ∧
  digits_value 0 (d :: ds) = n ∧ (d = 0 → ds = []).
Proof.
  destruct (str_of_N_cons n) as (d & ds & Hs & Hds & Hv & Hn).
  exists d, ds. split_and!; [done|done|done|]. intros ->.
  destruct ds as [|d' ds']; [done|]. exfalso.
  pose proof (digits_value_lt 0 (d' :: ds') (Forall_inv_tail Hds)) as Hlt.
  assert (Hle : length (n_digits (S (N.to_nat (N.size n))) n) ≤ length (d' :: ds')).
  { apply n_digits_length; [simpl; lia|]. rewrite <-Hv.
    change (digits_value 0 (0 :: d' :: ds')) with (digits_value 0 (d' :: ds')). lia. }
  rewrite <-Hn in Hle. simpl in Hle. lia.
Qed.

Lemma abs_bound_digits max_digits z :
  (Z.abs z < 10 ^ Z.of_nat max_digits)%Z → 0 < max_digits →
  length (n_digits (S (N.to_nat (N.size (Z.abs_N z)))) (Z.abs_N z)) ≤ max_digits.
Proof.
  intros Hz Hpos. apply n_digits_length; [done|].
  apply N2Z.inj_lt. rewrite N2Z.inj_pow, nat_N_Z, N2Z.inj_abs_N. lia.
Qed.

(** [str(z)] has at least the digits of [|z|]; an [int] that [repr]
    accepts under the default limit has at most that many digits. *)
Lemma py_str_length z : String.length (str_of_N (Z.abs_N z)) ≤ String.length (py_str z).
Proof.
  unfold py_str. destruct (Z.ltb_spec z 0).
  - rewrite string_length_app. lia.
  - by replace (Z.to_N z) with (Z.abs_N z) by lia.
Qed.

Lemma py_str_checked_digits z :
  is_ok (py_str_checked default_max_str_digits z) = true →
  String.length (str_of_N (Z.abs_N z)) ≤ default_max_str_digits.
Proof.
  unfold py_str_checked, default_max_str_digits, max_str_digits_threshold. cbv zeta.
  pose proof (py_str_length z).
  destruct (640 <? _) eqn:E1, (4300 <? _) eqn:E2; simpl; intros Hok; try discriminate;
    repeat match goal with
    | E : (_ <? _) = true |- _ => apply Nat.ltb_lt in E
    | E : (_ <? _) = false |- _ => apply Nat.ltb_ge in E
    end; lia.
Qed.

(** ** Properties *)

(** [int()] of [str(z)], padded with white space, when the digits of
    [|z|] are within the limit. *)
Lemma int_of_str_py_str_digits (max_digits : nat) (z : Z) (ws1 ws2 : string) :
  skip_space ws1 = "" → skip_space ws2 = "" →
  max_digits = 0 ∨ String.length (str_of_N (Z.abs_N z)) ≤ max_digits →
  int_of_str max_digits (ws1 +:+ py_str z +:+ ws2) = Ok z.
Proof.
  intros H1 H2 Hmax. unfold int_of_str. rewrite skip_space_app by done.
  destruct (str_of_N_cons (Z.abs_N z)) as (d & ds & Hs & Hds & Hv & Hn).
  rewrite Hs, string_of_digits_length in Hmax.
  unfold py_str. destruct (Z.ltb_spec z 0).
  - rewrite Hs, <-string_app_assoc, string_app_cons. cbn [skip_space].
    replace (int_isspace "-"%char) with false by reflexivity.
    rewrite string_app_nil_l. cbn [take_sign].
    rewrite parse_body_digits by done. rewrite Hv. f_equal. lia.
  - replace (Z.to_N z) with (Z.abs_N z) by lia. rewrite Hs.
    pose proof (Forall_inv Hds).
    rewrite skip_space_digits, take_sign_digits by done.
    rewrite parse_body_digits by done. rewrite Hv. f_equal. lia.
Qed.

(** C10: Parsing inverts printing: for every integer [z] within the digit
    limit, [int()] of [str(z)] padded on both sides with any blanks
    [int()] skips ([int_isspace]: [\t \n \v \f \r], space, [0x85],
    [0xA0]) returns [z]. *)
Theorem int_of_str_py_str (max_digits : nat) (z : Z) (ws1 ws2 : string) :
  all_chars int_isspace ws1 = true → all_chars int_isspace ws2 = true →
  max_digits = 0 ∨ (Z.abs z < 10 ^ Z.of_nat max_digits)%Z →
  int_of_str max_digits (ws1 +:+ py_str z +:+ ws2) = Ok z.
Proof.
  intros H1%skip_space_all H2%skip_space_all Hmax. apply int_of_str_py_str_digits; [done|done|].
  destruct Hmax as [|Hmax]; [by left|]. destruct max_digits; [by left|right].
  rewrite str_of_N_digits, string_of_digits_length. apply abs_bound_digits; [done|lia].
Qed.

(** C11: [int()] refuses more than [sys.get_int_max_str_digits()] digits:
    under the default limit of 4300, a run of 4301 or more decimal digits
    (leading zeros included) raises the limit's [ValueError], not a value. *)
Theorem int_of_str_digit_limit (ds : list nat) :
  Forall (λ d, d < 10) ds → default_max_str_digits < length ds →
  int_of_str default_max_str_digits (string_of_digits ds) = raise! exceeds_limit.
Proof.
  intros Hds Hlen. destruct ds as [|d ds']; [simpl in Hlen; lia|].
  apply Forall_cons in Hds as [Hd Hds']. unfold int_of_str.
  rewrite <-(string_app_nil_r (string_of_digits _)).
  rewrite skip_space_digits, take_sign_digits by done.
  rewrite parse_body_digits_scan by done.
  unfold default_max_str_digits, max_str_digits_threshold in *. cbv zeta.
  replace (640 <? length (d :: ds')) with true by (symmetry; apply Nat.ltb_lt; lia).
  replace (4300 <? length (d :: ds')) with true by (symmetry; apply Nat.ltb_lt; lia).
  done.
Qed.

(** Witnesses: [int("\xa0 5000")] and a 4301-digit string. *)
Lemma int_of_str_py_str_witness :
  all_chars int_isspace (String (ascii_of_nat 160) " ") = true ∧ all_chars int_isspace "" = true ∧
  (default_max_str_digits = 0 ∨ (Z.abs 5000 < 10 ^ Z.of_nat default_max_str_digits)%Z) ∧
  int_of_str default_max_str_digits (String (ascii_of_nat 160) " " +:+ py_str 5000 +:+ "") = Ok 5000%Z.
Proof.
  assert (Hb : default_max_str_digits = 0 ∨ (Z.abs 5000 < 10 ^ Z.of_nat default_max_str_digits)%Z)
    by (right; vm_compute; reflexivity).
  split; [reflexivity|]. split; [reflexivity|]. split; [exact Hb|].
  apply int_of_str_py_str; [reflexivity|reflexivity|exact Hb].
Defined.

Lemma int_of_str_digit_limit_witness :
  Forall (λ d, d < 10) (replicate 4301 7) ∧ default_max_str_digits < length (replicate 4301 7) ∧
  int_of_str default_max_str_digits (string_of_digits (replicate 4301 7)) = raise! exceeds_limit.
Proof.
  assert (H1 : Forall (λ d, d < 10) (replicate 4301 7)) by decide_eval.
  assert (H2 : default_max_str_digits < length (replicate 4301 7)) by decide_eval.
  split; [exact H1|]. split; [exact H2|]. apply int_of_str_digit_limit; [exact H1|exact H2].
Defined.

End PyInt.
