(* ===== verification/Json.v ===== *)
(** * Json: the body [jsonify] produces

    Line 17 of [src/backend/app.py] returns
    [jsonify({"message": "QR Feedback Flask API is running!"})].  Flask's
    [DefaultJSONProvider.response] serialises its argument with
    [json.dumps(obj, ensure_ascii=True, sort_keys=True, ...)], passing
    [indent=2] when the application is in debug mode and the compact
    separators [(",", ":")] otherwise, and appends a line feed.  This file
    models JSON values, the encoder of [json.encoder] (its [_make_iterencode]
    for containers and [py_encode_basestring_ascii] /
    [ascii_escape_unichar] for strings) and the body of [jsonify]. *)

From S2P Require Import Prelude PyInt.

Module Json.

(** Python values the encoder accepts (floats are not modelled: the code
    serialises none).  A [dict] is its list of items in insertion order. *)
Inductive jvalue :=
  | JNull
  | JBool (b : bool)
  | JInt (z : Z)
  | JStr (s : string)
  | JList (xs : list jvalue)
  | JObject (kvs : list (string * jvalue)).

(** ** Strings: [py_encode_basestring_ascii] *)

Definition hex_char (n : nat) : ascii :=
  match String.get n "0123456789abcdef" with Some c => c | None => "0"%char end.

(** [ascii_escape_unichar]: the two-character escapes of [ESCAPE_DCT], the
    printable range [' '..'~'] unchanged, every other code as [\u00XX]
    with lower-case hexadecimal digits. *)
Definition escape_char (c : ascii) : string :=
  let n := nat_of_ascii c in
  if bool_decide (n = 34) then String bs_char (String dq_char "")
  else if bool_decide (n = 92) then String bs_char (String bs_char "")
  else if bool_decide (n = 8) then String bs_char "b"
  else if bool_decide (n = 12) then String bs_char "f"
  else if bool_decide (n = 10) then String bs_char "n"
  else if bool_decide (n = 13) then String bs_char "r"
  else if bool_decide (n = 9) then String bs_char "t"
  else if (32 <=? n) && (n <=? 126) then String c ""
  else String bs_char ("u00" +:+ String (hex_char (n / 16)) (String (hex_char (n mod 16)) "")).

Fixpoint escape_body (s : string) : string :=
  match s with
  | EmptyString => ""
  | String c s' => escape_char c +:+ escape_body s'
  end.

(** The quoted, escaped form of a [str]. *)
Definition encode_str (s : string) : string :=
  String dq_char (escape_body s +:+ String dq_char "").

(** ** Containers: [_make_iterencode] *)

(** The encoder's options as [json.dumps] receives them from Flask. *)
Record dump_opts := {
  indent : option nat;
  item_separator : string;
  key_separator : string
}.

(** [indent=2]: [JSONEncoder] then defaults [separators] to [(",", ": ")]. *)
Definition pretty_opts : dump_opts :=
  {| indent := Some 2; item_separator := ","; key_separator := ": " |}.
(** The compact separators Flask passes outside debug mode. *)
Definition compact_opts : dump_opts :=
  {| indent := None; item_separator := ","; key_separator := ":" |}.

Definition spaces (n : nat) : string := String.concat "" (repeat " " n).

(** [newline_indent] at a nesting level: ['\n' + _indent * level], or
    nothing without indentation. *)
Definition newline_indent (o : dump_opts) (lvl : nat) : string :=
  match indent o with
  | Some k => String nl_char (spaces (k * lvl))
  | None => ""
  end.

(** [sorted(dct.items())]: items ordered by key.  A [dict] has distinct
    keys, so the tuple comparison never reaches the values. *)
Definition key_le (a b : string * string) : Prop := String.le a.1 b.1.
#[export] Instance key_le_dec : RelDecision key_le.
Proof. intros a b. unfold key_le. apply _. Defined.

Definition sort_items (kvs : list (string * string)) : list (string * string) :=
  merge_sort key_le kvs.

(** The container's body: the first [newline_indent], the items joined by
    [item_separator + newline_indent], the closing [newline_indent] one
    level out. *)
Definition wrap_items (o : dump_opts) (lvl : nat) (op cl : string) (items : list string) : string :=
  match items with
  | [] => op +:+ cl
  | _ =>
      op +:+ newline_indent o (S lvl)
         +:+ str_join (item_separator o +:+ newline_indent o (S lvl)) items
         +:+ newline_indent o lvl +:+ cl
  end.

(** The values of a dict are encoded before the items are sorted; the
    encoding has no effect, so this is the order-independent reading of
    [for key, value in sorted(dct.items())]. *)
Fixpoint encode (o : dump_opts) (lvl : nat) (v : jvalue) : string :=
  match v with
  | JNull => "null"
  | JBool true => "true"
  | JBool false => "false"
  | JInt z => PyInt.py_str z
  | JStr s => encode_str s
  | JList xs => wrap_items o lvl "[" "]" (map (encode o (S lvl)) xs)
  | JObject kvs =>
      wrap_items o lvl "{" "}"
        (map (λ kv, encode_str kv.1 +:+ key_separator o +:+ kv.2)
           (sort_items (map (λ kv, (kv.1, encode o (S lvl) kv.2)) kvs)))
  end.

(** The integers of a value all print: [int.__repr__], which the encoder
    calls on each, raises [ValueError] beyond the digit limit. *)
Fixpoint ints_print (v : jvalue) : bool :=
  match v with
  | JInt z => is_ok (PyInt.py_str_checked PyInt.default_max_str_digits z)
  | JList xs => forallb ints_print xs
  | JObject kvs => forallb (λ kv, ints_print kv.2) kvs
  | _ => true
  end.

(** [json.dumps] with Flask's options.  The encoder's only effect is its
    result, so it raises exactly when one of the integers does not print;
    otherwise it returns [encode]'s text. *)
Definition dumps (debug : bool) (v : jvalue) : result string :=
  if ints_print v then Ok (encode (if debug then pretty_opts else compact_opts) 0 v)
  else raise! PyInt.exceeds_limit_to_str.

(** [DefaultJSONProvider.response]: the dump followed by a line feed. *)
Definition jsonify_body (debug : bool) (v : jvalue) : result string :=
  s ← dumps debug v; mret (s +:+ String nl_char "").

(** The argument of [jsonify] on line 17. *)
Definition index_message : string := "QR Feedback Flask API is running!".
Definition index_payload : jvalue := JObject [("message", JStr index_message)].

(** ** Induction on values *)

Section jvalue_ind.
Context (P : jvalue → Prop)
  (Pnull : P JNull) (Pbool : ∀ b, P (JBool b)) (Pint : ∀ z, P (JInt z))
  (Pstr : ∀ s, P (JStr s))
  (Plist : ∀ xs, Forall P xs → P (JList xs))
  (Pobj : ∀ kvs, Forall (λ kv, P kv.2) kvs → P (JObject kvs)).

Fixpoint jvalue_ind' (v : jvalue) : P v :=
  match v with
  | JNull => Pnull
  | JBool b => Pbool b
  | JInt z => Pint z
  | JStr s => Pstr s
  | JList xs =>
      Plist xs ((fix go (xs : list jvalue) : Forall P xs := match xs with
                 | [] => List.Forall_nil _
                 | x :: xs' => List.Forall_cons _ _ _ (jvalue_ind' x) (go xs') end) xs)
  | JObject kvs =>
      Pobj kvs ((fix go (kvs : list (string * jvalue)) : Forall (λ kv, P kv.2) kvs :=
                 match kvs with
                 | [] => List.Forall_nil _
                 | kv :: kvs' => List.Forall_cons _ _ _ (jvalue_ind' kv.2) (go kvs') end) kvs)
  end.
End jvalue_ind.

(** ** Printable output *)

(** A printable ASCII character, [' '..'~']. *)
Definition printable (c : ascii) : bool := (32 <=? nat_of_ascii c) && (nat_of_ascii c <=? 126).

Lemma escape_char_printable c : all_chars printable (escape_char c) = true.
Proof. destruct c as [[] [] [] [] [] [] [] []]; vm_compute; reflexivity. Qed.

Lemma escape_body_printable s : all_chars printable (escape_body s) = true.
Proof. induction s; [done|]. cbn [escape_body]. by rewrite all_chars_app, escape_char_printable. Qed.

Lemma encode_str_printable s : all_chars printable (encode_str s) = true.
Proof.
  unfold encode_str. cbn [all_chars].
  by rewrite all_chars_app, escape_body_printable.
Qed.

Lemma digits_printable ds : Forall (λ d, d < 10) ds → all_chars printable (PyInt.string_of_digits ds) = true.
Proof.
  induction 1 as [|d ds Hd _ IH]; [done|].
  rewrite PyInt.string_of_digits_cons. cbn [all_chars]. rewrite IH, andb_true_r.
  do 10 (destruct d as [|d]; [reflexivity|]). lia.
Qed.

Lemma py_str_printable z : all_chars printable (PyInt.py_str z) = true.
Proof.
  unfold PyInt.py_str. destruct (Z.ltb _ _).
  - destruct (PyInt.str_of_N_cons (Z.abs_N z)) as (d & ds & -> & Hds & _).
    rewrite all_chars_app, digits_printable; done.
  - destruct (PyInt.str_of_N_cons (Z.to_N z)) as (d & ds & -> & Hds & _).
    by apply digits_printable.
Qed.

Lemma str_join_printable sep xs :
  all_chars printable sep = true → Forall (λ x, all_chars printable x = true) xs →
  all_chars printable (str_join sep xs) = true.
Proof.
  intros Hsep. induction 1 as [|x xs Hx _ IH]; [done|].
  destruct xs as [|y xs]; [done|].
  change (str_join sep (x :: y :: xs)) with (x +:+ sep +:+ str_join sep (y :: xs)).
  by rewrite !all_chars_app, Hx, Hsep, IH.
Qed.

Lemma wrap_items_compact_printable lvl op cl items :
  all_chars printable op = true → all_chars printable cl = true →
  Forall (λ x, all_chars printable x = true) items →
  all_chars printable (wrap_items compact_opts lvl op cl items) = true.
Proof.
  intros Hop Hcl Hitems. unfold wrap_items.
  destruct items; [by rewrite all_chars_app, Hop, Hcl|].
  unfold newline_indent; simpl (indent _).
  rewrite !all_chars_app, Hop, Hcl, str_join_printable; done.
Qed.

(** ** Sorting of dict items *)

#[export] Instance key_le_trans : Transitive key_le.
Proof. intros a b c. unfold key_le. apply transitivity. Qed.
#[export] Instance key_le_total : Total key_le.
Proof. intros a b. unfold key_le. apply total, _. Qed.

Lemma nodup_keys_eq (l : list (string * string)) a b :
  NoDup l.*1 → a ∈ l → b ∈ l → a.1 = b.1 → a = b.
Proof.
  induction l as [|x l IH]; intros Hnd Ha Hb Hk; [by apply elem_of_nil in Ha|].
  rewrite fmap_cons in Hnd. apply NoDup_cons in Hnd as [Hx Hnd].
  apply elem_of_cons in Ha as [->|Ha], Hb as [->|Hb]; [done| | |by apply IH].
  - destruct Hx. rewrite Hk. by apply list_elem_of_fmap_2.
  - destruct Hx. rewrite <-Hk. by apply list_elem_of_fmap_2.
Qed.

(** [sorted(dct.items())] is determined by the keys alone: for items
    with distinct keys (a [dict]'s), the result of [sort_items] is the one
    and only permutation of the items that is sorted by key. *)
Theorem sort_items_unique (kvs l : list (string * string)) :
  NoDup kvs.*1 → Sorted key_le l → l ≡ₚ kvs → sort_items kvs = l.
Proof.
  intros Hnd Hl Hperm. unfold sort_items.
  apply (Sorted_unique_strong key_le); [|apply Sorted_merge_sort|done|].
  - intros x1 x2 Hx1 Hx2 H12 H21. apply (nodup_keys_eq kvs); [done| | |].
    + by rewrite (merge_sort_Permutation key_le kvs) in Hx1.
    + by rewrite Hperm in Hx2.
    + apply (anti_symm String.le); done.
  - apply _.
  - etrans; [apply merge_sort_Permutation|]. by symmetry.
Qed.

(** C12: With the compact separators (Flask outside debug mode) and
    [ensure_ascii=True], the dump of any value is printable ASCII: every
    control character of a string is escaped and no line break is
    emitted. *)
Theorem dumps_compact_printable (v : jvalue) (s : string) :
  dumps false v = Ok s → all_chars printable s = true.
Proof.
  unfold dumps. destruct (ints_print v); [intros [= <-]|discriminate]. generalize 0. induction v as [|b|z|s|xs IH|kvs IH] using jvalue_ind'; intros lvl;
    cbn [encode]; [done|by destruct b| | | |].
  - apply py_str_printable.
  - apply encode_str_printable.
  - apply wrap_items_compact_printable; [done..|]. apply Forall_fmap.
    eapply Forall_impl; [exact IH|]. naive_solver.
  - apply wrap_items_compact_printable; [done..|]. apply Forall_fmap.
    unfold sort_items. rewrite (merge_sort_Permutation key_le). apply Forall_fmap.
    eapply Forall_impl; [exact IH|]. intros [k x] Hx. cbn [compose fst snd] in *.
    by rewrite !all_chars_app, encode_str_printable, Hx.
Qed.

Lemma dumps_compact_printable_witness :
  dumps false index_payload = Ok (encode compact_opts 0 index_payload) ∧
  all_chars printable (encode compact_opts 0 index_payload) = true.
Proof.
  assert (H : dumps false index_payload = Ok (encode compact_opts 0 index_payload)) by reflexivity.
  split; [exact H|]. exact (dumps_compact_printable _ _ H).
Defined.

End Json.
