(* ===== verification/JsonDecode.v ===== *)
(** * JsonDecode: Python's [json.loads]

    firebase_admin reads JSON text twice on the way through lines 11-12 of
    [src/backend/app.py]: [credentials.Certificate] runs [json.load] on
    the key file, and [initialize_app] runs [json.loads] on
    [FIREBASE_CONFIG] when it holds JSON.  Both run CPython's default
    decoder: [JSONDecoder.decode] around the C scanner of [_json.c]
    ([scan_once_unicode], [scanstring_unicode], [_parse_object_unicode],
    [_parse_array_unicode], [_match_number_unicode]).  This file models
    that decoder on a [str] given as its code points, with its errors
    ([JSONDecodeError] and its position, or the [ValueError] of [int] on
    an over-long number), and relates it to the encoder of [Json].  The
    scanner is the one of CPython 3.12; 3.13 adds an error for a trailing
    comma in an array or object, which 3.12 reports as [Expecting value]
    or as a missing property name.

    Floats keep the exact decimal value of their literal ([PFloat m e] is
    [m * 10^e]; CPython rounds it to the nearest double).  The depth of
    nesting is not bounded here ([Py_EnterRecursiveCall] raises
    [RecursionError] near the interpreter's recursion limit). *)

From S2P Require Import Prelude PyInt Json.

Module JsonDecode.

(** A [str] as its code points. *)
Abbreviation ustr := (list N).

Definition uc (c : ascii) : N := N_of_ascii c.

Definition ustr_of (s : string) : ustr := uc <$> String.list_ascii_of_string s.

(** The digits of a number literal back as a [str] for [int()]. *)
Definition string_of_ustr (s : ustr) : string := String.string_of_list_ascii (ascii_of_N <$> s).

(** What [json.loads] builds: [None], [bool], [int], [float] (with
    [nan] and the infinities), [str], [list] and [dict] (its items in
    insertion order). *)
Inductive pyobj :=
  | PNone
  | PBool (b : bool)
  | PInt (z : Z)
  | PFloat (mant : Z) (exp : Z)
  | PNaN
  | PInf (neg : bool)
  | PStr (s : ustr)
  | PList (xs : list pyobj)
  | PDict (kvs : list (ustr * pyobj)).

(** ** Characters *)

(** [IS_WHITESPACE]: space, tab, line feed, carriage return. *)
Definition is_ws (c : N) : bool := bool_decide (c = 32 ∨ c = 9 ∨ c = 10 ∨ c = 13)%N.

Fixpoint skip_ws (s : ustr) : ustr :=
  match s with
  | c :: s' => if is_ws c then skip_ws s' else s
  | [] => []
  end.

Definition is_digit (c : N) : bool := bool_decide (48 ≤ c ≤ 57)%N.

Fixpoint take_digits (s : ustr) : ustr * ustr :=
  match s with
  | c :: s' => if is_digit c then let (ds, r) := take_digits s' in (c :: ds, r) else ([], s)
  | [] => ([], [])
  end.

(** A hexadecimal digit of a [\uXXXX] escape. *)
Definition hex_value (c : N) : option N :=
  if bool_decide (48 ≤ c ≤ 57)%N then Some (c - 48)%N
  else if bool_decide (97 ≤ c ≤ 102)%N then Some (c - 87)%N
  else if bool_decide (65 ≤ c ≤ 70)%N then Some (c - 55)%N
  else None.

Definition hex4 (a b c d : N) : option N :=
  da ← hex_value a; db ← hex_value b; dc ← hex_value c; dd ← hex_value d;
  Some (((da * 16 + db) * 16 + dc) * 16 + dd)%N.

(** The one-letter escapes: double quote, backslash, slash, b, f, n, r, t. *)
Definition simple_escape (c : N) : option N :=
  if bool_decide (c = uc dq_char) then Some (uc dq_char)
  else if bool_decide (c = uc bs_char) then Some (uc bs_char)
  else if bool_decide (c = uc "/") then Some (uc "/")
  else if bool_decide (c = uc "b") then Some 8%N
  else if bool_decide (c = uc "f") then Some 12%N
  else if bool_decide (c = uc "n") then Some 10%N
  else if bool_decide (c = uc "r") then Some 13%N
  else if bool_decide (c = uc "t") then Some 9%N
  else None.

Definition is_high_surrogate (c : N) : bool := bool_decide (55296 ≤ c ≤ 56319)%N.
Definition is_low_surrogate (c : N) : bool := bool_decide (56320 ≤ c ≤ 57343)%N.

(** [Py_UNICODE_JOIN_SURROGATES] *)
Definition join_surrogates (hi lo : N) : N := (65536 + (hi - 55296) * 1024 + (lo - 56320))%N.

Section scanner.

(** The document, for the positions of errors: the index of the text
    [rest] that is left. *)
Variable doc : ustr.

Definition decode_error (msg : string) (rest : ustr) : exn :=
  JSONDecodeError msg (length doc - length rest).

(** ** [scanstring_unicode] with [strict=True] *)

(** The characters of a string after its opening quote, up to the closing
    quote; [begin] is the text from the opening quote. *)
Fixpoint scan_chars (begin s : ustr) {struct s} : result (ustr * ustr) :=
  match s with
  | [] => raise! (decode_error "Unterminated string starting at" begin)
  | c :: s' =>
      if bool_decide (c = uc dq_char) then Ok ([], s')
      else if bool_decide (c = uc bs_char) then
        match s' with
        | [] => raise! (decode_error "Unterminated string starting at" begin)
        | e :: s'' =>
            if bool_decide (e = uc "u") then
              match s'' with
              | h1 :: h2 :: h3 :: h4 :: s3 =>
                  if bool_decide (s3 = []) then raise! (decode_error "Invalid \uXXXX escape" s')
                  else match hex4 h1 h2 h3 h4 with
                  | None => raise! (decode_error "Invalid \uXXXX escape" s')
                  | Some cp =>
                      match s3 with
                      | b :: u :: g1 :: g2 :: g3 :: g4 :: s4 =>
                          if is_high_surrogate cp && bool_decide (s4 ≠ [])
                             && bool_decide (b = uc bs_char) && bool_decide (u = uc "u") then
                            match hex4 g1 g2 g3 g4 with
                            | None => raise! (decode_error "Invalid \uXXXX escape" (u :: g1 :: g2 :: g3 :: g4 :: s4))
                            | Some lo =>
                                if is_low_surrogate lo
                                then (λ vr, (join_surrogates cp lo :: vr.1, vr.2)) <$> scan_chars begin s4
                                else (λ vr, (cp :: vr.1, vr.2)) <$> scan_chars begin s3
                            end
                          else (λ vr, (cp :: vr.1, vr.2)) <$> scan_chars begin s3
                      | _ => (λ vr, (cp :: vr.1, vr.2)) <$> scan_chars begin s3
                      end
                  end
              | _ => raise! (decode_error "Invalid \uXXXX escape" s')
              end
            else match simple_escape e with
                 | Some ch => (λ vr, (ch :: vr.1, vr.2)) <$> scan_chars begin s''
                 | None => raise! (decode_error "Invalid \escape" s)
                 end
        end
      else if bool_decide (c ≤ 31)%N then raise! (decode_error "Invalid control character at" s)
      else (λ vr, (c :: vr.1, vr.2)) <$> scan_chars begin s'
  end.

(** ** [_match_number_unicode] *)

(** The value of a digit string. *)
Definition digits_Z (ds : ustr) : Z := foldl (λ a d, a * 10 + Z.of_N (d - 48))%Z 0%Z ds.

(** An optional minus, then [0] or a digit run not starting with [0]; a
    fraction [.] with at least one digit; an exponent [e] or [E] with an
    optional sign and at least one digit (else the exponent is not read).
    An integer goes through [PyLong_FromString], with its digit limit. *)
Definition match_number (s : ustr) : result (pyobj * ustr) :=
  let '(neg, s1) := match s with
                    | c :: t => if bool_decide (c = uc "-") then (true, t) else (false, s)
                    | [] => (false, s)
                    end in
  let int_part :=
    match s1 with
    | c :: s2 =>
        if bool_decide (49 ≤ c ≤ 57)%N then let (ds, s3) := take_digits s2 in Some (c :: ds, s3)
        else if bool_decide (c = 48)%N then Some ([c], s2)
        else None
    | [] => None
    end in
  match int_part with
  | None => raise! (decode_error "Expecting value" s)
  | Some (ids, s3) =>
      let '(frac, s4) :=
        match s3 with
        | c :: d :: t =>
            if bool_decide (c = uc ".") && is_digit d then let (fs, r) := take_digits t in (d :: fs, r)
            else ([], s3)
        | _ => ([], s3)
        end in
      let '(exp, s5) :=
        match s4 with
        | c :: t =>
            if bool_decide (c = uc "e" ∨ c = uc "E") then
              let '(eneg, t1) := match t with
                                 | d :: t' => if bool_decide (d = uc "-") then (true, t')
                                              else if bool_decide (d = uc "+") then (false, t')
                                              else (false, t)
                                 | [] => (false, t)
                                 end in
              let (eds, t2) := take_digits t1 in
              match eds with
              | [] => (None, s4)
              | _ => (Some (if eneg then - digits_Z eds else digits_Z eds)%Z, t2)
              end
            else (None, s4)
        | [] => (None, s4)
        end in
      let mant := if neg then (- digits_Z (ids ++ frac))%Z else digits_Z (ids ++ frac) in
      match frac, exp with
      | [], None =>
          z ← PyInt.int_of_str PyInt.default_max_str_digits
                (string_of_ustr (if neg then uc "-" :: ids else ids));
          mret (PInt z, s5)
      | _, _ => mret (PFloat mant (default 0 exp - Z.of_nat (length frac))%Z, s5)
      end
  end.

(** ** [scan_once_unicode], [_parse_array_unicode], [_parse_object_unicode]

    Each call and each round of a loop takes one unit of [fuel]; [None]
    is the end of the fuel.  [StopIteration] is reported as the
    [JSONDecodeError] ["Expecting value"] that [raw_decode] makes of it. *)

Definition starts_with (w : string) (s : ustr) : bool := bool_decide (ustr_of w `prefix_of` s).

Fixpoint scan_once (fuel : nat) (s : ustr) {struct fuel} : option (result (pyobj * ustr)) :=
  match fuel with
  | O => None
  | S fuel' =>
      match s with
      | [] => Some (raise! (decode_error "Expecting value" s))
      | c :: s' =>
          if bool_decide (c = uc dq_char) then Some ((λ vr, (PStr vr.1, vr.2)) <$> scan_chars s s')
          else if bool_decide (c = uc "{") then
            let s1 := skip_ws s' in
            match s1 with
            | d :: s2 => if bool_decide (d = uc "}") then Some (Ok (PDict [], s2)) else object_items fuel' s1 []
            | [] => object_items fuel' s1 []
            end
          else if bool_decide (c = uc "[") then
            let s1 := skip_ws s' in
            match s1 with
            | d :: s2 => if bool_decide (d = uc "]") then Some (Ok (PList [], s2)) else array_items fuel' s1 []
            | [] => array_items fuel' s1 []
            end
          else if starts_with "null" s then Some (Ok (PNone, drop 4 s))
          else if starts_with "true" s then Some (Ok (PBool true, drop 4 s))
          else if starts_with "false" s then Some (Ok (PBool false, drop 5 s))
          else if starts_with "NaN" s then Some (Ok (PNaN, drop 3 s))
          else if starts_with "Infinity" s then Some (Ok (PInf false, drop 8 s))
          else if starts_with "-Infinity" s then Some (Ok (PInf true, drop 9 s))
          else Some (match_number s)
      end
  end

(** The loop of [_parse_array_unicode], at an item; [acc] holds the items
    read, last first. *)
with array_items (fuel : nat) (s : ustr) (acc : list pyobj) {struct fuel} : option (result (pyobj * ustr)) :=
  match fuel with
  | O => None
  | S fuel' =>
      match scan_once fuel' s with
      | None => None
      | Some (Raise e) => Some (Raise e)
      | Some (Ok (v, r)) =>
          let r1 := skip_ws r in
          match r1 with
          | c :: r2 =>
              if bool_decide (c = uc "]") then Some (Ok (PList (rev (v :: acc)), r2))
              else if bool_decide (c = uc ",") then array_items fuel' (skip_ws r2) (v :: acc)
              else Some (raise! (decode_error "Expecting ',' delimiter" r1))
          | [] => Some (raise! (decode_error "Expecting ',' delimiter" r1))
          end
      end
  end

(** The loop of [_parse_object_unicode], at a key; [acc] is the [dict]
    built so far ([PyDict_SetItem]: a repeated key keeps its place and
    takes the new value). *)
with object_items (fuel : nat) (s : ustr) (acc : list (ustr * pyobj)) {struct fuel} :
    option (result (pyobj * ustr)) :=
  match fuel with
  | O => None
  | S fuel' =>
      match s with
      | c :: s' =>
          if bool_decide (c = uc dq_char) then
            match scan_chars s s' with
            | Raise e => Some (Raise e)
            | Ok (k, r) =>
                let r1 := skip_ws r in
                match r1 with
                | d :: r2 =>
                    if bool_decide (d = uc ":") then
                      match scan_once fuel' (skip_ws r2) with
                      | None => None
                      | Some (Raise e) => Some (Raise e)
                      | Some (Ok (v, r3)) =>
                          let acc' := dict_set k v acc in
                          let r4 := skip_ws r3 in
                          match r4 with
                          | e :: r5 =>
                              if bool_decide (e = uc "}") then Some (Ok (PDict acc', r5))
                              else if bool_decide (e = uc ",") then object_items fuel' (skip_ws r5) acc'
                              else Some (raise! (decode_error "Expecting ',' delimiter" r4))
                          | [] => Some (raise! (decode_error "Expecting ',' delimiter" r4))
                          end
                      end
                    else Some (raise! (decode_error "Expecting ':' delimiter" r1))
                | [] => Some (raise! (decode_error "Expecting ':' delimiter" r1))
                end
            end
          else Some (raise! (decode_error "Expecting property name enclosed in double quotes" s))
      | [] => Some (raise! (decode_error "Expecting property name enclosed in double quotes" s))
      end
  end.

End scanner.

(** ** [json.loads] *)

(** [json.loads(s)]: a leading byte-order mark is refused; then
    [JSONDecoder.decode]: blanks, one value, blanks, and nothing else. *)
Definition loads_fuel (fuel : nat) (doc : ustr) : option (result pyobj) :=
  if bool_decide (head doc = Some 65279%N) then
    Some (raise! (JSONDecodeError "Unexpected UTF-8 BOM (decode using utf-8-sig)" 0))
  else
    match scan_once doc fuel (skip_ws doc) with
    | None => None
    | Some (Raise e) => Some (Raise e)
    | Some (Ok (v, r)) =>
        match skip_ws r with
        | [] => Some (Ok v)
        | r' => Some (raise! (decode_error doc "Extra data" r'))
        end
    end.

(** Fuel for a document: each step consumes a character, and an item of
    an array or an object takes two steps ([scan_total]). *)
Definition loads_bound (doc : ustr) : nat := S (2 * length doc).

(** [json.loads] on a [str].  The fuel never runs out
    ([loads_fuel_enough]), so the last branch is never taken. *)
Definition loads (doc : ustr) : result pyobj :=
  match loads_fuel (loads_bound doc) doc with
  | Some r => r
  | None => raise! (JSONDecodeError "Expecting value" 0)
  end.

(** ** What [json.loads] returns for a dumped value

    The value [json.loads] builds from the text [json.dumps] made of a
    Python value: the same value, with the items of each [dict] in the
    order of their keys (Flask dumps with [sort_keys=True]) and every
    [str] as its code points. *)

Definition by_key {A} (a b : string * A) : Prop := String.le a.1 b.1.
#[export] Instance by_key_dec {A} : RelDecision (@by_key A).
Proof. intros a b. unfold by_key. apply _. Defined.

Fixpoint to_pyobj (v : Json.jvalue) : pyobj :=
  match v with
  | Json.JNull => PNone
  | Json.JBool b => PBool b
  | Json.JInt z => PInt z
  | Json.JStr s => PStr (ustr_of s)
  | Json.JList xs => PList (map to_pyobj xs)
  | Json.JObject kvs =>
      PDict (map (λ kv, (ustr_of kv.1, kv.2)) (merge_sort by_key (map (λ kv, (kv.1, to_pyobj kv.2)) kvs)))
  end.

Fixpoint keys_unique (v : Json.jvalue) : bool :=
  match v with
  | Json.JList xs => forallb keys_unique xs
  | Json.JObject kvs => bool_decide (NoDup kvs.*1) && forallb (λ kv, keys_unique kv.2) kvs
  | _ => true
  end.

(** ** Fuel

    Every step of the scanner consumes text ([scan_shorter]), so fuel
    above twice the length of the text never runs out ([scan_total]), and
    more fuel never changes a result ([scan_mono]). *)

Section fuel.
Variable doc : ustr.

Lemma scan_chars_shorter b s k r : scan_chars doc b s = Ok (k, r) → length r < length s.
Proof.
  remember (length s) as n eqn:Hn. revert s k r Hn.
  induction n as [n IH] using (well_founded_induction lt_wf). intros s k r -> H.
  destruct s as [|c s']; cbn [scan_chars] in H; [discriminate|].
  repeat (case_match; simplify_eq).
  all: try (apply fmap_eq_Ok in H as ([k' r'] & E & [= -> ->])).
  all: try match goal with
  | E : scan_chars _ _ ?x = Ok (_, ?r) |- _ =>
      assert (length r < length x) by (eapply IH; [|reflexivity|exact E]; simpl; lia)
  end.
  all: simpl in *; try lia.
Qed.
Lemma skip_ws_length s : length (skip_ws s) ≤ length s.
Proof. induction s as [|c s IH]; simpl; [lia|]. destruct (is_ws c); simpl; lia. Qed.

Lemma take_digits_length s ds r : take_digits s = (ds, r) → length r ≤ length s.
Proof.
  revert ds. induction s as [|c s IH]; simpl; intros ds; [by intros [= _ <-]|].
  destruct (is_digit c); [|intros [= _ <-]; simpl; lia].
  destruct (take_digits s) as [ds' r'] eqn:E. intros [= _ <-]. specialize (IH _ eq_refl). lia.
Qed.

Ltac len_facts :=
  repeat match goal with
  | H : skip_ws ?x = ?y |- _ =>
      let L := fresh "L" in pose proof (skip_ws_length x) as L; rewrite H in L; simpl in L; clear H
  | H : take_digits ?x = _ |- _ =>
      let L := fresh "L" in pose proof (take_digits_length _ _ _ H) as L; simpl in L; clear H
  | H : context [length (skip_ws ?x)] |- _ =>
      lazymatch goal with
      | _ : length (skip_ws x) ≤ length x |- _ => fail
      | _ => pose proof (skip_ws_length x)
      end
  | |- context [length (skip_ws ?x)] =>
      lazymatch goal with
      | _ : length (skip_ws x) ≤ length x |- _ => fail
      | _ => pose proof (skip_ws_length x)
      end
  end.

Lemma match_number_shorter s v r : match_number doc s = Ok (v, r) → length r < length s.
Proof.
  unfold match_number. intros H.
  repeat (case_match; simplify_eq).
  all: try (apply bind_eq_Ok in H as (? & _ & H)).
  all: try (unfold mret, result_ret in H; injection H as <- <-).
  all: len_facts; simpl in *; try lia.
Qed.

Lemma drop_shorter n (c : N) (s : ustr) : 0 < n → length (drop n (c :: s)) < length (c :: s).
Proof. intros ?. rewrite length_drop. simpl. lia. Qed.

Ltac rem_facts IH :=
  repeat match goal with
  | H : scan_once doc _ ?x = Some (Ok (_, _)) |- _ =>
      let L := fresh "L" in pose proof (proj1 IH _ _ _ H) as L; clear H
  | H : array_items doc _ ?x _ = Some (Ok (_, _)) |- _ =>
      let L := fresh "L" in pose proof (proj1 (proj2 IH) _ _ _ _ H) as L; clear H
  | H : object_items doc _ ?x _ = Some (Ok (_, _)) |- _ =>
      let L := fresh "L" in pose proof (proj2 (proj2 IH) _ _ _ _ H) as L; clear H
  | H : scan_chars doc _ _ = Ok (_, _) |- _ =>
      let L := fresh "L" in pose proof (scan_chars_shorter _ _ _ _ H) as L; clear H
  | H : match_number doc _ = Ok (_, _) |- _ =>
      let L := fresh "L" in pose proof (match_number_shorter _ _ _ H) as L; clear H
  end.

Lemma scan_shorter fuel :
  (∀ s v r, scan_once doc fuel s = Some (Ok (v, r)) → length r < length s) ∧
  (∀ s acc v r, array_items doc fuel s acc = Some (Ok (v, r)) → length r < length s) ∧
  (∀ s acc v r, object_items doc fuel s acc = Some (Ok (v, r)) → length r < length s).
Proof.
  induction fuel as [|f IH]; [done|].
  split_and!; intros s; [intros v r|intros acc v r|intros acc v r];
    destruct s as [|c s']; cbn [scan_once array_items object_items]; intros H; try discriminate.
  all: repeat (case_match; simplify_eq).
  all: try (apply fmap_eq_Ok in H as ([k' r'] & E & [= -> ->])).
  all: rem_facts IH; len_facts.
  all: try (rewrite length_drop; simpl; lia).
  all: simpl in *; lia.
Qed.

Lemma scan_total fuel :
  (∀ s, 2 * length s < fuel → is_Some (scan_once doc fuel s)) ∧
  (∀ s acc, 2 * length s + 1 < fuel → is_Some (array_items doc fuel s acc)) ∧
  (∀ s acc, 2 * length s + 1 < fuel → is_Some (object_items doc fuel s acc)).
Proof.
  induction fuel as [|f IH]; [split_and!; intros; lia|].
  pose proof (scan_shorter f) as IHs.
  split_and!; intros s; [|intros acc|intros acc]; intros Hlen;
    destruct s as [|c s']; cbn [scan_once array_items object_items]; try by eexists.
  all: repeat (case_match; simplify_eq); try by eexists.
  all: rem_facts IHs; len_facts; simpl in *.
  all: lazymatch goal with
  | H : scan_once doc _ ?x = None |- _ =>
      destruct (proj1 IH x) as [? ?]; [len_facts; simpl in *; lia|congruence]
  | |- is_Some (scan_once doc _ ?x) => apply (proj1 IH); len_facts; simpl in *; lia
  | |- is_Some (array_items doc _ ?x _) => apply (proj1 (proj2 IH)); len_facts; simpl in *; lia
  | |- is_Some (object_items doc _ ?x _) => apply (proj2 (proj2 IH)); len_facts; simpl in *; lia
  end.
Qed.

Lemma scan_mono fuel :
  (∀ fuel' s r, fuel ≤ fuel' → scan_once doc fuel s = Some r → scan_once doc fuel' s = Some r) ∧
  (∀ fuel' s acc r, fuel ≤ fuel' → array_items doc fuel s acc = Some r → array_items doc fuel' s acc = Some r) ∧
  (∀ fuel' s acc r, fuel ≤ fuel' → object_items doc fuel s acc = Some r → object_items doc fuel' s acc = Some r).
Proof.
  induction fuel as [|f IH]; [done|]. destruct IH as (IH1 & IH2 & IH3).
  split_and!; intros [|f'] s; [lia| |lia| |lia|]; [intros r|intros acc r|intros acc r]; intros Hle;
    apply le_S_n in Hle; cbn [scan_once array_items object_items]; destruct s as [|c s']; try done.
  all: repeat (match goal with
    | |- context [scan_once doc ?g ?x] =>
        let E := fresh "E" in destruct (scan_once doc g x) eqn:E; [rewrite (IH1 _ _ _ Hle E)|]
    | |- context [array_items doc ?g ?x ?a] =>
        let E := fresh "E" in destruct (array_items doc g x a) eqn:E; [rewrite (IH2 _ _ _ _ Hle E)|]
    | |- context [object_items doc ?g ?x ?a] =>
        let E := fresh "E" in destruct (object_items doc g x a) eqn:E; [rewrite (IH3 _ _ _ _ Hle E)|]
    | |- _ => case_match
    end); try done.
  all: intros; congruence.
Qed.
End fuel.

Lemma scan_once_mono doc f f' s r :
  f ≤ f' → scan_once doc f s = Some r → scan_once doc f' s = Some r.
Proof. apply (scan_mono doc f). Qed.

Lemma array_items_mono doc f f' s acc r :
  f ≤ f' → array_items doc f s acc = Some r → array_items doc f' s acc = Some r.
Proof. intros. by eapply (scan_mono doc f). Qed.

Lemma object_items_mono doc f f' s acc r :
  f ≤ f' → object_items doc f s acc = Some r → object_items doc f' s acc = Some r.
Proof. intros. by eapply (scan_mono doc f). Qed.

Lemma loads_fuel_mono doc f f' r : f ≤ f' → loads_fuel f doc = Some r → loads_fuel f' doc = Some r.
Proof.
  unfold loads_fuel. intros Hle. case_bool_decide; [done|].
  destruct (scan_once doc f _) as [r0|] eqn:E; [|done].
  by rewrite (scan_once_mono _ _ _ _ _ Hle E).
Qed.

Lemma loads_fuel_total doc : is_Some (loads_fuel (loads_bound doc) doc).
Proof.
  unfold loads_fuel, loads_bound. case_bool_decide; [by eexists|].
  destruct (proj1 (scan_total doc (S (2 * length doc))) (skip_ws doc)) as [r E].
  { pose proof (skip_ws_length doc). lia. }
  rewrite E. repeat case_match; by eexists.
Qed.

(** ** Termination *)

(** C33: [json.loads] terminates on every document: fuel of twice the
    document's length plus one suffices, and any more fuel gives the same
    result, [loads]. *)
Theorem loads_fuel_enough (doc : ustr) (fuel : nat) :
  loads_bound doc ≤ fuel → loads_fuel fuel doc = Some (loads doc).
Proof.
  intros Hle. destruct (loads_fuel_total doc) as [r E].
  unfold loads. rewrite E. exact (loads_fuel_mono _ _ _ _ Hle E).
Qed.

Lemma loads_fuel_enough_witness :
  loads_bound (ustr_of "[1, 2]") ≤ 100 ∧
  loads_fuel 100 (ustr_of "[1, 2]") = Some (loads (ustr_of "[1, 2]")).
Proof.
  assert (H : loads_bound (ustr_of "[1, 2]") ≤ 100) by decide_eval.
  split; [exact H|]. exact (loads_fuel_enough _ _ H).
Defined.


(** ** Strings

    [ustr_of] reads a [string] as the code points of its characters; the
    scanner decodes every escape [py_encode_basestring_ascii] writes. *)

Lemma ustr_of_cons c s : ustr_of (String c s) = uc c :: ustr_of s.
Proof. reflexivity. Qed.

Lemma ustr_of_app s t : ustr_of (s +:+ t) = ustr_of s ++ ustr_of t.
Proof. induction s as [|c s IH]; [done|]. rewrite string_app_cons, !ustr_of_cons, IH. done. Qed.

Lemma uc_nat c : uc c = N.of_nat (nat_of_ascii c).
Proof. unfold uc, nat_of_ascii. lia. Qed.

Lemma uc_inj a b : uc a = uc b → a = b.
Proof. intros H. rewrite <-(ascii_N_embedding a), <-(ascii_N_embedding b). unfold uc in H. by rewrite H. Qed.

Lemma ustr_of_inj s t : ustr_of s = ustr_of t → s = t.
Proof.
  revert t. induction s as [|a s IH]; intros [|b t]; rewrite ?ustr_of_cons; try done.
  intros [= ?%uc_inj ?%IH]. by subst.
Qed.

Lemma string_of_ustr_of s : string_of_ustr (ustr_of s) = s.
Proof.
  induction s as [|c s IH]; [done|]. rewrite ustr_of_cons. unfold string_of_ustr in *. simpl.
  unfold uc. rewrite ascii_N_embedding. by f_equal.
Qed.

(** White space in the sense of the scanner. *)
Definition ws_string (w : string) : bool := all_chars (λ c, is_ws (uc c)) w.

Lemma skip_ws_app w t : ws_string w = true → skip_ws (ustr_of w ++ t) = skip_ws t.
Proof.
  induction w as [|c w IH]; [done|]. rewrite ustr_of_cons. simpl.
  intros [-> ?]%andb_true_iff. by apply IH.
Qed.

Lemma skip_ws_stop c t : is_ws c = false → skip_ws (c :: t) = c :: t.
Proof. simpl. by intros ->. Qed.

Lemma spaces_S n : Json.spaces (S n) = String " " (Json.spaces n).
Proof. by destruct n. Qed.

Lemma newline_indent_ws o l : ws_string (Json.newline_indent o l) = true.
Proof.
  unfold Json.newline_indent. destruct (Json.indent o) as [k|]; [|done].
  change (ws_string (Json.spaces (k * l)) = true). generalize (k * l). intros n.
  induction n as [|n IH]; [done|]. by rewrite spaces_S.
Qed.

Section strings.
Variable doc : ustr.

Lemma scan_chars_plain b c t :
  c ≠ uc dq_char → c ≠ uc bs_char → (31 < c)%N →
  scan_chars doc b (c :: t) = (λ vr, (c :: vr.1, vr.2)) <$> scan_chars doc b t.
Proof.
  intros H1 H2 H3. cbn [scan_chars].
  rewrite !bool_decide_false by (done || lia). reflexivity.
Qed.

Lemma scan_chars_simple b e ch t :
  simple_escape e = Some ch → e ≠ uc "u" →
  scan_chars doc b (uc bs_char :: e :: t) = (λ vr, (ch :: vr.1, vr.2)) <$> scan_chars doc b t.
Proof.
  intros He Hu. cbn [scan_chars].
  rewrite bool_decide_false by done. rewrite bool_decide_true by done.
  rewrite bool_decide_false by done. by rewrite He.
Qed.

Lemma hex_value_lt c d : hex_value c = Some d → (d < 16)%N.
Proof. unfold hex_value. repeat case_bool_decide; intros; simplify_eq; lia. Qed.

Lemma scan_chars_u00 b h l dh dl t :
  t ≠ [] → hex_value h = Some dh → hex_value l = Some dl →
  scan_chars doc b (uc bs_char :: uc "u" :: uc "0" :: uc "0" :: h :: l :: t)
  = (λ vr, ((dh * 16 + dl)%N :: vr.1, vr.2)) <$> scan_chars doc b t.
Proof.
  intros Ht Hh Hl. cbn [scan_chars].
  rewrite bool_decide_false by done. rewrite bool_decide_true by done.
  rewrite bool_decide_true by done. rewrite bool_decide_false by done.
  unfold hex4. replace (hex_value (uc "0")) with (Some 0%N) by reflexivity.
  rewrite Hh, Hl. cbn [mbind option_bind].
  replace (((0 * 16 + 0) * 16 + dh) * 16 + dl)%N with (dh * 16 + dl)%N by lia.
  pose proof (hex_value_lt _ _ Hh). pose proof (hex_value_lt _ _ Hl).
  assert (is_high_surrogate (dh * 16 + dl)%N = false) as Hs.
  { unfold is_high_surrogate. apply bool_decide_false. lia. }
  destruct t as [|x1 [|x2 [|x3 [|x4 [|x5 [|x6 t']]]]]]; try done.
  by rewrite Hs.
Qed.

Lemma hex_value_hex_char d : d < 16 → hex_value (uc (Json.hex_char d)) = Some (N.of_nat d).
Proof. intros ?. do 16 (destruct d as [|d]; [reflexivity|]). lia. Qed.

Lemma scan_chars_escape_char b c t :
  t ≠ [] →
  scan_chars doc b (ustr_of (Json.escape_char c) ++ t) = (λ vr, (uc c :: vr.1, vr.2)) <$> scan_chars doc b t.
Proof.
  intros Ht. pose proof (uc_nat c) as Hu. pose proof (nat_ascii_bounded c) as Hc.
  unfold Json.escape_char. cbv zeta.
  repeat case_bool_decide;
    try (match goal with E : nat_of_ascii c = _ |- _ => rewrite Hu, E end;
         apply scan_chars_simple; [reflexivity|done]).
  destruct (andb _ _) eqn:Hp.
  - apply andb_true_iff in Hp as [?%Nat.leb_le ?%Nat.leb_le].
    apply scan_chars_plain; rewrite Hu; unfold uc; simpl; lia.
  - rewrite Hu. replace (N.of_nat (nat_of_ascii c))
      with (N.of_nat (nat_of_ascii c / 16) * 16 + N.of_nat (nat_of_ascii c mod 16))%N.
    + apply scan_chars_u00; [done| |]; apply hex_value_hex_char.
      * apply Nat.Div0.div_lt_upper_bound. lia.
      * apply Nat.mod_upper_bound. lia.
    + pose proof (Nat.div_mod_eq (nat_of_ascii c) 16). lia.
Qed.

Lemma scan_chars_escape_body b s t :
  scan_chars doc b (ustr_of (Json.escape_body s) ++ uc dq_char :: t) = Ok (ustr_of s, t).
Proof.
  induction s as [|c s IH].
  - cbn [scan_chars]. by rewrite ?bool_decide_true.
  - change (Json.escape_body (String c s)) with (Json.escape_char c +:+ Json.escape_body s).
    rewrite ustr_of_app, <-app_assoc, scan_chars_escape_char, IH by (by intros [_ ?]%app_eq_nil).
    reflexivity.
Qed.

Lemma encode_str_ustr s t :
  ustr_of (Json.encode_str s) ++ t = uc dq_char :: ustr_of (Json.escape_body s) ++ uc dq_char :: t.
Proof. unfold Json.encode_str. rewrite ustr_of_cons, ustr_of_app. cbn [app]. by rewrite <-app_assoc. Qed.

Lemma scan_once_encode_str fuel s t :
  scan_once doc (S fuel) (ustr_of (Json.encode_str s) ++ t) = Some (Ok (PStr (ustr_of s), t)).
Proof.
  rewrite encode_str_ustr. cbn [scan_once]. rewrite ?bool_decide_true by done.
  by rewrite scan_chars_escape_body.
Qed.
End strings.

(** ** Numbers

    [match_number] reads back what [int.__repr__] writes. *)

#[export] Instance ustr_of_inj' : Inj eq eq ustr_of.
Proof. intros ???. by apply ustr_of_inj. Qed.

(** [t] ends a number literal: it does not go on with a digit, a
    fraction or an exponent. *)
Definition num_stop (t : ustr) : Prop :=
  match t with
  | c :: _ => is_digit c = false ∧ c ≠ uc "." ∧ c ≠ uc "e" ∧ c ≠ uc "E"
  | [] => True
  end.

Lemma uc_digit_char d : d < 10 → uc (PyInt.digit_char d) = (48 + N.of_nat d)%N.
Proof. intros ?. unfold uc, PyInt.digit_char, ascii_of_nat. rewrite N_ascii_embedding; lia. Qed.

Lemma take_digits_cons c s :
  is_digit c = true → take_digits (c :: s) = let (ds, r) := take_digits s in (c :: ds, r).
Proof. simpl. by intros ->. Qed.

Lemma is_digit_char d : d < 10 → is_digit (uc (PyInt.digit_char d)) = true.
Proof. intros ?. unfold is_digit. rewrite uc_digit_char by done. apply bool_decide_true. lia. Qed.

Lemma take_digits_digits ds t :
  Forall (λ d, d < 10) ds → num_stop t →
  take_digits (ustr_of (PyInt.string_of_digits ds) ++ t) = (ustr_of (PyInt.string_of_digits ds), t).
Proof.
  intros Hds Ht. induction Hds as [|d ds Hd Hds IH].
  - destruct t as [|c t]; [done|]. simpl in Ht. simpl. by rewrite (proj1 Ht).
  - rewrite PyInt.string_of_digits_cons, ustr_of_cons, <-app_comm_cons.
    rewrite take_digits_cons, IH by (by apply is_digit_char). done.
Qed.

Section numbers.
Variable doc : ustr.

Lemma match_number_int (neg : bool) d ds t :
  d < 10 → Forall (λ d, d < 10) ds → (d = 0 → ds = []) → num_stop t →
  match_number doc ((if neg then [uc "-"] else []) ++ ustr_of (PyInt.string_of_digits (d :: ds)) ++ t)
  = (z ← PyInt.int_of_str PyInt.default_max_str_digits
           ((if neg then "-" else "") +:+ PyInt.string_of_digits (d :: ds));
     mret (PInt z, t)).
Proof.
  intros Hd Hds Hz Ht.
  assert (Hstr : (if neg then "-" else "") +:+ PyInt.string_of_digits (d :: ds)
                 = string_of_ustr ((if neg then [uc "-"] else []) ++ ustr_of (PyInt.string_of_digits (d :: ds)))).
  { destruct neg; [replace [uc "-"] with (ustr_of "-") by reflexivity; rewrite <-ustr_of_app|rewrite app_nil_l];
      by rewrite string_of_ustr_of. }
  rewrite Hstr. clear Hstr.
  rewrite PyInt.string_of_digits_cons, ustr_of_cons, uc_digit_char by done.
  unfold match_number.
  assert (Hneg : ∀ l, match ((if neg then [uc "-"] else []) ++ (48 + N.of_nat d)%N :: l) with
                      | c :: t0 => if bool_decide (c = uc "-") then (true, t0) else (false, (if neg then [uc "-"] else []) ++ (48 + N.of_nat d)%N :: l)
                      | [] => (false, (if neg then [uc "-"] else []) ++ (48 + N.of_nat d)%N :: l) end
                    = (neg, (48 + N.of_nat d)%N :: l)).
  { intros l. destruct neg; cbn [app]; [by rewrite bool_decide_true|].
    rewrite bool_decide_false; [done|]. unfold uc. simpl. lia. }
  rewrite <-app_comm_cons, Hneg. cbv beta iota zeta. clear Hneg.
  destruct (decide (d = 0)) as [->|Hd0];
    [rewrite (Hz eq_refl); rewrite bool_decide_false, bool_decide_true by lia;
     change (ustr_of (PyInt.string_of_digits []) ++ t) with t
    |rewrite bool_decide_true by lia; rewrite take_digits_digits by done];
    cbv beta iota zeta.
  all: destruct t as [|c [|c2 t']]; cbv beta iota zeta; [destruct neg; reflexivity| |].
  all: destruct Ht as (_ & Hdot & He & HE).
  all: rewrite ?(bool_decide_false (c = uc ".")) by done; cbn [andb]; cbv beta iota zeta.
  all: rewrite bool_decide_false by tauto; cbv beta iota zeta.
  all: destruct neg; reflexivity.
Qed.

(** [str(z)]: an optional minus sign, then digits without a leading zero. *)
Lemma py_str_split z : ∃ d ds,
  PyInt.py_str z = (if bool_decide (z < 0)%Z then "-" else "") +:+ PyInt.string_of_digits (d :: ds) ∧
  Forall (λ d, d < 10) (d :: ds) ∧ (d = 0 → ds = []).
Proof.
  destruct (PyInt.str_of_N_canonical (Z.abs_N z)) as (d & ds & Hs & Hds & _ & Hz).
  exists d, ds. split; [|done].
  unfold PyInt.py_str. rewrite <-Hs. destruct (Z.ltb_spec z 0).
  - by rewrite bool_decide_true by lia.
  - rewrite bool_decide_false by lia. by replace (Z.to_N z) with (Z.abs_N z) by lia.
Qed.

Lemma match_number_py_str z t :
  String.length (PyInt.str_of_N (Z.abs_N z)) ≤ PyInt.default_max_str_digits → num_stop t →
  match_number doc (ustr_of (PyInt.py_str z) ++ t) = Ok (PInt z, t).
Proof.
  intros Hlen Ht. destruct (py_str_split z) as (d & ds & Hpy & Hds & Hz).
  rewrite Hpy, ustr_of_app, <-app_assoc.
  replace (ustr_of (if bool_decide (z < 0)%Z then "-" else ""))
    with (if bool_decide (z < 0)%Z then [uc "-"] else []) by (by case_bool_decide).
  apply Forall_cons in Hds as [Hd Hds'].
  rewrite match_number_int by done. rewrite <-Hpy.
  rewrite <-(string_app_nil_l (PyInt.py_str z)), <-(string_app_nil_r (PyInt.py_str z)).
  rewrite PyInt.int_of_str_py_str_digits; [done|done|done|right; exact Hlen].
Qed.

Lemma scan_once_null f t : scan_once doc (S f) (ustr_of "null" ++ t) = Some (Ok (PNone, t)).
Proof. reflexivity. Qed.
Lemma scan_once_true f t : scan_once doc (S f) (ustr_of "true" ++ t) = Some (Ok (PBool true, t)).
Proof. reflexivity. Qed.
Lemma scan_once_false f t : scan_once doc (S f) (ustr_of "false" ++ t) = Some (Ok (PBool false, t)).
Proof. reflexivity. Qed.

Lemma not_prefix_cons (a c : N) l s : a ≠ c → ¬ (a :: l) `prefix_of` (c :: s).
Proof. intros ? ?%prefix_cons_inv_1. done. Qed.

Lemma scan_once_number f c s :
  is_digit c = true ∨ (c = uc "-" ∧ ∃ c' s', s = c' :: s' ∧ is_digit c' = true) →
  scan_once doc (S f) (c :: s) = Some (match_number doc (c :: s)).
Proof.
  intros Hc. assert (Hc' : c = 45%N ∨ (48 ≤ c ≤ 57)%N).
  { destruct Hc as [Hc|[-> _]]; [right; unfold is_digit in Hc; by case_bool_decide|by left]. }
  cbn [scan_once]. unfold starts_with.
  do 3 (rewrite bool_decide_false by (unfold uc; simpl; lia)).
  do 5 (rewrite bool_decide_false by (apply not_prefix_cons; unfold uc; simpl; lia)).
  rewrite bool_decide_false; [done|].
  destruct Hc as [Hd|[-> (c' & s' & -> & Hd')]].
  - apply not_prefix_cons. unfold is_digit in Hd. case_bool_decide; [unfold uc; simpl; lia|done].
  - intros ?%prefix_cons_inv_2%prefix_cons_inv_1.
    unfold is_digit in Hd'. case_bool_decide; [subst c'; unfold uc in *; simpl in *; lia|done].
Qed.

Lemma scan_once_py_str f z t :
  String.length (PyInt.str_of_N (Z.abs_N z)) ≤ PyInt.default_max_str_digits → num_stop t →
  scan_once doc (S f) (ustr_of (PyInt.py_str z) ++ t) = Some (Ok (PInt z, t)).
Proof.
  intros Hlen Ht. rewrite <-(match_number_py_str z t) by done.
  destruct (py_str_split z) as (d & ds & Hpy & Hds & _).
  assert (Hdig : is_digit (uc (PyInt.digit_char d)) = true) by (apply is_digit_char; by inversion Hds).
  rewrite Hpy, ustr_of_app, <-app_assoc, PyInt.string_of_digits_cons, ustr_of_cons.
  case_bool_decide; apply scan_once_number; [right|left; exact Hdig].
  split; [reflexivity|]. by eexists _, _.
Qed.
End numbers.

(** ** Decoding what the encoder writes

    For separators [","] and [":"] followed by blanks (both of Flask's
    option sets), the scanner reads the text of every value back. *)

Section roundtrip.
Variable doc : ustr.
Variable o : Json.dump_opts.
Variable kws : string.
Hypothesis Hitem : Json.item_separator o = ",".
Hypothesis Hkey : Json.key_separator o = ":" +:+ kws.
Hypothesis Hkws : ws_string kws = true.

Definition val_head (c : N) : Prop := is_ws c = false ∧ c ≠ uc "]".

Lemma wrap_items_ustr lvl op cl items :
  ∃ r, ustr_of (Json.wrap_items o lvl op cl items) = ustr_of op ++ r.
Proof. unfold Json.wrap_items. destruct items; rewrite ustr_of_app; by eexists. Qed.

Lemma encode_head lvl v : ∃ c r, ustr_of (Json.encode o lvl v) = c :: r ∧ val_head c.
Proof.
  destruct v as [| [] | z | s | xs | kvs]; cbn [Json.encode].
  1-3: eexists _, _; split; [reflexivity|split; [reflexivity|done]].
  - destruct (py_str_split z) as (d & ds & -> & [Hd0 _]%Forall_cons & _).
    rewrite ustr_of_app, PyInt.string_of_digits_cons, ustr_of_cons.
    assert (Hd : (48 ≤ uc (PyInt.digit_char d) ≤ 57)%N) by (rewrite uc_digit_char by done; lia).
    case_bool_decide; (eexists _, _; split; [reflexivity|]); [split; [reflexivity|done]|].
    split; [unfold is_ws; apply bool_decide_false|change (uc "]") with 93%N]; lia.
  - unfold Json.encode_str. eexists _, _. split; [reflexivity|]. split; [reflexivity|done].
  - destruct (wrap_items_ustr lvl "[" "]" (map (Json.encode o (S lvl)) xs)) as [r ->].
    eexists _, _. split; [reflexivity|]. split; [reflexivity|done].
  - match goal with |- context [Json.wrap_items o lvl "{" "}" ?items] =>
      destruct (wrap_items_ustr lvl "{" "}" items) as [r ->] end.
    eexists _, _. split; [reflexivity|]. split; [reflexivity|done].
Qed.

Lemma num_stop_ws w c t : ws_string w = true → num_stop (c :: t) → num_stop (ustr_of w ++ c :: t).
Proof.
  destruct w as [|a w]; [done|]. rewrite ustr_of_cons. simpl. intros [Ha _]%andb_true_iff _.
  unfold is_ws in Ha. apply bool_decide_eq_true in Ha.
  unfold is_digit. rewrite bool_decide_false by lia.
  split_and!; [done| | |]; change (uc ".") with 46%N || change (uc "e") with 101%N
    || change (uc "E") with 69%N; lia.
Qed.

Lemma num_stop_comma t : num_stop (uc "," :: t).
Proof. split_and!; [reflexivity|discriminate..]. Qed.
Lemma num_stop_rbracket t : num_stop (uc "]" :: t).
Proof. split_and!; [reflexivity|discriminate..]. Qed.
Lemma num_stop_rbrace t : num_stop (uc "}" :: t).
Proof. split_and!; [reflexivity|discriminate..]. Qed.

Definition decodes (lvl : nat) (v : Json.jvalue) : Prop :=
  ∀ t, num_stop t → ∃ f, scan_once doc f (ustr_of (Json.encode o lvl v) ++ t) = Some (Ok (to_pyobj v, t)).

(** A list of items starts with its first item. *)
Lemma join_head (P : N → Prop) sep e es t :
  (∃ c r, ustr_of e = c :: r ∧ P c) →
  ∃ c r, ustr_of (str_join sep (e :: es)) ++ t = c :: r ∧ P c.
Proof.
  intros (c & r & He & Hc). exists c. destruct es as [|e' es]; cbn [str_join];
    rewrite ?ustr_of_app, He; by eexists.
Qed.

Lemma skip_ws_join sep e es t :
  (∃ c r, ustr_of e = c :: r ∧ val_head c) →
  skip_ws (ustr_of (str_join sep (e :: es)) ++ t) = ustr_of (str_join sep (e :: es)) ++ t.
Proof. intros (c & r & -> & Hc & _)%(join_head val_head sep e es t). by apply skip_ws_stop. Qed.

Lemma array_open f s :
  (∃ c r, s = c :: r ∧ val_head c) →
  match s with
  | d :: s2 => if bool_decide (d = uc "]") then Some (Ok (PList [], s2)) else array_items doc f s []
  | [] => array_items doc f s []
  end = array_items doc f s [].
Proof. intros (c & r & -> & _ & Hc). by rewrite bool_decide_false. Qed.

Lemma array_items_encode lvl xs w t acc :
  Forall (decodes (S lvl)) xs → xs ≠ [] → ws_string w = true →
  ∃ f, array_items doc f
         (ustr_of (str_join (Json.item_separator o +:+ Json.newline_indent o (S lvl))
                     (map (Json.encode o (S lvl)) xs)) ++ ustr_of w ++ uc "]" :: t) acc
       = Some (Ok (PList (rev acc ++ map to_pyobj xs), t)).
Proof.
  intros Hxs. revert acc. induction Hxs as [|x xs Hx Hxs IH]; intros acc Hne Hw; [done|].
  destruct xs as [|y ys].
  - destruct (Hx (ustr_of w ++ uc "]" :: t)) as [f Hf]; [by apply num_stop_ws, num_stop_rbracket|].
    exists (S f). cbn [map str_join array_items]. rewrite Hf. cbv beta iota.
    rewrite skip_ws_app, skip_ws_stop by done. by rewrite bool_decide_true.
  - destruct (IH (to_pyobj x :: acc)) as [f2 Hf2]; [done|done|].
    rewrite map_cons in Hf2.
    set (R := ustr_of (str_join (Json.item_separator o +:+ Json.newline_indent o (S lvl))
                         (Json.encode o (S lvl) y :: map (Json.encode o (S lvl)) ys))
              ++ ustr_of w ++ uc "]" :: t) in *.
    destruct (Hx (uc "," :: ustr_of (Json.newline_indent o (S lvl)) ++ R)) as [f1 Hf1];
      [apply num_stop_comma|].
    exists (S (f1 + f2)).
    replace (ustr_of (str_join _ (map _ (x :: y :: ys))) ++ ustr_of w ++ uc "]" :: t)
      with (ustr_of (Json.encode o (S lvl) x) ++ uc "," :: ustr_of (Json.newline_indent o (S lvl)) ++ R)
      by (unfold R; cbn [map str_join]; rewrite Hitem, !ustr_of_app, <-!app_assoc; reflexivity).
    cbn [array_items]. rewrite (scan_once_mono _ f1 (f1 + f2) _ _ ltac:(lia) Hf1). cbv beta iota.
    rewrite skip_ws_stop by reflexivity.
    rewrite bool_decide_false by discriminate. rewrite bool_decide_true by done.
    rewrite skip_ws_app by apply newline_indent_ws.
    replace (skip_ws R) with R by (unfold R; symmetry; apply skip_ws_join, encode_head).
    rewrite (array_items_mono _ f2 (f1 + f2) _ _ _ ltac:(lia) Hf2).
    cbn [rev map]. by rewrite <-app_assoc.
Qed.

Lemma skip_ws_encode lvl v t : skip_ws (ustr_of (Json.encode o lvl v) ++ t) = ustr_of (Json.encode o lvl v) ++ t.
Proof. destruct (encode_head lvl v) as (c & r & -> & Hc & _). by apply skip_ws_stop. Qed.

(** One item of an object: the key, the separator, the value. *)
Lemma object_items_item f lvl k v R acc :
  scan_once doc f (ustr_of (Json.encode o (S lvl) v) ++ R) = Some (Ok (to_pyobj v, R)) →
  object_items doc (S f)
    (ustr_of (Json.encode_str k) ++ ustr_of ":" ++ ustr_of kws ++ ustr_of (Json.encode o (S lvl) v) ++ R) acc
  = let acc' := dict_set (ustr_of k) (to_pyobj v) acc in
    match skip_ws R with
    | e :: r5 =>
        if bool_decide (e = uc "}") then Some (Ok (PDict acc', r5))
        else if bool_decide (e = uc ",") then object_items doc f (skip_ws r5) acc'
        else Some (raise! (decode_error doc "Expecting ',' delimiter" (skip_ws R)))
    | [] => Some (raise! (decode_error doc "Expecting ',' delimiter" (skip_ws R)))
    end.
Proof.
  intros Hf. rewrite encode_str_ustr. cbn [object_items]. rewrite ?bool_decide_true by done.
  rewrite scan_chars_escape_body. cbv beta iota.
  change (ustr_of ":" ++ ?X) with (uc ":" :: X). rewrite skip_ws_stop by reflexivity.
  rewrite bool_decide_true by done. rewrite skip_ws_app, skip_ws_encode, Hf by done.
  reflexivity.
Qed.

Lemma object_items_encode lvl l w t acc :
  Forall (λ kv, decodes (S lvl) kv.2) l → l ≠ [] → NoDup l.*1 → ws_string w = true →
  Forall (λ kv, ustr_of kv.1 ∉ acc.*1) l →
  ∃ f, object_items doc f
         (ustr_of (str_join (Json.item_separator o +:+ Json.newline_indent o (S lvl))
            (map (λ kv, Json.encode_str kv.1 +:+ Json.key_separator o +:+ Json.encode o (S lvl) kv.2) l))
          ++ ustr_of w ++ uc "}" :: t) acc
       = Some (Ok (PDict (acc ++ map (λ kv, (ustr_of kv.1, to_pyobj kv.2)) l), t)).
Proof.
  intros Hl. revert acc. induction Hl as [|[k v] l Hkv Hl IH]; intros acc Hne Hnd Hw Hfresh; [done|].
  cbn [fst snd] in *. apply Forall_cons in Hfresh as [Hk Hfresh].
  rewrite fmap_cons in Hnd. apply NoDup_cons in Hnd as [Hkl Hnd].
  destruct l as [|kv' l'].
  - destruct (Hkv (ustr_of w ++ uc "}" :: t)) as [f Hf]; [by apply num_stop_ws, num_stop_rbrace|].
    exists (S f). cbn [map str_join fst snd].
    rewrite Hkey, !ustr_of_app, <-!app_assoc, (object_items_item _ _ _ _ _ _ Hf). cbv zeta.
    rewrite skip_ws_app, skip_ws_stop by done. rewrite bool_decide_true by done.
    by rewrite dict_set_fresh.
  - set (acc' := acc ++ [(ustr_of k, to_pyobj v)]).
    destruct (IH acc') as [f2 Hf2]; [done|done|done| |].
    { apply Forall_forall. intros kv Hin. unfold acc'. rewrite fmap_app, not_elem_of_app.
      split; [by apply (Forall_forall _ _) with (x := kv) in Hfresh|].
      rewrite fmap_cons, fmap_nil, list_elem_of_singleton. intros Heq%ustr_of_inj.
      apply Hkl. cbn [fst]. rewrite <-Heq. by apply list_elem_of_fmap_2. }
    set (R := ustr_of (str_join (Json.item_separator o +:+ Json.newline_indent o (S lvl))
                 (map (λ kv, Json.encode_str kv.1 +:+ Json.key_separator o +:+ Json.encode o (S lvl) kv.2)
                    (kv' :: l'))) ++ ustr_of w ++ uc "}" :: t) in *.
    destruct (Hkv (uc "," :: ustr_of (Json.newline_indent o (S lvl)) ++ R)) as [f1 Hf1];
      [apply num_stop_comma|].
    exists (S (f1 + f2)).
    replace (ustr_of (str_join _ (map _ ((k, v) :: kv' :: l'))) ++ ustr_of w ++ uc "}" :: t)
      with (ustr_of (Json.encode_str k) ++ ustr_of ":" ++ ustr_of kws ++ ustr_of (Json.encode o (S lvl) v)
              ++ uc "," :: ustr_of (Json.newline_indent o (S lvl)) ++ R)
      by (unfold R; cbn [map str_join fst snd]; rewrite Hitem, Hkey, !ustr_of_app, <-!app_assoc; reflexivity).
    rewrite (object_items_item _ _ _ _ _ _ (scan_once_mono _ f1 (f1 + f2) _ _ ltac:(lia) Hf1)). cbv zeta.
    rewrite skip_ws_stop by reflexivity.
    rewrite bool_decide_false by discriminate. rewrite bool_decide_true by done.
    rewrite skip_ws_app by apply newline_indent_ws.
    replace (skip_ws R) with R.
    2: { unfold R. symmetry. apply skip_ws_join. eexists _, _.
         split; [rewrite ustr_of_app; reflexivity|split; [reflexivity|done]]. }
    rewrite dict_set_fresh by done. fold acc'.
    rewrite (object_items_mono _ f2 (f1 + f2) _ _ _ ltac:(lia) Hf2).
    unfold acc'. by rewrite <-app_assoc.
Qed.

Lemma decodes_list lvl xs : Forall (decodes (S lvl)) xs → decodes lvl (Json.JList xs).
Proof.
  intros Hxs t Ht. destruct xs as [|x xs'].
  - exists 1. reflexivity.
  - destruct (array_items_encode lvl (x :: xs') (Json.newline_indent o lvl) t []) as [f Hf];
      [done|done|apply newline_indent_ws|].
    rewrite map_cons in Hf. exists (S f). cbn [Json.encode]. rewrite map_cons.
    unfold Json.wrap_items. rewrite !ustr_of_app, <-!app_assoc.
    change (ustr_of "[" ++ ?X) with (uc "[" :: X). change (ustr_of "]" ++ t) with (uc "]" :: t).
    cbn [scan_once]. rewrite 2!bool_decide_false, bool_decide_true by (done || discriminate).
    rewrite skip_ws_app by apply newline_indent_ws.
    rewrite skip_ws_join, array_open by (try apply join_head; apply encode_head).
    by rewrite Hf.
Qed.

Lemma object_open f s :
  (∃ c r, s = c :: r ∧ c ≠ uc "}") →
  match s with
  | d :: s2 => if bool_decide (d = uc "}") then Some (Ok (PDict [], s2)) else object_items doc f s []
  | [] => object_items doc f s []
  end = object_items doc f s [].
Proof. intros (c & r & -> & Hc). by rewrite bool_decide_false. Qed.

Lemma decodes_object lvl kvs :
  Forall (λ kv, decodes (S lvl) kv.2) kvs → NoDup kvs.*1 → decodes lvl (Json.JObject kvs).
Proof.
  intros Hkvs Hnd t Ht. pose proof (merge_sort_Permutation by_key kvs) as Hperm.
  cbn [Json.encode to_pyobj]. unfold Json.sort_items.
  rewrite (merge_sort_map Json.key_le by_key (λ kv, (kv.1, Json.encode o (S lvl) kv.2))) by done.
  rewrite (merge_sort_map by_key by_key (λ kv, (kv.1, to_pyobj kv.2))) by done.
  rewrite !map_map. cbn [fst snd].
  destruct (merge_sort by_key kvs) as [|kv0 L] eqn:EL.
  - symmetry in Hperm. apply Permutation_nil_r in Hperm as ->. exists 1. reflexivity.
  - destruct (object_items_encode lvl (kv0 :: L) (Json.newline_indent o lvl) t []) as [f Hf].
    { by rewrite Hperm. }
    { done. }
    { by rewrite Hperm. }
    { apply newline_indent_ws. }
    { apply Forall_forall. intros ? _. apply not_elem_of_nil. }
    rewrite map_cons in Hf. exists (S f). rewrite map_cons.
    unfold Json.wrap_items. rewrite !ustr_of_app, <-!app_assoc.
    change (ustr_of "{" ++ ?X) with (uc "{" :: X). change (ustr_of "}" ++ t) with (uc "}" :: t).
    cbn [scan_once]. rewrite bool_decide_false, bool_decide_true by (done || discriminate).
    rewrite skip_ws_app by apply newline_indent_ws.
    assert (Hq : ∀ kv, ∃ c r, ustr_of (Json.encode_str kv.1 +:+ Json.key_separator o +:+
                                        Json.encode o (S lvl) kv.2) = c :: r ∧ c = uc dq_char)
      by (intros; by eexists _, _).
    rewrite skip_ws_join, object_open.
    + by rewrite Hf.
    + match goal with |- ∃ c r, ustr_of (str_join ?sep (?e :: ?es)) ++ ?t' = _ ∧ _ =>
        destruct (join_head (λ c, c = uc dq_char) sep e es t' (Hq kv0)) as (c & r & -> & ->) end.
      by eexists _, _.
    + destruct (Hq kv0) as (c & r & -> & ->). eexists _, _. split; [done|]. split; [reflexivity|done].
Qed.

Lemma encode_decodes v : keys_unique v = true → Json.ints_print v = true → ∀ lvl, decodes lvl v.
Proof.
  induction v as [| b | z | s | xs IH | kvs IH] using Json.jvalue_ind'; intros Hu Hp lvl t Ht;
    cbn [keys_unique Json.ints_print] in Hu, Hp.
  - exists 1. apply scan_once_null.
  - exists 1. destruct b; [apply scan_once_true|apply scan_once_false].
  - exists 1. by apply scan_once_py_str; [apply PyInt.py_str_checked_digits|].
  - exists 1. apply scan_once_encode_str.
  - apply decodes_list; [|done]. apply Forall_forall. intros x Hx.
    rewrite Forall_forall in IH. rewrite forallb_forall in Hu, Hp.
    apply IH; [done|apply Hu|apply Hp]; by apply list_elem_of_In.
  - apply andb_true_iff in Hu as [Hnd Hu]. apply bool_decide_eq_true in Hnd.
    apply decodes_object; [|done|done]. apply Forall_forall. intros kv Hkv.
    rewrite Forall_forall in IH. rewrite forallb_forall in Hu, Hp.
    apply IH; [done|apply Hu|apply Hp]; by apply list_elem_of_In.
Qed.
End roundtrip.

(** ** The roundtrip *)

(** A key of a decoded [dict] holds the decoded value of that key. *)
Lemma dict_get_to_pyobj kvs k :
  NoDup kvs.*1 →
  dict_get (ustr_of k) (map (λ kv, (ustr_of kv.1, kv.2)) (merge_sort by_key (map (λ kv, (kv.1, to_pyobj kv.2)) kvs)))
  = to_pyobj <$> dict_get k kvs.
Proof.
  intros Hnd. rewrite (merge_sort_map by_key by_key (λ kv, (kv.1, to_pyobj kv.2))) by done.
  rewrite map_map. cbn [fst snd]. rewrite (dict_get_map ustr_of to_pyobj) by apply _.
  f_equal. symmetry. apply dict_get_Permutation; [done|]. symmetry. apply merge_sort_Permutation.
Qed.

Lemma head_ustr_of_not_bom s : head (ustr_of s) ≠ Some 65279%N.
Proof.
  destruct s as [|a s]; [done|]. rewrite ustr_of_cons. simpl. intros [= H].
  unfold uc in H. pose proof (N_ascii_bounded a). lia.
Qed.

Lemma loads_fuel_scan doc f v :
  head doc ≠ Some 65279%N → skip_ws doc = doc → scan_once doc f doc = Some (Ok (v, [])) →
  loads_fuel f doc = Some (Ok v).
Proof. intros Hb Hs Hf. unfold loads_fuel. by rewrite bool_decide_false, Hs, Hf. Qed.

Lemma loads_of_fuel doc f r : loads_fuel f doc = Some r → loads doc = r.
Proof.
  intros Hf. destruct (loads_fuel_total doc) as [r' E]. unfold loads. rewrite E.
  pose proof (loads_fuel_mono doc f (f + loads_bound doc) _ ltac:(lia) Hf).
  pose proof (loads_fuel_mono doc (loads_bound doc) (f + loads_bound doc) _ ltac:(lia) E).
  congruence.
Qed.

(** Both of Flask's option sets separate with [","] and [":"] followed
    by blanks, so the scanner reads back what either writes. *)
Lemma dumps_decodes doc (debug : bool) (v : Json.jvalue) :
  keys_unique v = true → Json.ints_print v = true →
  decodes doc (if debug then Json.pretty_opts else Json.compact_opts) 0 v.
Proof.
  intros Hu Hp. set (kws := if debug then " " else "").
  apply (encode_decodes doc _ kws); by destruct debug.
Qed.

Lemma length_ustr_of s : length (ustr_of s) = String.length s.
Proof. induction s as [|c s IH]; [done|]. rewrite ustr_of_cons. simpl. by rewrite IH. Qed.

Lemma head_ustr_of_app_not_bom s t : s ≠ "" → head (ustr_of s ++ t) ≠ Some 65279%N.
Proof.
  destruct s as [|a s]; [done|]. intros _. rewrite ustr_of_cons. simpl. intros [= H].
  unfold uc in H. pose proof (N_ascii_bounded a). lia.
Qed.

(** [json.loads] reads back the text of a value the encoder wrote with
    either of Flask's option sets, when every [dict] has distinct keys
    and every [int] prints. *)
Lemma loads_encode (debug : bool) (v : Json.jvalue) :
  keys_unique v = true → Json.ints_print v = true →
  loads (ustr_of (Json.encode (if debug then Json.pretty_opts else Json.compact_opts) 0 v))
  = Ok (to_pyobj v).
Proof.
  intros Hu Hp.
  destruct (dumps_decodes (ustr_of (Json.encode (if debug then Json.pretty_opts else Json.compact_opts) 0 v))
              debug v Hu Hp [] I) as [f Hf].
  rewrite app_nil_r in Hf.
  apply (loads_of_fuel _ f), loads_fuel_scan; [apply head_ustr_of_not_bom| |exact Hf].
  by rewrite <-(app_nil_r (ustr_of _)), skip_ws_encode.
Qed.

(** C34: [json.loads] inverts [json.dumps] as Flask calls it: for a value
    whose [dict]s have distinct keys, the text [dumps] returns decodes to
    the same value, with each [dict]'s items in the order of their keys
    ([sort_keys=True]) and each [str] as its code points. *)
Theorem loads_dumps (debug : bool) (v : Json.jvalue) (s : string) :
  keys_unique v = true → Json.dumps debug v = Ok s → loads (ustr_of s) = Ok (to_pyobj v).
Proof.
  intros Hu. unfold Json.dumps. destruct (Json.ints_print v) eqn:Hp; [intros [= <-]|discriminate].
  by apply loads_encode.
Qed.

Definition sample_value : Json.jvalue :=
  Json.JObject [("b", Json.JList [Json.JInt (-12); Json.JNull; Json.JBool true]);
                ("a", Json.JStr (String dq_char "é"))].

(** C36: [json.loads] refuses text after a complete value: when the text
    [json.dumps] made of a value is followed by anything that is not a
    blank and cannot continue a number, decoding raises
    [JSONDecodeError("Extra data")] at the first character after the
    dumped text. *)
Theorem loads_extra_data (debug : bool) (v : Json.jvalue) (s : string) (c : N) (t : ustr) :
  keys_unique v = true → Json.dumps debug v = Ok s → is_ws c = false → num_stop (c :: t) →
  loads (ustr_of s ++ c :: t) = raise! (JSONDecodeError "Extra data" (String.length s)).
Proof.
  intros Hu Hd Hc Ht. unfold Json.dumps in Hd.
  destruct (Json.ints_print v) eqn:Hp; [|discriminate].
  assert (s = Json.encode (if debug then Json.pretty_opts else Json.compact_opts) 0 v) as -> by congruence.
  set (doc := ustr_of (Json.encode _ 0 v) ++ c :: t).
  destruct (dumps_decodes doc debug v Hu Hp (c :: t) Ht) as [f Hf].
  apply (loads_of_fuel _ f). unfold loads_fuel.
  rewrite bool_decide_false.
  2: { destruct (encode_head (if debug then Json.pretty_opts else Json.compact_opts) 0 v) as (c0 & r & E & _).
       apply head_ustr_of_app_not_bom. intros Hs. by rewrite Hs in E. }
  assert (Hs : skip_ws doc = doc) by (unfold doc; apply skip_ws_encode).
  fold doc in Hf. rewrite Hs, Hf, skip_ws_stop by done.
  unfold decode_error, doc. rewrite length_app, length_ustr_of. cbn [length]. do 3 f_equal. lia.
Qed.

Lemma loads_dumps_witness :
  keys_unique sample_value = true ∧
  Json.dumps true sample_value = Ok (Json.encode Json.pretty_opts 0 sample_value) ∧
  loads (ustr_of (Json.encode Json.pretty_opts 0 sample_value)) = Ok (to_pyobj sample_value).
Proof.
  assert (H1 : keys_unique sample_value = true) by reflexivity.
  assert (H2 : Json.dumps true sample_value = Ok (Json.encode Json.pretty_opts 0 sample_value)) by reflexivity.
  split; [exact H1|]. split; [exact H2|]. exact (loads_dumps true _ _ H1 H2).
Defined.

Lemma loads_extra_data_witness :
  keys_unique sample_value = true ∧
  Json.dumps false sample_value = Ok (Json.encode Json.compact_opts 0 sample_value) ∧
  is_ws (uc "x") = false ∧ num_stop [uc "x"] ∧
  loads (ustr_of (Json.encode Json.compact_opts 0 sample_value) ++ [uc "x"])
  = raise! (JSONDecodeError "Extra data" (String.length (Json.encode Json.compact_opts 0 sample_value))).
Proof.
  assert (H1 : keys_unique sample_value = true) by reflexivity.
  assert (H2 : Json.dumps false sample_value = Ok (Json.encode Json.compact_opts 0 sample_value))
    by reflexivity.
  assert (H3 : is_ws (uc "x") = false) by reflexivity.
  assert (H4 : num_stop [uc "x"]) by (split_and!; [reflexivity|discriminate..]).
  split; [exact H1|]. split; [exact H2|]. split; [exact H3|]. split; [exact H4|].
  exact (loads_extra_data false _ _ _ _ H1 H2 H3 H4).
Defined.


End JsonDecode.
