(* ===== verification/Url.v ===== *)
(** * Url: the [urllib.parse] functions werkzeug's server applies to a
    request target, and the UTF-8 codec under them

    Line 21's [app.run] serves the application with werkzeug's
    development server, which reads the target of each request line with
    CPython's [urllib.parse]: [urlsplit] (scheme, netloc, path, query,
    fragment), [unquote] (percent-decoding, then UTF-8 with the error
    handler ["replace"]) and, for the debugger's query arguments,
    [parse_qsl].  A text is a [string] of bytes, or of the code points
    [0..255] of a [str]; a [str] that may hold larger code points is kept
    as its UTF-8 encoding, the form in which WSGI hands it on
    ([_wsgi_encoding_dance]).  The decoder is CPython's
    ([Objects/stringlib/codecs.h]): it splits the bytes into well-formed
    sequences and maximal invalid subparts and gives each subpart to the
    error handler.  The theorems: what the decoder reads back is what it
    was given, its output re-encoded is well-formed, well-formed input
    is left alone, and the percent-decoder is the one-pass scanner. *)

From S2P Require Import Prelude PyInt.

Module Url.

(** ** UTF-8 *)

Definition byte_of (c : ascii) : N := N_of_ascii c.

(** [str.encode('utf-8')] of one code point of [0..255]. *)
Definition utf8_encode_char (c : ascii) : string :=
  let n := byte_of c in
  if bool_decide (n < 128)%N then String c ""
  else String (ascii_of_N (192 + n / 64)) (String (ascii_of_N (128 + n mod 64)) "").

Fixpoint utf8_encode (s : string) : string :=
  match s with
  | EmptyString => EmptyString
  | String c s' => utf8_encode_char c +:+ utf8_encode s'
  end.

(** What the decoder reads: a well-formed sequence, or a maximal invalid
    subpart (an error from [startinpos] to [endinpos]). *)
Inductive piece := Valid (bs : string) | Invalid (bs : string).

Definition piece_bytes (p : piece) : string :=
  match p with Valid bs | Invalid bs => bs end.

(** A lead byte [0xC2..0xF4]: how many continuation bytes follow, and the
    range of the first of them ([utf8_decode]'s [ch < 0xE0], [ch < 0xF0]
    branches: [E0] needs [A0..BF], [ED] [80..9F], [F0] [90..BF], [F4]
    [80..8F]).  [80..C1] and [F5..FF] start no sequence. *)
Definition lead (b : N) : option (nat * N * N) :=
  if bool_decide (194 ≤ b ≤ 223)%N then Some (1, 128%N, 191%N)
  else if bool_decide (b = 224)%N then Some (2, 160%N, 191%N)
  else if bool_decide (225 ≤ b ≤ 236 ∨ 238 ≤ b ≤ 239)%N then Some (2, 128%N, 191%N)
  else if bool_decide (b = 237)%N then Some (2, 128%N, 159%N)
  else if bool_decide (b = 240)%N then Some (3, 144%N, 191%N)
  else if bool_decide (241 ≤ b ≤ 243)%N then Some (3, 128%N, 191%N)
  else if bool_decide (b = 244)%N then Some (3, 128%N, 143%N)
  else None.

(** The decoder between two bytes: at a sequence boundary, or inside a
    sequence whose bytes so far are [acc], with [k] bytes still to come,
    the next one in [lo..hi]. *)
Inductive dstate := Idle | Need (acc : string) (k : nat) (lo hi : N).

Definition start (c : ascii) : list piece * dstate :=
  let b := byte_of c in
  if bool_decide (b < 128)%N then ([Valid (String c "")], Idle)
  else match lead b with
       | Some (k, lo, hi) => ([], Need (String c "") k lo hi)
       | None => ([Invalid (String c "")], Idle)
       end.

(** A byte that does not continue the sequence ends it as an invalid
    subpart ("invalid continuation byte", [endinpos = startinpos + ch - 1])
    and is read again at a boundary. *)
Definition feed (st : dstate) (c : ascii) : list piece * dstate :=
  match st with
  | Idle => start c
  | Need acc k lo hi =>
      let b := byte_of c in
      if bool_decide (lo ≤ b ≤ hi)%N then
        match k with
        | S (S k') => ([], Need (acc +:+ String c "") (S k') 128 191)
        | _ => ([Valid (acc +:+ String c "")], Idle)
        end
      else let '(ps, st') := start c in (Invalid acc :: ps, st')
  end.

(** The end of the data inside a sequence is one error, "unexpected end of
    data", over the bytes read. *)
Fixpoint decode_go (st : dstate) (s : string) : list piece :=
  match s with
  | EmptyString => match st with Idle => [] | Need acc _ _ _ => [Invalid acc] end
  | String c s' => let '(ps, st') := feed st c in ps ++ decode_go st' s'
  end.

Definition utf8_pieces (s : string) : list piece := decode_go Idle s.

(** [bytes.decode('utf-8', errors)] followed by [str.encode('utf-8')]: a
    well-formed sequence decodes to the code point it encodes back to; an
    invalid subpart becomes what the error handler [h] returns. *)
Definition recode (h : string → string) (s : string) : string :=
  foldr (λ p acc, match p with Valid bs => bs | Invalid bs => h bs end +:+ acc) "" (utf8_pieces s).

(** The handler ["replace"]: U+FFFD, [EF BF BD] in UTF-8. *)
Definition replace_handler (bs : string) : string :=
  String (ascii_of_N 239) (String (ascii_of_N 191) (String (ascii_of_N 189) "")).

Definition hex_upper (d : N) : ascii :=
  if bool_decide (d < 10)%N then ascii_of_N (48 + d) else ascii_of_N (55 + d).

(** werkzeug's handler ["werkzeug.url_quote"]:
    [quote(e.object[e.start:e.end], safe="")], every byte of the subpart
    as [%XX] ([quote] escapes every byte above [0x7F]). *)
Fixpoint url_quote_handler (bs : string) : string :=
  match bs with
  | EmptyString => EmptyString
  | String c bs' =>
      String "%" (String (hex_upper (byte_of c / 16)) (String (hex_upper (byte_of c mod 16)) ""))
        +:+ url_quote_handler bs'
  end.

(** Well-formed UTF-8: the decoder finds no invalid subpart. *)
Definition utf8_valid (s : string) : bool :=
  forallb (λ p, match p with Valid _ => true | Invalid _ => false end) (utf8_pieces s).

(** The decoder without its end-of-data step, and the bytes it holds. *)
Fixpoint run_go (st : dstate) (s : string) : list piece * dstate :=
  match s with
  | EmptyString => ([], st)
  | String c s' => let '(ps, st') := feed st c in let '(qs, st'') := run_go st' s' in (ps ++ qs, st'')
  end.

Definition flush (st : dstate) : list piece :=
  match st with Idle => [] | Need acc _ _ _ => [Invalid acc] end.

Definition st_bytes (st : dstate) : string :=
  match st with Idle => "" | Need acc _ _ _ => acc end.

Definition pieces_bytes (ps : list piece) : string := foldr (λ p acc, piece_bytes p +:+ acc) "" ps.

(** A well-formed sequence: the decoder reads it as one valid piece. *)
Definition utf8_char (b : string) : Prop := run_go Idle b = ([Valid b], Idle).

(** ** Percent-decoding *)

(** A character of [_hexdig], and its value. *)
Definition hex_digit (c : ascii) : option N :=
  let n := byte_of c in
  if bool_decide (48 ≤ n ≤ 57)%N then Some (n - 48)%N
  else if bool_decide (65 ≤ n ≤ 70)%N then Some (n - 55)%N
  else if bool_decide (97 ≤ n ≤ 102)%N then Some (n - 87)%N
  else None.

(** [_hextobyte[item[:2]]] and [item[2:]]: the table has every pair of
    [_hexdig] characters. *)
Definition hextobyte (item : string) : option (ascii * string) :=
  match item with
  | String a (String b rest) =>
      match hex_digit a, hex_digit b with
      | Some x, Some y => Some (ascii_of_N (16 * x + y), rest)
      | _, _ => None
      end
  | _ => None
  end.

(** One item after a [%]: its byte and the rest, or the [%] kept
    ([except KeyError]). *)
Definition unquote_item (item : string) : string :=
  match hextobyte item with
  | Some (c, rest) => String c rest
  | None => String "%" item
  end.

(** [unquote_to_bytes(string)]: the text as UTF-8, split on [%], each
    item after the first decoded. *)
Definition unquote_to_bytes (s : string) : string :=
  if bool_decide (s = "") then "" else
  let bs := utf8_encode s in
  match str_split "%" bs with
  | b0 :: it :: its => b0 +:+ foldr (λ it acc, unquote_item it +:+ acc) "" (it :: its)
  | _ => bs
  end.

(** The same decoding as a one-pass scanner: [Pct] after a [%], [Pct1 a]
    after [%] and one hex digit [a]. *)
Inductive pstate := Plain | Pct | Pct1 (a : ascii).

Definition pct_start (c : ascii) : string * pstate :=
  if bool_decide (c = "%"%char) then ("", Pct) else (String c "", Plain).

Definition pct_feed (st : pstate) (c : ascii) : string * pstate :=
  match st with
  | Plain => pct_start c
  | Pct =>
      match hex_digit c with
      | Some _ => ("", Pct1 c)
      | None => let '(o, st') := pct_start c in (String "%" o, st')
      end
  | Pct1 a =>
      match hex_digit a, hex_digit c with
      | Some x, Some y => (String (ascii_of_N (16 * x + y)) "", Plain)
      | _, _ => let '(o, st') := pct_start c in (String "%" (String a o), st')
      end
  end.

Definition pct_flush (st : pstate) : string :=
  match st with Plain => "" | Pct => "%" | Pct1 a => String "%" (String a "") end.

Fixpoint pct_decode_go (st : pstate) (s : string) : string :=
  match s with
  | EmptyString => pct_flush st
  | String c s' => let '(o, st') := pct_feed st c in o +:+ pct_decode_go st' s'
  end.

Definition pct_decode (s : string) : string := pct_decode_go Plain s.

(** [_asciire.split(string)] ([_asciire] matches runs of [0x00..0x7f]):
    the maximal runs of ASCII ([true]) and of other characters. *)
Definition is_ascii_byte (c : ascii) : bool := bool_decide (byte_of c < 128)%N.

Fixpoint ascii_runs (s : string) : list (bool * string) :=
  match s with
  | EmptyString => []
  | String c s' =>
      let a := is_ascii_byte c in
      match ascii_runs s' with
      | (a', r) :: rs => if Bool.eqb a a' then (a, String c r) :: rs else (a, String c "") :: (a', r) :: rs
      | [] => [(a, String c "")]
      end
  end.

Fixpoint has_char (c : ascii) (s : string) : bool :=
  match s with
  | EmptyString => false
  | String d s' => bool_decide (d = c) || has_char c s'
  end.

(** [unquote(string, errors=h)], as the UTF-8 encoding of the [str] it
    returns: without [%] the text itself; otherwise each ASCII run
    percent-decoded and decoded as UTF-8 with the handler, the other
    runs as they are. *)
Definition unquote_with (h : string → string) (s : string) : string :=
  if negb (has_char "%" s) then utf8_encode s
  else foldr (λ (ar : bool * string) acc, (if ar.1 then recode h (unquote_to_bytes ar.2) else utf8_encode ar.2) +:+ acc)
         "" (ascii_runs s).

(** [unquote(string)]: UTF-8 with ["replace"]. *)
Definition unquote (s : string) : string := unquote_with replace_handler s.

(** ** [urlsplit] *)

Record split_result := {
  scheme : string;
  netloc : string;
  path : string;
  query : string;
  fragment : string
}.

(** [_WHATWG_C0_CONTROL_OR_SPACE], [_UNSAFE_URL_BYTES_TO_REMOVE] and
    [scheme_chars]. *)
Definition c0_control_or_space (c : ascii) : bool := bool_decide (byte_of c ≤ 32)%N.
Definition unsafe_url_byte (c : ascii) : bool :=
  bool_decide (byte_of c = 9 ∨ byte_of c = 10 ∨ byte_of c = 13)%N.
Definition is_ascii_alpha (c : ascii) : bool :=
  bool_decide (65 ≤ byte_of c ≤ 90 ∨ 97 ≤ byte_of c ≤ 122)%N.
Definition scheme_char (c : ascii) : bool :=
  is_ascii_alpha c || bool_decide (48 ≤ byte_of c ≤ 57)%N || has_char c "+-.".

Fixpoint remove_chars (p : ascii → bool) (s : string) : string :=
  match s with
  | EmptyString => EmptyString
  | String c s' => if p c then remove_chars p s' else String c (remove_chars p s')
  end.

(** [s.split(c, 1)] when [c] occurs ([s.partition(c)]): the text before
    its first occurrence and the text after. *)
Fixpoint split_once (c : ascii) (s : string) : option (string * string) :=
  match s with
  | EmptyString => None
  | String d s' =>
      if bool_decide (d = c) then Some ("", s')
      else (λ xy : string * string, (String d xy.1, xy.2)) <$> split_once c s'
  end.

(** [s.partition(c)]: the text before, and the text after, or everything
    and [""]. *)
Definition partition (c : ascii) (s : string) : string * string :=
  default (s, "") (split_once c s).

(** [s.rpartition(c)[2]]: the text after the last occurrence, or [s]. *)
Fixpoint after_last (c : ascii) (s : string) : string :=
  match s with
  | EmptyString => EmptyString
  | String d s' =>
      if has_char c s' then after_last c s' else if bool_decide (d = c) then s' else s
  end.

Section urlsplit.

(** [ipaddress.ip_address(h)]: [Some true] for an [IPv6Address], [Some
    false] for an [IPv4Address], [None] when it raises [ValueError].  The
    address grammars of [ipaddress] are not modelled. *)
Variable ip_address : string → option bool.

Definition invalid_ipv6 : exn := ValueError "Invalid IPv6 URL".

(** [re.match(r"\Av[a-fA-F0-9]+\..+\Z", hostname)] on the text after the
    [v]: hex digits, a dot, and at least one character other than a line
    feed ([.] without [DOTALL]). *)
Definition ipvfuture_ok (rest : string) : bool :=
  match span (λ c, bool_decide (is_Some (hex_digit c))) rest with
  | (String _ _, String "."%char tail) => bool_decide (tail ≠ "") && negb (has_char (ascii_of_N 10) tail)
  | _ => false
  end.

(** [_check_bracketed_host(hostname)] *)
Definition check_bracketed_host (hostname : string) : result unit :=
  match hostname with
  | String "v"%char rest => if ipvfuture_ok rest then Ok () else raise! (ValueError "IPvFuture address is invalid")
  | _ =>
      match ip_address hostname with
      | Some true => Ok ()
      | Some false => raise! (ValueError "An IPv4 address cannot be in brackets")
      | None => raise! (ValueError "does not appear to be an IPv4 or IPv6 address")
      end
  end.

(** [_check_bracketed_netloc(netloc)] *)
Definition check_bracketed_netloc (netloc : string) : result unit :=
  let hostname_and_port := after_last "@" netloc in
  match split_once "[" hostname_and_port with
  | Some (before_bracket, bracketed) =>
      if bool_decide (before_bracket ≠ "") then raise! invalid_ipv6 else
      let '(hostname, port) := partition "]" bracketed in
      match port with
      | String c _ => if bool_decide (c ≠ ":"%char) then raise! invalid_ipv6 else check_bracketed_host hostname
      | EmptyString => check_bracketed_host hostname
      end
  | None => check_bracketed_host (partition ":" hostname_and_port).1
  end.

(** [_splitnetloc(url, 2)] after the [//]: up to the first [/], [?] or
    [#]. *)
Definition splitnetloc (url : string) : string * string :=
  span (λ c, negb (has_char c "/?#")) url.

(** The scheme: [url[:i]] for the first [:] at [i > 0], when [url[0]] is
    an ASCII letter and every character before the colon a scheme
    character, lower-cased. *)
Definition split_scheme (url : string) : string * string :=
  match url, split_once ":" url with
  | String c0 _, Some (before, after) =>
      if is_ascii_alpha c0 && all_chars scheme_char before then (string_lower before, after) else ("", url)
  | _, _ => ("", url)
  end.

(** [urlsplit(url)] with [allow_fragments=True].  [_checknetloc] only
    looks at a netloc with non-ASCII characters, and raises only when
    their NFKC normalisation brings in one of [/?#@:]; no code point of
    [0..255] normalises to a string holding one of them, so on the texts
    of this model it never raises and is left out. *)
Definition urlsplit (url : string) : result split_result :=
  let url := remove_chars unsafe_url_byte (lstrip_chars c0_control_or_space url) in
  let '(sch, url) := split_scheme url in
  (match strip_prefix "//" url with
   | Some rest =>
       let '(nl, url') := splitnetloc rest in
       let has_open := has_char "[" nl in
       let has_close := has_char "]" nl in
       if (has_open && negb has_close) || (has_close && negb has_open) then raise! invalid_ipv6
       else if has_open && has_close then (λ _, (nl, url')) <$> check_bracketed_netloc nl
       else Ok (nl, url')
   | None => Ok ("", url)
   end) ≫= λ '(nl, url),
  let '(url, frag) := default (url, "") (split_once "#" url) in
  let '(url, q) := default (url, "") (split_once "?" url) in
  Ok {| scheme := sch; netloc := nl; path := url; query := q; fragment := frag |}.

End urlsplit.

(** ** [parse_qsl] *)

Fixpoint plus_to_space (s : string) : string :=
  match s with
  | EmptyString => EmptyString
  | String c s' => String (if bool_decide (c = "+"%char) then " "%char else c) (plus_to_space s')
  end.

(** [parse_qsl(qs, keep_blank_values=True, errors=h)]: the fields between
    [&], empty ones skipped, each split at its first [=] (a field without
    one has the value [""]), [+] read as a space and unquoted.  Names and
    values are kept as UTF-8. *)
Definition parse_qsl (h : string → string) (qs : string) : list (string * string) :=
  let query_args := if bool_decide (qs = "") then [] else str_split "&" qs in
  omap (λ name_value,
          if bool_decide (name_value = "") then None else
          let '(n, v) := partition "=" name_value in
          Some (unquote_with h (plus_to_space n), unquote_with h (plus_to_space v)))
       query_args.

(** ** The UTF-8 decoder *)

Lemma pieces_bytes_app ps qs : pieces_bytes (ps ++ qs) = pieces_bytes ps +:+ pieces_bytes qs.
Proof.
  induction ps as [|p ps IH]; [done|]. cbn [app pieces_bytes foldr]. fold (pieces_bytes ps) (pieces_bytes (ps ++ qs)).
  by rewrite IH, string_app_assoc.
Qed.

Lemma decode_run st s : decode_go st s = (run_go st s).1 ++ flush (run_go st s).2.
Proof.
  revert st. induction s as [|c s IH]; intros st; [by destruct st|].
  cbn [decode_go run_go]. destruct (feed st c) as [ps st']. rewrite IH.
  destruct (run_go st' s). by rewrite app_assoc.
Qed.

Lemma run_go_app st s t :
  run_go st (s +:+ t) = let '(ps, st') := run_go st s in let '(qs, st'') := run_go st' t in (ps ++ qs, st'').
Proof.
  revert st. induction s as [|c s IH]; intros st; rewrite ?string_app_nil_l, ?string_app_cons; cbn [run_go].
  - by destruct (run_go st t).
  - destruct (feed st c) as [ps st']. rewrite IH.
    destruct (run_go st' s) as [qs st'']. destruct (run_go st'' t). by rewrite app_assoc.
Qed.

Lemma start_bytes c : pieces_bytes (start c).1 +:+ st_bytes (start c).2 = String c "".
Proof. unfold start. case_bool_decide; [done|]. by destruct (lead _) as [[[]]|]. Qed.

Lemma feed_bytes st c : pieces_bytes (feed st c).1 +:+ st_bytes (feed st c).2 = st_bytes st +:+ String c "".
Proof.
  destruct st as [|acc k lo hi]; [apply start_bytes|]. cbn [feed].
  case_bool_decide.
  - destruct k as [|[|k]]; cbn; rewrite ?string_app_nil_r; done.
  - pose proof (start_bytes c) as Hs. destruct (start c) as [ps st']. cbn in *.
    by rewrite <-string_app_assoc, Hs.
Qed.

Lemma run_bytes st s : pieces_bytes (run_go st s).1 +:+ st_bytes (run_go st s).2 = st_bytes st +:+ s.
Proof.
  revert st. induction s as [|c s IH]; intros st; cbn [run_go].
  - by rewrite string_app_nil_r.
  - pose proof (feed_bytes st c) as Hf. destruct (feed st c) as [ps st'].
    specialize (IH st'). destruct (run_go st' s) as [qs st'']. cbn [fst snd] in *.
    rewrite pieces_bytes_app, <-string_app_assoc, IH, string_app_assoc, Hf, <-string_app_assoc.
    by rewrite string_app_cons, string_app_nil_l.
Qed.

(** The decoder loses no byte: its pieces put together give the input
    back. *)
Lemma utf8_pieces_bytes s : pieces_bytes (utf8_pieces s) = s.
Proof.
  unfold utf8_pieces. rewrite decode_run, pieces_bytes_app. pose proof (run_bytes Idle s) as H.
  destruct (run_go Idle s) as [ps [|acc k lo hi]]; cbn [fst snd st_bytes flush] in *.
  - rewrite string_app_nil_l, string_app_nil_r in H. change (pieces_bytes []) with "".
    by rewrite string_app_nil_r.
  - rewrite string_app_nil_l in H. change (pieces_bytes [Invalid acc]) with (acc +:+ "").
    by rewrite string_app_nil_r.
Qed.

Definition all_valid (ps : list piece) : bool :=
  forallb (λ p, match p with Valid _ => true | Invalid _ => false end) ps.

Lemma all_valid_app ps qs : all_valid (ps ++ qs) = all_valid ps && all_valid qs.
Proof. apply forallb_app. Qed.

Lemma utf8_valid_all s : utf8_valid s = all_valid (utf8_pieces s).
Proof. reflexivity. Qed.

(** Well-formed text leaves the decoder at a sequence boundary. *)
Lemma utf8_valid_run s :
  utf8_valid s = true ↔ all_valid (run_go Idle s).1 = true ∧ (run_go Idle s).2 = Idle.
Proof.
  rewrite utf8_valid_all. unfold utf8_pieces. rewrite decode_run, all_valid_app.
  destruct (run_go Idle s) as [ps []]; cbn; rewrite ?andb_true_r, ?andb_false_r; naive_solver.
Qed.

Lemma utf8_pieces_app x t :
  utf8_valid x = true → utf8_pieces (x +:+ t) = utf8_pieces x ++ utf8_pieces t.
Proof.
  intros [_ Hx]%utf8_valid_run. unfold utf8_pieces. rewrite !decode_run, run_go_app.
  destruct (run_go Idle x) as [ps st]. cbn in Hx; subst st.
  destruct (run_go Idle t) as [qs st']. cbn. by rewrite app_nil_r, app_assoc.
Qed.

Lemma utf8_valid_app x y : utf8_valid x = true → utf8_valid (x +:+ y) = utf8_valid y.
Proof.
  intros Hx. rewrite !utf8_valid_all, utf8_pieces_app, all_valid_app by done.
  rewrite <-utf8_valid_all, Hx. done.
Qed.

(** Well-formed text comes out of [recode] unchanged, whatever the error
    handler. *)
Lemma recode_valid_id h s : utf8_valid s = true → recode h s = s.
Proof.
  intros Hv. rewrite <-(utf8_pieces_bytes s) at 2. unfold recode, pieces_bytes.
  rewrite utf8_valid_all in Hv. induction (utf8_pieces s) as [|[] ps IH]; cbn in *; [done| |done].
  by rewrite IH.
Qed.

(** Inside a sequence, the bytes read so far are a prefix the decoder
    reads without a piece. *)
Definition good_state (st : dstate) : Prop :=
  match st with Idle => True | Need acc k lo hi => run_go Idle acc = ([], st) end.

Lemma run_go_one st c : run_go st (String c "") = feed st c.
Proof. cbn. destruct (feed st c). by rewrite app_nil_r. Qed.

Lemma valid_in_singleton b b' : Valid b ∈ [Valid b'] → b = b'.
Proof. by intros [= ->]%list_elem_of_singleton. Qed.

Lemma start_good c : good_state (start c).2 ∧ ∀ b, Valid b ∈ (start c).1 → utf8_char b.
Proof.
  unfold utf8_char. unfold start at 1 2. case_bool_decide as Hb.
  - split; [done|]. intros b ->%valid_in_singleton. rewrite run_go_one. cbn [feed].
    unfold start. by rewrite bool_decide_true.
  - destruct (lead _) as [[[k lo] hi]|] eqn:El; cbn [fst snd good_state].
    + split; [|set_solver]. rewrite run_go_one. cbn [feed]. unfold start. by rewrite bool_decide_false, El.
    + split; [done|set_solver].
Qed.

Lemma feed_good st c : good_state st → good_state (feed st c).2 ∧ ∀ b, Valid b ∈ (feed st c).1 → utf8_char b.
Proof.
  destruct st as [|acc k lo hi]; [intros _; apply start_good|]. cbn [good_state]. intros Hacc.
  unfold utf8_char. cbn [feed]. case_bool_decide.
  - assert (Hrun : run_go Idle (acc +:+ String c "") = feed (Need acc k lo hi) c).
    { rewrite run_go_app, Hacc, run_go_one. by destruct (feed _ c). }
    cbn [feed] in Hrun. rewrite bool_decide_true in Hrun by done.
    destruct k as [|[|k]]; cbn; split; try done; intros b Hb;
      [apply valid_in_singleton in Hb as ->..|set_solver]; done.
  - pose proof (start_good c) as [Hg Hv]. destruct (start c) as [ps st']. cbn in *.
    split; [done|]. intros b [Hb|Hb]%elem_of_cons; [discriminate|by apply Hv].
Qed.

Lemma run_good st s :
  good_state st → good_state (run_go st s).2 ∧ ∀ b, Valid b ∈ (run_go st s).1 → utf8_char b.
Proof.
  revert st. induction s as [|c s IH]; intros st Hst; cbn [run_go]; [split; [done|set_solver]|].
  pose proof (feed_good st c Hst) as [Hg Hv]. destruct (feed st c) as [ps st']. cbn in *.
  specialize (IH st' Hg) as [Hg' Hv']. destruct (run_go st' s) as [qs st'']. cbn in *.
  split; [done|]. intros b [Hb|Hb]%elem_of_app; auto.
Qed.

(** Every valid piece the decoder reads is one well-formed sequence. *)
Lemma utf8_pieces_char s b : Valid b ∈ utf8_pieces s → utf8_char b.
Proof.
  unfold utf8_pieces. rewrite decode_run. pose proof (run_good Idle s I) as [_ Hv].
  destruct (run_go Idle s) as [ps [|acc k lo hi]]; cbn [fst snd flush] in *.
  - rewrite app_nil_r. apply Hv.
  - intros [Hb|Hb]%elem_of_app; [by apply Hv|set_solver].
Qed.

Lemma utf8_char_valid b : utf8_char b → utf8_valid b = true.
Proof. intros Hb. apply utf8_valid_run. by rewrite Hb. Qed.

Lemma utf8_valid_nil : utf8_valid "" = true.
Proof. reflexivity. Qed.

Lemma foldr_valid {A} (f : A → string) (xs : list A) :
  (∀ x, x ∈ xs → utf8_valid (f x) = true) → utf8_valid (foldr (λ x acc, f x +:+ acc) "" xs) = true.
Proof.
  induction xs as [|x xs IH]; intros Hx; cbn [foldr]; [done|].
  rewrite utf8_valid_app by (apply Hx; left). apply IH. intros y Hy. apply Hx. by right.
Qed.

(** Whatever the input, [recode] gives well-formed UTF-8 when the error
    handler does. *)
Lemma recode_valid h s : (∀ bs, utf8_valid (h bs) = true) → utf8_valid (recode h s) = true.
Proof.
  intros Hh. unfold recode. apply foldr_valid. intros [b|b] Hb; [|apply Hh].
  by apply utf8_char_valid, (utf8_pieces_char s).
Qed.

Lemma utf8_encode_char_char c : utf8_char (utf8_encode_char c).
Proof. destruct c as [[] [] [] [] [] [] [] []]; vm_compute; reflexivity. Qed.

Lemma utf8_encode_valid s : utf8_valid (utf8_encode s) = true.
Proof.
  induction s as [|c s IH]; [done|]. cbn [utf8_encode].
  by rewrite utf8_valid_app by apply utf8_char_valid, utf8_encode_char_char.
Qed.

Lemma replace_handler_valid bs : utf8_valid (replace_handler bs) = true.
Proof. reflexivity. Qed.

Lemma ascii_valid s : all_chars is_ascii_byte s = true → utf8_valid s = true.
Proof.
  induction s as [|c s IH]; [done|]. cbn [all_chars]. intros [Hc Hs]%andb_true_iff.
  change (String c s) with (String c "" +:+ s). rewrite utf8_valid_app; [by apply IH|].
  apply utf8_char_valid. unfold utf8_char. rewrite run_go_one. cbn [feed]. unfold start.
  unfold is_ascii_byte in Hc. cbv zeta. by rewrite Hc.
Qed.

Lemma url_quote_handler_valid bs : utf8_valid (url_quote_handler bs) = true.
Proof.
  apply ascii_valid. induction bs as [|c bs IH]; [done|]. cbn [url_quote_handler].
  rewrite all_chars_app, IH, andb_true_r. destruct c as [[] [] [] [] [] [] [] []]; vm_compute; reflexivity.
Qed.

#[export] Hint Resolve replace_handler_valid url_quote_handler_valid utf8_encode_valid : pyrt.

(** [unquote] with either handler gives well-formed UTF-8. *)
Lemma unquote_with_valid h s : (∀ bs, utf8_valid (h bs) = true) → utf8_valid (unquote_with h s) = true.
Proof.
  intros Hh. unfold unquote_with. destruct (negb _); [apply utf8_encode_valid|].
  apply foldr_valid. intros [[] r] _; cbn [fst snd]; [by apply recode_valid|apply utf8_encode_valid].
Qed.

(** ** Percent-decoding *)

Lemma str_split_nonempty sep s : ∃ w ws, str_split sep s = w :: ws.
Proof.
  induction s as [|c s (w & ws & IH)]; cbn [str_split]; [by eexists _, _|].
  rewrite IH. case_bool_decide; by eexists _, _.
Qed.

Lemma str_split_single sep s w : str_split sep s = [w] → w = s.
Proof.
  revert w. induction s as [|c s IH]; intros w; cbn [str_split]; [by intros [= <-]|].
  destruct (str_split_nonempty sep s) as (w' & ws & E). rewrite E.
  case_bool_decide; [done|]. intros [= <- ->]. by rewrite (IH w' E).
Qed.

Definition items_decode (items : list string) : string :=
  foldr (λ it acc, unquote_item it +:+ acc) "" items.

Lemma hextobyte_short a : hextobyte (String a "") = None.
Proof. reflexivity. Qed.

Lemma unquote_item_short a : unquote_item (String a "") = String "%" (String a "").
Proof. reflexivity. Qed.

Lemma items_decode_cons w ws : items_decode (w :: ws) = unquote_item w +:+ items_decode ws.
Proof. reflexivity. Qed.

Lemma pct_start_pct : pct_start "%" = ("", Pct).
Proof. reflexivity. Qed.

Lemma hex_digit_pct : hex_digit "%" = None.
Proof. reflexivity. Qed.

Lemma pct_start_other c : c ≠ "%"%char → pct_start c = (String c "", Plain).
Proof. intros Hc. unfold pct_start. by rewrite bool_decide_false. Qed.

Lemma unquote_item_nohex a w : hex_digit a = None → unquote_item (String a w) = String "%" (String a w).
Proof. intros Ha. unfold unquote_item, hextobyte. destruct w; [done|]. by rewrite Ha. Qed.

(** The scanner agrees with the split on [%]: in state [Plain] it reads
    the first item as is, after a [%] it decodes the item, after [%] and
    a hex digit [a] it decodes the item with [a] in front. *)
Lemma pct_decode_split bs w ws :
  str_split "%"%char bs = w :: ws →
  pct_decode_go Plain bs = w +:+ items_decode ws ∧
  pct_decode_go Pct bs = unquote_item w +:+ items_decode ws ∧
  ∀ a x, hex_digit a = Some x → pct_decode_go (Pct1 a) bs = unquote_item (String a w) +:+ items_decode ws.
Proof.
  revert w ws. induction bs as [|c bs IH]; intros w ws.
  { intros [= <- <-]. split; [done|]. split; [done|]. intros a x Ha.
    cbn [pct_decode_go pct_flush items_decode foldr]. unfold unquote_item. by rewrite hextobyte_short. }
  destruct (str_split_nonempty "%"%char bs) as (w' & ws' & E).
  specialize (IH w' ws' E) as (IH1 & IH2 & IH3). cbn [str_split]. rewrite E.
  case_bool_decide as Hc; intros [= <- <-]; cbn [pct_decode_go pct_feed]; rewrite ?items_decode_cons;
    split_and!; try subst c; rewrite ?hex_digit_pct, ?pct_start_pct.
  - cbv beta iota. rewrite IH2. by rewrite string_app_nil_l.
  - cbv beta iota. rewrite IH2. done.
  - intros a x Ha. rewrite Ha, ?hex_digit_pct, ?pct_start_pct. cbv beta iota. rewrite IH2.
    by rewrite unquote_item_short.
  - rewrite pct_start_other by done. cbv beta iota. by rewrite IH1.
  - destruct (hex_digit c) as [y|] eqn:Hy.
    + cbv beta iota. rewrite (IH3 c y Hy). done.
    + rewrite pct_start_other by done. cbv beta iota. rewrite IH1, unquote_item_nohex by done. done.
  - intros a x Ha. rewrite Ha. destruct (hex_digit c) as [y|] eqn:Hy.
    + cbv beta iota. rewrite IH1. unfold unquote_item, hextobyte. by rewrite Ha, Hy.
    + rewrite pct_start_other by done. cbv beta iota. rewrite IH1.
      unfold unquote_item, hextobyte. by rewrite Ha, Hy.
Qed.

(** [unquote_to_bytes], written with [split(b'%')] as in CPython, is the
    one-pass percent-decoder applied to the UTF-8 text. *)
Lemma unquote_to_bytes_pct s : unquote_to_bytes s = pct_decode (utf8_encode s).
Proof.
  unfold unquote_to_bytes. case_bool_decide as Hs; [by subst|].
  destruct (str_split "%"%char (utf8_encode s)) as [|w [|it its]] eqn:E.
  - by destruct (str_split_nonempty "%"%char (utf8_encode s)) as (? & ? & E'); rewrite E' in E.
  - pose proof (str_split_single _ _ _ E) as ->. unfold pct_decode.
    rewrite (proj1 (pct_decode_split _ _ _ E)). symmetry. apply string_app_nil_r.
  - unfold pct_decode. by rewrite (proj1 (pct_decode_split _ _ _ E)).
Qed.

(** ** ASCII text *)

Lemma utf8_encode_ascii s : all_chars is_ascii_byte s = true → utf8_encode s = s.
Proof.
  induction s as [|c s IH]; [done|]. cbn [all_chars utf8_encode]. intros [Hc Hs]%andb_true_iff.
  unfold utf8_encode_char. unfold is_ascii_byte in Hc. cbv zeta. rewrite Hc, IH by done. done.
Qed.

Lemma ascii_runs_ascii s : s ≠ "" → all_chars is_ascii_byte s = true → ascii_runs s = [(true, s)].
Proof.
  induction s as [|c s IH]; [done|]. intros _. cbn [all_chars ascii_runs]. intros [Hc Hs]%andb_true_iff.
  rewrite Hc. destruct s as [|c' s']; [done|]. rewrite IH by done. done.
Qed.

(** [unquote] of ASCII text: the text itself without [%], otherwise the
    percent-decoded bytes read as UTF-8 with the handler. *)
Lemma unquote_with_ascii h s :
  all_chars is_ascii_byte s = true →
  unquote_with h s = if has_char "%" s then recode h (pct_decode s) else s.
Proof.
  intros Ha. unfold unquote_with. destruct (has_char "%" s) eqn:Hp; cbn [negb].
  - destruct s as [|c s']; [done|]. rewrite ascii_runs_ascii by done. cbn [foldr fst snd].
    rewrite string_app_nil_r, unquote_to_bytes_pct, utf8_encode_ascii by done. done.
  - by apply utf8_encode_ascii.
Qed.

(** ** [urlsplit] on a path and a query *)

Lemma split_once_None c s : split_once c s = None ↔ has_char c s = false.
Proof.
  induction s as [|d s IH]; [done|]. cbn [split_once has_char].
  case_bool_decide; [done|]. cbn. rewrite <-IH. by destruct (split_once c s).
Qed.

Lemma split_once_app c s t :
  has_char c s = false → split_once c (s +:+ t) = (λ xy : string * string, (s +:+ xy.1, xy.2)) <$> split_once c t.
Proof.
  induction s as [|d s IH]; cbn [has_char].
  { intros _. rewrite string_app_nil_l. destruct (split_once c t) as [[]|]; [|done].
    cbn. by rewrite string_app_nil_l. }
  intros [Hd Hs]%orb_false_iff. rewrite string_app_cons. cbn [split_once]. rewrite Hd, IH by done.
  by destruct (split_once c t) as [[]|].
Qed.

Lemma has_char_app c s t : has_char c (s +:+ t) = has_char c s || has_char c t.
Proof.
  induction s as [|d s IH]; [by rewrite string_app_nil_l|].
  rewrite string_app_cons. cbn [has_char]. by rewrite IH, orb_assoc.
Qed.

Lemma remove_chars_none p s : all_chars (λ c, negb (p c)) s = true → remove_chars p s = s.
Proof.
  induction s as [|c s IH]; [done|]. cbn [all_chars remove_chars]. intros [Hc Hs]%andb_true_iff.
  apply negb_true_iff in Hc. by rewrite Hc, IH.
Qed.

(** The text after [?] in a request target, if there is one. *)
Definition query_part (q : option string) : string :=
  match q with Some q => String "?" q | None => "" end.

(** A character that may appear in the path or the query of the targets
    below: no [#], no byte [urlsplit] removes, and, in the path, no [?]. *)
Definition query_char (c : ascii) : bool := negb (bool_decide (c = "#"%char)) && negb (unsafe_url_byte c).
Definition path_char (c : ascii) : bool := query_char c && negb (bool_decide (c = "?"%char)).

Lemma has_char_all p c s : p c = false → all_chars p s = true → has_char c s = false.
Proof.
  intros Hc. induction s as [|d s IH]; [done|]. cbn. intros [Hd Hs]%andb_true_iff.
  rewrite IH by done. case_bool_decide; [subst; congruence|done].
Qed.

(** A target that starts with neither blank, nor letter, nor [//], and
    whose path has no [?] or [#]: [urlsplit] gives no scheme, no netloc,
    the path, and the query. *)
Lemma urlsplit_path ip_address c0 p q :
  c0_control_or_space c0 = false → is_ascii_alpha c0 = false →
  strip_prefix "//" (String c0 p +:+ query_part q) = None →
  all_chars path_char (String c0 p) = true → all_chars query_char (default "" q) = true →
  urlsplit ip_address (String c0 p +:+ query_part q)
  = Ok {| scheme := ""; netloc := ""; path := String c0 p; query := default "" q; fragment := "" |}.
Proof.
  intros Hc0 Ha Hs Hp Hq. unfold urlsplit.
  rewrite string_app_cons. cbn [lstrip_chars]. rewrite Hc0, <-string_app_cons.
  assert (Hpu : all_chars (λ c, negb (unsafe_url_byte c)) (String c0 p +:+ query_part q) = true).
  { rewrite all_chars_app. apply andb_true_iff. split.
    - refine (all_chars_impl _ _ _ _ Hp). unfold path_char, query_char.
      intros c [[_ H]%andb_true_iff _]%andb_true_iff. done.
    - destruct q as [q|]; [|done]. cbn [query_part default all_chars] in Hq |- *.
      apply andb_true_iff. split; [reflexivity|]. refine (all_chars_impl _ _ _ _ Hq). unfold query_char.
      intros c [_ H]%andb_true_iff. done. }
  rewrite remove_chars_none by done.
  unfold split_scheme. rewrite string_app_cons.
  destruct (split_once ":" _) as [[]|]; rewrite ?Ha; cbn [andb]; rewrite <-string_app_cons, Hs; cbn -[split_once].
  all: assert (Hh : has_char "#" (String c0 p) = false) by (eapply has_char_all; [|exact Hp]; done).
  all: assert (Hq' : has_char "?" (String c0 p) = false)
    by (eapply has_char_all; [|exact Hp]; unfold path_char; by rewrite andb_false_r).
  all: assert (Hhq : has_char "#" (query_part q) = false)
    by (destruct q as [q|]; [|done]; cbn [query_part has_char]; rewrite bool_decide_false by done;
        eapply has_char_all; [|exact Hq]; done).
  all: rewrite split_once_app, (proj2 (split_once_None _ _ )) by done; cbn [fmap option_fmap option_map default].
  all: rewrite split_once_app by done.
  all: destruct q as [q|]; cbn [query_part split_once]; [rewrite bool_decide_true by done|];
    cbn; rewrite ?string_app_nil_r; reflexivity.
Qed.

End Url.
