(* ===== verification/Http.v ===== *)
(** * Http: what the Flask application answers

    Lines 9-10 and 15-17 of [src/backend/app.py] build the WSGI
    application: [Flask(__name__)] (which always registers the static rule
    [/static/<path:filename>]), [CORS(app)] with flask_cors's default
    options, and the view [index] on the rule ["/"].  This file models one
    request through [Flask.wsgi_app]: werkzeug's URL matching (automatic
    [HEAD] and [OPTIONS] on every rule, the [path] converter's pattern,
    the strict-slash redirect of an empty path, slash merging with a 308
    redirect to the absolute URL [make_redirect_url] builds, 404 and 405
    with the [Allow] header in the process's set order), Flask's
    [dispatch_request] (the automatic [OPTIONS] response, the [index] and
    static views), flask_cors's [after_request] hook, and the empty body
    [Response.get_app_iter] gives a request whose raw method is [HEAD].

    The host name werkzeug puts in the URLs it builds is an input of the
    request ([req_host]): host names that IDNA encoding rewrites or
    refuses ([BadHost], 400) are not modelled. *)

From S2P Require Import Prelude PyInt Json Url.

Module Http.
Import Url.

(** A request as Flask sees it: [REQUEST_METHOD] as the client wrote it;
    [PATH_INFO] and [QUERY_STRING] as werkzeug decodes them
    ([_wsgi_decoding_dance]), as UTF-8 (the query holds no [#]: [urlsplit]
    cut the fragment off); the server name of the URLs werkzeug builds for
    it ([get_host], the [:80] of [http] removed, lower-cased); and the
    headers. *)
Record request := {
  req_method : string;
  req_path : string;
  req_query : string;
  req_host : string;
  req_headers : list (string * string)
}.

(** The body of a response.  An error page carries its status code only:
    the HTML text werkzeug renders is not modelled. *)
Inductive body :=
  | BJson (bytes : string)
  | BFile (contents : string)
  | BErrorPage (code : nat)
  | BEmpty.

Record response := {
  status : nat;
  resp_headers : list (string * string);
  resp_body : body
}.

(** [Headers.get]: the first header of that name, case-insensitively. *)
Definition header_get (hs : list (string * string)) (name : string) : option string :=
  (λ ih : nat * (string * string), ih.2.2) <$> list_find (λ h, string_upper h.1 = string_upper name) hs.

(** ** The URL map *)

(** The endpoints: the view of line 16 and Flask's static view. *)
Inductive endpoint := EIndex | EStatic (filename : string).

(** Both rules have [methods=("GET",)]; werkzeug's [Rule] adds [HEAD] and
    Flask's [add_url_rule] adds [OPTIONS] ([provide_automatic_options]).
    werkzeug keeps them in a [set]: the list names its elements, in no
    particular order. *)
Definition rule_methods : list string := ["GET"; "HEAD"; "OPTIONS"].

(** The [path] converter's pattern [[^/].*?\Z], matched against the rest
    of the path ([.] without [DOTALL] stops at a line feed): a first
    character other than a slash, then no line feed. *)
Definition path_converter_ok (f : string) : bool :=
  match f with
  | String c rest => negb (bool_decide (c = "/"%char)) && negb (has_char nl_char rest)
  | EmptyString => false
  end.

(** The path of a rule: ["/"] (line 15), or ["/static/"] followed by a
    value of the [path] converter. *)
Definition match_path (p : string) : option endpoint :=
  if bool_decide (p = "/") then Some EIndex
  else match strip_prefix "/static/" p with
       | Some f => if path_converter_ok f then Some (EStatic f) else None
       | None => None
       end.

(** [re.sub("/+", "/", path)] *)
Fixpoint merge_slashes_go (prev_slash : bool) (s : string) : string :=
  match s with
  | EmptyString => EmptyString
  | String c s' =>
      if bool_decide (c = "/"%char) then
        if prev_slash then merge_slashes_go true s' else String c (merge_slashes_go true s')
      else String c (merge_slashes_go false s')
  end.
Definition merge_slashes (p : string) : string := merge_slashes_go false p.

Inductive match_result :=
  | Matched (e : endpoint)
  | NotFound
  | MethodNotAllowed (valid : list string)
  | Redirect (location : string).

(** [MapAdapter.match]: the matcher is given [path_info] with its leading
    slashes reduced to one ([f"/{path_info.lstrip('/')}"]), or the empty
    string when [path_info] is empty. *)
Definition path_part (p : string) : string :=
  if bool_decide (p = "") then "" else String "/" (lstrip_chars (is_char "/") p).

(** One pass of [StateMachineMatcher._match]: the endpoint when the path
    matches a rule that allows the method, and whether the path matched a
    rule that does not ([have_match_for]). *)
Definition match_once (m p : string) : option endpoint * bool :=
  match match_path p with
  | Some e => if bool_decide (m ∈ rule_methods) then (Some e, false) else (None, true)
  | None => (None, false)
  end.

(** [MapAdapter.match]: [StateMachineMatcher.match] with
    [merge_slashes=True] on the path part, and the handling of its
    exceptions.  An empty path part reaches the state after the first
    [""] part, where no rule ends but the rule ["/"] does one [""] part
    further: for a method that rule allows, the matcher raises
    [SlashRequired], a redirect to ["/"]; otherwise nothing matches.  Any
    other path: a match; otherwise a second pass on the merged path, which
    becomes a redirect ([RequestPath]) if it matches; otherwise 405 if
    some rule matched the path, else 404. *)
Definition url_match (m path_info : string) : match_result :=
  let p := path_part path_info in
  if bool_decide (p = "") then
    if bool_decide (m ∈ rule_methods) then Redirect "/" else NotFound
  else
  let '(r1, h1) := match_once m p in
  match r1 with
  | Some e => Matched e
  | None =>
      let p' := merge_slashes p in
      let '(r2, h2) := match_once m p' in
      match r2 with
      | Some _ => Redirect p'
      | None => if h1 || h2 then MethodNotAllowed rule_methods else NotFound
      end
  end.

(** ** Dispatch *)

(** What the application depends on beyond the code: the debug flag (it
    changes [jsonify]'s output), the files behind the static view
    ([send_from_directory], [safe_join] included), and the order in which
    this process iterates werkzeug's set of a rule's methods: it depends
    on the string hash seed, so it is some permutation of the three. *)
Record app_config := {
  debug : bool;
  static_lookup : string → option string;
  allow_order : list string;
  allow_order_perm : allow_order ≡ₚ rule_methods
}.

(** [urllib.parse.quote(s, safe)] on the UTF-8 bytes of [s]: a byte of
    [_ALWAYS_SAFE] (ASCII letters and digits, [_.-~]) or of [safe] stays,
    any other byte becomes [%XX]. *)
Definition always_safe (c : ascii) : bool :=
  is_ascii_alpha c || bool_decide (48 ≤ byte_of c ≤ 57)%N || has_char c "_.-~".

Fixpoint url_quote (safe s : string) : string :=
  match s with
  | EmptyString => EmptyString
  | String c s' =>
      (if always_safe c || has_char c safe then String c ""
       else String "%" (String (hex_upper (byte_of c / 16)) (String (hex_upper (byte_of c mod 16)) "")))
      +:+ url_quote safe s'
  end.

(** The [Location] of a routing redirect to [p]: [MapAdapter.match]
    quotes [p] with [safe="!$&'()*+,/:;=@"]; [make_redirect_url] (script
    name ["/"], scheme ["http"]) joins ["http://"], the server name, ["/"]
    and the quoted path without its leading slashes, and [?] and the
    query string when it is not empty; [Response.get_wsgi_headers] passes
    the URL through [iri_to_uri], which quotes the path again with
    [safe="%!$&'()*+,/:;=@"] and the query with [safe="%!$&'()*+,/:;=?@"]. *)
Definition redirect_url (req : request) (p : string) : string :=
  "http://" +:+ req_host req
  +:+ url_quote "%!$&'()*+,/:;=@" (String "/" (lstrip_chars (is_char "/") (url_quote "!$&'()*+,/:;=@" p)))
  +:+ (if bool_decide (req_query req = "") then ""
       else String "?" (url_quote "%!$&'()*+,/:;=?@" (req_query req))).

Definition html_type : string * string := ("Content-Type", "text/html; charset=utf-8").

(** [HTTPException.get_response] for the routing errors. *)
Definition error_response (code : nat) (extra : list (string * string)) : response :=
  {| status := code; resp_headers := html_type :: extra; resp_body := BErrorPage code |}.

(** Line 17: [jsonify(...)] is a [Response] with the JSON body, its
    mimetype and the [Content-Length] werkzeug sets from the data; an
    exception in the view is answered [500 Internal Server Error]. *)
Definition json_response (b : string) : response :=
  {| status := 200;
     resp_headers := [("Content-Type", "application/json");
                      ("Content-Length", PyInt.py_str (Z.of_nat (String.length b)))];
     resp_body := BJson b |}.

Definition index (cfg : app_config) : response :=
  match Json.jsonify_body (debug cfg) Json.index_payload with
  | Ok b => json_response b
  | Raise _ => error_response 500 []
  end.

(** [send_static_file]: the file, or [NotFound]. *)
Definition static_view (cfg : app_config) (f : string) : response :=
  match static_lookup cfg f with
  | Some data => {| status := 200; resp_headers := []; resp_body := BFile data |}
  | None => error_response 404 []
  end.

(** [make_default_options_response]: an empty response whose [Allow]
    header lists the methods the URL allows, [list] of werkzeug's set. *)
Definition default_options_response (cfg : app_config) : response :=
  {| status := 200; resp_headers := [html_type; ("Allow", str_join ", " (allow_order cfg))];
     resp_body := BEmpty |}.

(** [Flask.full_dispatch_request] without CORS: the routing exception, the
    automatic [OPTIONS] answer, or the view.  A [MethodNotAllowed] lists
    [list(e.have_match_for)], the set of the rule's methods. *)
Definition dispatch (cfg : app_config) (req : request) (m : string) : response :=
  match url_match m (req_path req) with
  | NotFound => error_response 404 []
  | MethodNotAllowed _ => error_response 405 [("Allow", str_join ", " (allow_order cfg))]
  | Redirect p => error_response 308 [("Location", redirect_url req p)]
  | Matched e =>
      if bool_decide (m = "OPTIONS") then default_options_response cfg
      else match e with
           | EIndex => index cfg
           | EStatic f => static_view cfg f
           end
  end.

(** ** flask_cors with its default options

    [origins="*"], [send_wildcard=False], [always_send=True],
    [supports_credentials=False], [vary_header=True], [allow_headers="*"],
    [methods] the seven methods serialised as one sorted string,
    [expose_headers] and [max_age] unset (and so filtered out). *)
Definition cors_methods : string := "DELETE, GET, HEAD, OPTIONS, PATCH, POST, PUT".

(** [str.strip()] *)
Definition str_strip (s : string) : string := rstrip (lstrip s).

(** [s.split(",")] *)
Definition split_comma (s : string) : list string := str_split ","%char s.

(** [get_allow_headers]: every requested header matches ['.*'], so the
    answer is the stripped names, sorted and joined. *)
Definition allow_headers (requested : option string) : option string :=
  match requested with
  | Some r => if bool_decide (r = "") then None
              else Some (str_join ", " (merge_sort String.le (str_strip <$> split_comma r)))
  | None => None
  end.

(** [s in t] on strings: a substring test. *)
Fixpoint is_substring (s t : string) : bool :=
  match t with
  | EmptyString => bool_decide (s = "")
  | String _ t' => bool_decide (is_Some (strip_prefix s t)) || is_substring s t'
  end.

(** [get_cors_headers]: the origin (echoed when the request has one,
    otherwise ["*"] because of [always_send]), for a preflight request
    the allowed methods and headers, and [Vary: Origin] when the origin
    is echoed; headers whose value is empty are dropped. *)
Definition cors_origin (hdrs : list (string * string)) : string :=
  match header_get hdrs "Origin" with
  | Some o => if bool_decide (o = "") then "*" else o
  | None => "*"
  end.

Definition cors_headers (hdrs : list (string * string)) (m : string) : list (string * string) :=
  let origin := cors_origin hdrs in
  let preflight :=
    if bool_decide (m = "OPTIONS") then
      let acrm := string_upper (default "" (header_get hdrs "Access-Control-Request-Method")) in
      if bool_decide (acrm ≠ "") && is_substring acrm cors_methods then
        match allow_headers (header_get hdrs "Access-Control-Request-Headers") with
        | Some h => if bool_decide (h = "") then [] else [("Access-Control-Allow-Headers", h)]
        | None => []
        end ++ [("Access-Control-Allow-Methods", cors_methods)]
      else []
    else [] in
  [("Access-Control-Allow-Origin", origin)] ++ preflight
    ++ (if bool_decide (origin = "*") then [] else [("Vary", "Origin")]).

(** [cors_after_request]: the resource pattern [r"/*"] matches every
    path, and no response of this application already has the header. *)
Definition cors_after_request (req : request) (m : string) (r : response) : response :=
  {| status := status r; resp_headers := resp_headers r ++ cors_headers (req_headers req) m;
     resp_body := resp_body r |}.

(** [Response.get_app_iter] sends no body when the environ's
    [REQUEST_METHOD], as the client wrote it, is [HEAD]. *)
Definition finish_head (raw_method : string) (r : response) : response :=
  if bool_decide (raw_method = "HEAD") then
    {| status := status r; resp_headers := resp_headers r; resp_body := BEmpty |}
  else r.

(** [Flask.wsgi_app]: routing and the hooks see [request.method], the
    method werkzeug upper-cases; the WSGI response looks at the raw
    [REQUEST_METHOD]. *)
Definition wsgi_app (cfg : app_config) (req : request) : response :=
  let m := string_upper (req_method req) in
  finish_head (req_method req) (cors_after_request req m (dispatch cfg req m)).

(** The application as the repository deploys it: no [static] folder
    beside [app.py]. *)
Definition no_static (f : string) : option string := None.

(** ** Helper lemmas *)

Definition acao : string := "Access-Control-Allow-Origin".

(** No header of [hs] is named like [name]. *)
Definition lacks_header (name : string) (hs : list (string * string)) : Prop :=
  Forall (λ h, string_upper h.1 ≠ string_upper name) hs.

Lemma header_get_app_lacks hs1 hs2 name :
  lacks_header name hs1 → header_get (hs1 ++ hs2) name = header_get hs2 name.
Proof.
  intros H. unfold header_get. rewrite list_find_app_r; [|by apply list_find_None].
  by destruct (list_find _ hs2) as [[]|].
Qed.

Lemma dispatch_lacks_acao cfg req m : lacks_header acao (resp_headers (dispatch cfg req m)).
Proof.
  unfold dispatch, lacks_header, static_view, index, error_response, default_options_response.
  destruct (url_match m (req_path req)) as [[|f]| | |]; try case_bool_decide;
    try destruct (static_lookup cfg f);
    repeat (apply List.Forall_cons; [cbn [fst]; vm_compute; congruence|]); apply List.Forall_nil.
Qed.

Lemma header_get_cors hdrs m : header_get (cors_headers hdrs m) acao = Some (cors_origin hdrs).
Proof. reflexivity. Qed.

Lemma path_part_empty p : path_part p = "" → p = "".
Proof. unfold path_part. by case_bool_decide. Qed.

Lemma match_path_nonempty p e : match_path p = Some e → p ≠ "".
Proof. by intros Hp ->. Qed.

Lemma url_match_nonempty m p :
  path_part p ≠ "" →
  url_match m p =
    let '(r1, h1) := match_once m (path_part p) in
    match r1 with
    | Some e => Matched e
    | None =>
        let '(r2, h2) := match_once m (merge_slashes (path_part p)) in
        match r2 with
        | Some _ => Redirect (merge_slashes (path_part p))
        | None => if h1 || h2 then MethodNotAllowed rule_methods else NotFound
        end
    end.
Proof. intros Hp. unfold url_match. by rewrite bool_decide_false. Qed.

Lemma url_match_allowed m p e :
  m ∈ rule_methods → match_path (path_part p) = Some e → url_match m p = Matched e.
Proof.
  intros Hm Hp. rewrite url_match_nonempty by (eapply match_path_nonempty, Hp).
  unfold match_once. by rewrite Hp, bool_decide_true.
Qed.

Lemma url_match_not_allowed m p e :
  m ∉ rule_methods → match_path (path_part p) = Some e → url_match m p = MethodNotAllowed rule_methods.
Proof.
  intros Hm Hp. rewrite url_match_nonempty by (eapply match_path_nonempty, Hp).
  unfold match_once. rewrite Hp, bool_decide_false by done.
  destruct (match_path (merge_slashes (path_part p))); reflexivity.
Qed.

Lemma cors_headers_not_options hdrs m :
  m ≠ "OPTIONS" → cors_headers hdrs m = cors_headers hdrs "GET".
Proof. intros Hm. unfold cors_headers. rewrite (bool_decide_false (m = "OPTIONS")) by done. reflexivity. Qed.

Lemma wsgi_app_unfold cfg req :
  wsgi_app cfg req = finish_head (req_method req)
    (cors_after_request req (string_upper (req_method req))
       (dispatch cfg req (string_upper (req_method req)))).
Proof. reflexivity. Qed.

(** [finish_head] keeps the status and the headers. *)
Lemma finish_head_status m r : status (finish_head m r) = status r.
Proof. unfold finish_head. by case_bool_decide. Qed.

Lemma finish_head_headers m r : resp_headers (finish_head m r) = resp_headers r.
Proof. unfold finish_head. by case_bool_decide. Qed.

(** A method that upper-cases to [GET] is not the raw [HEAD]. *)
Lemma finish_head_get m r : string_upper m = "GET" → finish_head m r = r.
Proof. intros Hm. unfold finish_head. rewrite bool_decide_false; [done|]. by intros ->. Qed.

Lemma dispatch_get_index cfg req :
  path_part (req_path req) = "/" → dispatch cfg req "GET" = index cfg.
Proof. intros Hp. unfold dispatch, url_match. rewrite Hp. reflexivity. Qed.

(** The view's [jsonify] succeeds in both modes. *)
Lemma index_json cfg :
  ∃ b, Json.jsonify_body (debug cfg) Json.index_payload = Ok b ∧ index cfg = json_response b.
Proof. unfold index. destruct (debug cfg); eexists; split; reflexivity. Qed.

(** [GET] on a path whose leading slashes reduce to [/] is the index. *)
Lemma wsgi_app_get_index cfg req :
  string_upper (req_method req) = "GET" → path_part (req_path req) = "/" →
  ∃ b, Json.jsonify_body (debug cfg) Json.index_payload = Ok b ∧
    wsgi_app cfg req = {| status := 200;
                          resp_headers := resp_headers (json_response b) ++ cors_headers (req_headers req) "GET";
                          resp_body := BJson b |}.
Proof.
  intros Hm Hp. destruct (index_json cfg) as (b & Hb & Hi). exists b. split; [done|].
  rewrite wsgi_app_unfold, finish_head_get by done.
  rewrite Hm, (dispatch_get_index _ _ Hp), Hi. reflexivity.
Qed.

(** The status and the headers of a response, whatever [finish_head]
    does to its body. *)
Lemma wsgi_app_status_headers cfg req :
  status (wsgi_app cfg req) = status (dispatch cfg req (string_upper (req_method req))) ∧
  resp_headers (wsgi_app cfg req) =
    resp_headers (dispatch cfg req (string_upper (req_method req)))
    ++ cors_headers (req_headers req) (string_upper (req_method req)).
Proof. rewrite wsgi_app_unfold, finish_head_status, finish_head_headers. by split. Qed.

Lemma header_get_error code extra hs name :
  string_upper name ≠ string_upper (html_type.1) →
  header_get (resp_headers (error_response code extra) ++ hs) name = header_get (extra ++ hs) name.
Proof.
  intros Hn. unfold header_get, error_response. cbn [resp_headers app list_find].
  case_decide as H; [by destruct Hn|]. by destruct (list_find _ (extra ++ hs)) as [[]|].
Qed.

(** ** Properties *)

(** C1: [GET /] (and any path of slashes only, such as [//], which
    werkzeug reduces to [/] before matching) answers line 17's JSON
    with status 200, its content headers and the CORS headers, whatever the case of the method and whatever the
    request headers. *)
Theorem get_index (cfg : app_config) (req : request) :
  string_upper (req_method req) = "GET" → path_part (req_path req) = "/" →
  ∃ b, Json.jsonify_body (debug cfg) Json.index_payload = Ok b ∧
  wsgi_app cfg req =
    {| status := 200;
       resp_headers := resp_headers (json_response b) ++ cors_headers (req_headers req) "GET";
       resp_body := BJson b |}.
Proof.
  apply wsgi_app_get_index.
Qed.


(** C4: Every response carries flask_cors's origin header: its first
    [Access-Control-Allow-Origin] is the request's [Origin], or ["*"] when
    the request has none. *)
Theorem wsgi_app_acao (cfg : app_config) (req : request) :
  header_get (resp_headers (wsgi_app cfg req)) acao = Some (cors_origin (req_headers req)).
Proof.
  rewrite (proj2 (wsgi_app_status_headers cfg req)).
  rewrite header_get_app_lacks by apply dispatch_lacks_acao. apply header_get_cors.
Qed.

(** C5: No URL of the map accepts every method: on ["/"] and on every
    static path, any method other than [GET], [HEAD] and [OPTIONS] is
    refused with 405 and an [Allow] header naming the three, in the order
    the process iterates werkzeug's set of them. *)
Theorem routed_other_method (cfg : app_config) (req : request) (e : endpoint) :
  match_path (path_part (req_path req)) = Some e → string_upper (req_method req) ∉ rule_methods →
  status (wsgi_app cfg req) = 405 ∧
  header_get (resp_headers (wsgi_app cfg req)) "Allow" = Some (str_join ", " (allow_order cfg)).
Proof.
  intros Hp Hm. destruct (wsgi_app_status_headers cfg req) as [-> ->]. unfold dispatch.
  rewrite (url_match_not_allowed _ _ e) by done.
  split; [reflexivity|]. by rewrite header_get_error.
Qed.

(** C6: Routing answers 404 exactly when neither the path (its leading
    slashes reduced to one) nor its slash-merged form is a URL of the map
    and, for an empty path, the method is not one the rule ["/"] allows. *)
Theorem url_match_not_found (m p : string) :
  url_match m p = NotFound ↔
  match_path (path_part p) = None ∧ match_path (merge_slashes (path_part p)) = None ∧
  (path_part p = "" → m ∉ rule_methods).
Proof.
  unfold url_match. case_bool_decide as He.
  - rewrite He. case_bool_decide; naive_solver.
  - unfold match_once.
    destruct (match_path (path_part p)), (match_path (merge_slashes (path_part p))); try case_bool_decide;
      split; try done; try naive_solver.
Qed.


(** C8: The automatic [OPTIONS] answer: on a URL of the map, [OPTIONS] gets
    200, an empty body and an [Allow] header naming [GET], [HEAD] and
    [OPTIONS], in the process's set order. *)
Theorem options_routed (cfg : app_config) (req : request) (e : endpoint) :
  match_path (path_part (req_path req)) = Some e → string_upper (req_method req) = "OPTIONS" →
  status (wsgi_app cfg req) = 200 ∧ resp_body (wsgi_app cfg req) = BEmpty ∧
  header_get (resp_headers (wsgi_app cfg req)) "Allow" = Some (str_join ", " (allow_order cfg)).
Proof.
  intros Hp Hm. rewrite wsgi_app_unfold, Hm. unfold dispatch.
  rewrite (url_match_allowed _ _ e) by (done || by vm_compute; right; right; left).
  unfold finish_head. case_bool_decide; repeat split; reflexivity.
Qed.

(** C9: A request whose raw method is [HEAD] is answered like the [GET]
    request on the same path, with the body left out. *)
Theorem head_is_get_without_body (cfg : app_config) (req : request) :
  req_method req = "HEAD" →
  wsgi_app cfg req =
    let r := wsgi_app cfg {| req_method := "GET"; req_path := req_path req; req_query := req_query req;
                             req_host := req_host req; req_headers := req_headers req |} in
    {| status := status r; resp_headers := resp_headers r; resp_body := BEmpty |}.
Proof.
  intros Hm. rewrite !wsgi_app_unfold, Hm. cbn [req_method req_path req_headers].
  replace (string_upper "GET") with "GET" by reflexivity.
  replace (string_upper "HEAD") with "HEAD" by reflexivity.
  assert (Hd : dispatch cfg req "HEAD" = dispatch cfg {| req_method := "GET"; req_path := req_path req;
                 req_query := req_query req; req_host := req_host req; req_headers := req_headers req |} "GET").
  { unfold dispatch, url_match, match_once, redirect_url. cbn [req_path req_query req_host].
    destruct (bool_decide (path_part (req_path req) = "")); [reflexivity|].
    destruct (match_path (path_part (req_path req))),
      (match_path (merge_slashes (path_part (req_path req)))); reflexivity. }
  rewrite Hd. unfold finish_head at 1. rewrite bool_decide_true by done.
  unfold finish_head, cors_after_request. rewrite bool_decide_false by done. simpl.
  by rewrite (cors_headers_not_options _ "HEAD").
Qed.

(** ** Witnesses, on the repository's deployment *)

Definition repo_cfg : app_config :=
  {| debug := true; static_lookup := no_static; allow_order := rule_methods;
     allow_order_perm := reflexivity rule_methods |}.

Lemma get_index_witness :
  let req := {| req_method := "get"; req_path := "//"; req_query := ""; req_host := "localhost:5000";
                req_headers := [("Origin", "https://qr.example")] |} in
  string_upper (req_method req) = "GET" ∧ path_part (req_path req) = "/" ∧
  ∃ b, Json.jsonify_body (debug repo_cfg) Json.index_payload = Ok b ∧
  wsgi_app repo_cfg req =
    {| status := 200;
       resp_headers := resp_headers (json_response b) ++ cors_headers (req_headers req) "GET";
       resp_body := BJson b |}.
Proof.
  split; [reflexivity|]. split; [reflexivity|]. apply get_index; reflexivity.
Defined.


Lemma routed_other_method_witness :
  let req := {| req_method := "POST"; req_path := "/static/app.js"; req_query := "";
                req_host := "localhost:5000"; req_headers := [] |} in
  match_path (path_part (req_path req)) = Some (EStatic "app.js") ∧
  (string_upper (req_method req) ∉ rule_methods) ∧
  status (wsgi_app repo_cfg req) = 405 ∧
  header_get (resp_headers (wsgi_app repo_cfg req)) "Allow" = Some (str_join ", " (allow_order repo_cfg)).
Proof.
  assert (H1 : match_path (path_part "/static/app.js") = Some (EStatic "app.js")) by reflexivity.
  assert (H2 : string_upper "POST" ∉ rule_methods) by decide_eval.
  split; [exact H1|]. split; [exact H2|]. by apply (routed_other_method _ _ (EStatic "app.js")).
Defined.


Lemma options_routed_witness :
  let req := {| req_method := "OPTIONS"; req_path := "/"; req_query := ""; req_host := "localhost:5000";
                req_headers := [] |} in
  match_path (path_part (req_path req)) = Some EIndex ∧ string_upper (req_method req) = "OPTIONS" ∧
  status (wsgi_app repo_cfg req) = 200 ∧ resp_body (wsgi_app repo_cfg req) = BEmpty ∧
  header_get (resp_headers (wsgi_app repo_cfg req)) "Allow" = Some (str_join ", " (allow_order repo_cfg)).
Proof.
  split; [reflexivity|]. split; [reflexivity|]. apply (options_routed _ _ EIndex); reflexivity.
Defined.

Lemma head_is_get_without_body_witness :
  let req := {| req_method := "HEAD"; req_path := "/"; req_query := ""; req_host := "localhost:5000";
                req_headers := [] |} in
  req_method req = "HEAD" ∧
  wsgi_app repo_cfg req =
    (let r := wsgi_app repo_cfg {| req_method := "GET"; req_path := req_path req; req_query := req_query req;
                                    req_host := req_host req; req_headers := req_headers req |} in
     {| status := status r; resp_headers := resp_headers r; resp_body := BEmpty |}).
Proof.
  split; [reflexivity|]. apply head_is_get_without_body. reflexivity.
Defined.

End Http.
