(* ===== verification/Server.v ===== *)
(** * Server: werkzeug's development server and debugger in front of the
    application

    Line 21's [app.run(host="0.0.0.0", port=port, debug=True)] calls
    werkzeug's [run_simple] with [use_debugger=True]: the application is
    wrapped in [DebuggedApplication(app, evalex=True)] and served by
    [WSGIRequestHandler], a [http.server.BaseHTTPRequestHandler].  This
    file models one request through that stack:
    - [handle_one_request] and [parse_request] of CPython's [http.server]
      (the request line: its length limit, its words, the HTTP version,
      HTTP/0.9, and the reduction of a leading [//] in the target);
    - werkzeug's [WSGIRequestHandler]: every method goes to [run_wsgi]
      ([__getattr__] answers every [do_*]), whose [make_environ] builds
      [PATH_INFO] with [urlsplit] and [unquote] and hands it on as UTF-8;
    - [DebuggedApplication.__call__]: a request whose query has
      [__debugger__=yes] goes to the debugger's commands, a request for
      [/console] to the interactive console, every other one to
      [Flask.wsgi_app] ([Http.wsgi_app]), which routes on the path werkzeug
      decodes from [PATH_INFO].
    The header lines after the request line are given already parsed
    ([http.client.parse_headers] and its 431 errors are not modelled). *)

From S2P Require Import Prelude PyInt Json Http Url.

Module Server.

Import Http Url.

(** ** [BaseHTTPRequestHandler.parse_request] *)

Inductive parse_outcome :=
  | Parsed (command path version : string)
  | Refused (code : option nat).   (** [send_error(code)], or [return False] without an answer *)

Definition crlf (c : ascii) : bool := bool_decide (byte_of c = 10 ∨ byte_of c = 13)%N.

(** [version.split('/', 1)[1].split(".")], both parts through [int()]. *)
Definition parse_version (version : string) : result (Z * Z) :=
  match strip_prefix "HTTP/" version with
  | Some base =>
      match str_split "." base with
      | [major; minor] =>
          x ← PyInt.int_of_str PyInt.default_max_str_digits major;
          y ← PyInt.int_of_str PyInt.default_max_str_digits minor;
          Ok (x, y)
      | _ => raise! (ValueError "")
      end
  | None => raise! (ValueError "")
  end.

(** [version_number >= (2, 0)] on a pair of [int]s. *)
Definition version_ge_2_0 (v : Z * Z) : bool := bool_decide (2 < v.1 ∨ (v.1 = 2 ∧ 0 ≤ v.2))%Z.

(** gh-87389: a target starting with [//] is reduced to one [/]. *)
Definition reduce_slashes (path : string) : string :=
  match strip_prefix "//" path with
  | Some _ => String "/" (lstrip_chars (is_char "/") path)
  | None => path
  end.

Definition parse_request (raw : string) : parse_outcome :=
  let requestline := rstrip_chars crlf raw in
  let words := split_ws requestline in
  let version_check :=
    if bool_decide (3 ≤ length words) then
      match parse_version (default "" (last words)) with
      | Raise _ => Some (Refused (Some 400))
      | Ok v => if version_ge_2_0 v then Some (Refused (Some 505)) else None
      end
    else None in
  match words with
  | [] => Refused None
  | _ =>
      match version_check with
      | Some r => r
      | None =>
          match words with
          | [command; path] =>
              if bool_decide (command = "GET") then Parsed command (reduce_slashes path) "HTTP/0.9"
              else Refused (Some 400)
          | [command; path; version] => Parsed command (reduce_slashes path) version
          | _ => Refused (Some 400)
          end
      end
  end.

(** ** werkzeug's [make_environ] *)

(** The part of the WSGI environ the rest of the stack reads:
    [REQUEST_METHOD], [PATH_INFO] (the bytes of its latin-1 [str], that
    is the UTF-8 encoding of the unquoted path: [_wsgi_encoding_dance]) and
    the query as the [str] werkzeug decodes [QUERY_STRING] back to. *)
Record wsgi_environ := {
  request_method : string;
  path_info : string;
  query_text : string
}.

Section server.

Variable ip_address : string → option bool.

(** [make_environ]: [urlsplit(self.path)]; when there is no scheme but a
    netloc, the netloc was the first segment of a path that started with
    [//], and is put back. *)
Definition make_environ (command target : string) : result wsgi_environ :=
  request_url ← urlsplit ip_address target;
  let p := if bool_decide (scheme request_url = "") && bool_decide (netloc request_url ≠ "")
           then String "/" (netloc request_url +:+ path request_url) else path request_url in
  Ok {| request_method := command; path_info := unquote p; query_text := query request_url |}.

(** ** [DebuggedApplication] *)

(** What the debugger answers on its own: to a [__debugger__=yes] request,
    the response of [get_resource], [pin_auth], [log_pin_request] or
    [execute_command] given the query arguments, or [None] when none of
    them applies (they depend on the debugger's secret, its frames and the
    PIN, which are not modelled); and the page [display_console] renders. *)
Record debugger := {
  dbg_command : list (string * string) → option response;
  dbg_console : response
}.

(** werkzeug's [Request]: [path] is ["/"] and the decoded [PATH_INFO]
    without its leading slashes; [args] is [parse_qsl] of the query with
    [keep_blank_values=True] and the handler ["werkzeug.url_quote"]. *)
Definition request_path (env : wsgi_environ) : string :=
  String "/" (lstrip_chars (is_char "/") (recode replace_handler (path_info env))).

Definition request_args (env : wsgi_environ) : list (string * string) :=
  parse_qsl url_quote_handler (query_text env).

(** The values of the [Host] headers: [make_environ] turns each header
    [k] into [HTTP_<K>], upper-cased with [-] as [_], and joins repeated
    ones with commas. *)
Definition host_values (hdrs : list (string * string)) : list string :=
  omap (λ h, if bool_decide (string_upper h.1 = "HOST") then Some h.2 else None) hdrs.

(** [host[:-3]] when [host.endswith(":80")]. *)
Definition strip_port_80 (h : string) : string :=
  let n := String.length h in
  if bool_decide (3 ≤ n) && bool_decide (String.substring (n - 3) 3 h = ":80")
  then String.substring 0 (n - 3) h else h.

(** werkzeug's [get_host] on that environ: [HTTP_HOST], else
    [SERVER_NAME:SERVER_PORT], the bound address; the [:80] of [http]
    removed; lower-cased by [Map.bind_to_environ]. *)
Definition wsgi_host (addr : string * Z) (hdrs : list (string * string)) : string :=
  let h := match host_values hdrs with
           | [] => addr.1 +:+ ":" +:+ PyInt.py_str addr.2
           | vs => str_join "," vs
           end in
  string_lower (strip_port_80 h).

(** The request Flask routes: the method, and the path and the query
    string werkzeug decodes from [PATH_INFO] and [QUERY_STRING]
    ([Map.bind_to_environ]), on the server bound to [addr]. *)
Definition flask_request (addr : string * Z) (env : wsgi_environ) (hdrs : list (string * string)) : request :=
  {| req_method := request_method env; req_path := recode replace_handler (path_info env);
     req_query := recode replace_handler (query_text env); req_host := wsgi_host addr hdrs;
     req_headers := hdrs |}.

Definition console_path : string := "/console".

(** [DebuggedApplication.__call__] with [evalex=True]. *)
Definition debugged_app (dbg : debugger) (cfg : app_config) (addr : string * Z) (env : wsgi_environ)
    (hdrs : list (string * string)) : response :=
  if bool_decide (dict_get "__debugger__" (request_args env) = Some "yes") then
    match dbg_command dbg (request_args env) with
    | Some r => r
    | None => wsgi_app cfg (flask_request addr env hdrs)
    end
  else if bool_decide (request_path env = console_path) then dbg_console dbg
  else wsgi_app cfg (flask_request addr env hdrs).

(** ** One request *)

(** What the client gets: nothing (the connection is closed), an error
    page of [send_error], or the application's response. *)
Inductive reply :=
  | NoReply
  | ErrorReply (code : nat)
  | AppReply (r : response).

(** The server line 21 starts: the address its socket is bound to
    ([server_address] after [server_bind]), the application's
    configuration and, with [debug=True], the debugger. *)
Record server := {
  srv_addr : string * Z;
  srv_app : app_config;
  srv_debugger : option debugger
}.

Definition serve_app (srv : server) (env : wsgi_environ) (hdrs : list (string * string)) : response :=
  match srv_debugger srv with
  | Some dbg => debugged_app dbg (srv_app srv) (srv_addr srv) env hdrs
  | None => wsgi_app (srv_app srv) (flask_request (srv_addr srv) env hdrs)
  end.

(** [handle_one_request] on the line [rfile.readline(65537)] returned.
    An exception of [make_environ] ([urlsplit]'s [ValueError]) is raised
    outside [run_wsgi]'s [try] and closes the connection. *)
Definition handle_one_request (srv : server) (raw : string) (hdrs : list (string * string)) : reply :=
  if bool_decide (65536 < String.length raw) then ErrorReply 414
  else if bool_decide (raw = "") then NoReply
  else match parse_request raw with
       | Refused (Some code) => ErrorReply code
       | Refused None => NoReply
       | Parsed command target _ =>
           match make_environ command target with
           | Ok env => AppReply (serve_app srv env hdrs)
           | Raise _ => NoReply
           end
       end.

End server.

(** A path of slashes, each written [/] ([true]) or escaped [%2F]
    ([false]), as a client may send it. *)
Fixpoint slash_path (toks : list bool) : string :=
  match toks with
  | [] => ""
  | true :: t => String "/" (slash_path t)
  | false :: t => String "%" (String "2" (String "F" (slash_path t)))
  end.

(** The end of a request line, [\r\n]. *)
Definition line_end : string := String (ascii_of_nat 13) (String nl_char "").

(** The tokens after the leading [/]s. *)
Fixpoint drop_trues (toks : list bool) : list bool :=
  match toks with
  | true :: t => drop_trues t
  | _ => toks
  end.

(** ** The request line *)

Lemma rstrip_line_end w' d : crlf d = false → rstrip_chars crlf ((w' +:+ String d "") +:+ line_end) = w' +:+ String d "".
Proof. intros Hd. rewrite <-string_app_assoc. by apply rstrip_chars_app. Qed.

Lemma http_1x_ok v :
  v = "HTTP/1.0" ∨ v = "HTTP/1.1" →
  (∃ w' d, v = w' +:+ String d "" ∧ crlf d = false) ∧ v ≠ "" ∧ no_space v = true ∧
  ∃ x, parse_version v = Ok x ∧ version_ge_2_0 x = false.
Proof. intros [-> | ->]; (split; [eexists "HTTP/1.", _; split; reflexivity|]); split_and!; try done; eexists; done. Qed.

(** A request line of three words whose version is HTTP/1.0 or HTTP/1.1
    is parsed into its method and target, a leading [//] reduced. *)
Lemma parse_request_words m t v :
  m ≠ "" → no_space m = true → t ≠ "" → no_space t = true → v = "HTTP/1.0" ∨ v = "HTTP/1.1" →
  parse_request (str_join " " [m; t; v] +:+ line_end) = Parsed m (reduce_slashes t) v.
Proof.
  intros Hm Hms Ht Hts Hv. destruct (http_1x_ok v Hv) as [(w' & d & Hw & Hd) (Hvn & Hvs & x & Hx & Hge)].
  unfold parse_request.
  assert (Hr : rstrip_chars crlf (str_join " " [m; t; v] +:+ line_end) = str_join " " [m; t; v]).
  { cbn [str_join]. rewrite Hw, !string_app_assoc, rstrip_line_end by done. done. }
  rewrite Hr, split_ws_join; [|done|repeat constructor; done].
  change (default "" (last [m; t; v])) with v. rewrite bool_decide_true by (cbn; lia). rewrite Hx, Hge. done.
Qed.

(** ** Slash paths *)

Lemma slash_path_no_space toks : no_space (slash_path toks) = true.
Proof. induction toks as [|[] t IH]; [done| |]; cbn; exact IH. Qed.

Lemma slash_path_chars toks : all_chars path_char (slash_path toks) = true.
Proof. induction toks as [|[] t IH]; [done| |]; cbn; exact IH. Qed.

Lemma slash_path_ascii toks : all_chars is_ascii_byte (slash_path toks) = true.
Proof. induction toks as [|[] t IH]; [done| |]; cbn; exact IH. Qed.

Lemma lstrip_slash_path toks q :
  lstrip_chars (is_char "/") (slash_path toks +:+ query_part q) = slash_path (drop_trues toks) +:+ query_part q.
Proof.
  induction toks as [|[] t IH]; [by destruct q| |done].
  cbn [slash_path drop_trues]. rewrite string_app_cons. cbn [lstrip_chars]. by rewrite IH.
Qed.

Lemma drop_trues_head toks : head (drop_trues toks) ≠ Some true.
Proof. induction toks as [|[] t IH]; done. Qed.

Lemma no_dslash toks q :
  head toks = Some false ∨ (head toks = Some true ∧ head (tail toks) ≠ Some true) →
  strip_prefix "//" (slash_path toks +:+ query_part q) = None.
Proof.
  intros [H|[H1 H2]]; destruct toks as [|[] t]; try done.
  destruct t as [|[] t']; try done. by destruct q.
Qed.

(** The reduction of a leading [//] keeps a slash path a slash path, and
    leaves no [//] in front. *)
Lemma reduce_slash_path toks q :
  toks ≠ [] → ∃ toks', toks' ≠ [] ∧
    reduce_slashes (slash_path toks +:+ query_part q) = slash_path toks' +:+ query_part q ∧
    strip_prefix "//" (slash_path toks' +:+ query_part q) = None.
Proof.
  intros Hne. unfold reduce_slashes.
  destruct toks as [|[] rest]; [done| |].
  2: { exists (false :: rest). rewrite (no_dslash (false :: rest)) by (left; done). done. }
  destruct rest as [|[] t].
  - exists [true]. rewrite (no_dslash [true] q) by (right; done). done.
  - exists (true :: drop_trues t). split; [done|]. split.
    + cbn [slash_path]. rewrite !string_app_cons. cbn [strip_prefix].
      rewrite !bool_decide_true by done. f_equal. rewrite <-!string_app_cons.
      apply (lstrip_slash_path (true :: true :: t)).
    + apply no_dslash. right. split; [done|]. apply drop_trues_head.
  - exists (true :: false :: t). rewrite (no_dslash (true :: false :: t)) by (right; done). done.
Qed.

Lemma urlsplit_slash_path ip_address toks q :
  toks ≠ [] → strip_prefix "//" (slash_path toks +:+ query_part q) = None →
  all_chars query_char (default "" q) = true →
  urlsplit ip_address (slash_path toks +:+ query_part q)
  = Ok {| scheme := ""; netloc := ""; path := slash_path toks; query := default "" q; fragment := "" |}.
Proof.
  intros Hne Hs Hq. pose proof (slash_path_chars toks) as Hp.
  destruct toks as [|[] t]; [done| |]; cbn [slash_path] in *; by apply urlsplit_path.
Qed.

Lemma pct_decode_slash_path toks : pct_decode (slash_path toks) = slash_path (map (λ _ : bool, true) toks).
Proof.
  unfold pct_decode. induction toks as [|b t IH]; [done|].
  transitivity (String "/" (pct_decode_go Plain (slash_path t))); [by destruct b|]. by rewrite IH.
Qed.

Lemma slash_path_no_pct toks : has_char "%" (slash_path toks) = false → map (λ _ : bool, true) toks = toks.
Proof. induction toks as [|[] t IH]; cbn; [done| |done]. intros H. by rewrite IH. Qed.

(** [unquote] reads a slash path as plain slashes. *)
Lemma unquote_slash_path toks : unquote (slash_path toks) = slash_path (map (λ _ : bool, true) toks).
Proof.
  unfold unquote. rewrite unquote_with_ascii by apply slash_path_ascii.
  destruct (has_char "%" _) eqn:Hp.
  - rewrite pct_decode_slash_path. apply recode_valid_id, ascii_valid, slash_path_ascii.
  - by rewrite slash_path_no_pct.
Qed.

Lemma lstrip_all_slashes toks : lstrip_chars (is_char "/") (slash_path (map (λ _ : bool, true) toks)) = "".
Proof. induction toks as [|b t IH]; [done|]. exact IH. Qed.

Lemma path_part_slashes toks : toks ≠ [] → path_part (slash_path (map (λ _ : bool, true) toks)) = "/".
Proof.
  intros Hne. unfold path_part. destruct toks as [|b t]; [done|].
  rewrite bool_decide_false by done. f_equal. apply (lstrip_all_slashes (b :: t)).
Qed.

(** ** What reaches the application *)

Lemma make_environ_ok ip_address command target env :
  make_environ ip_address command target = Ok env →
  ∃ p, path_info env = unquote p ∧ request_method env = command.
Proof.
  unfold make_environ. intros (u & _ & Henv)%bind_eq_Ok. injection Henv as <-. by eexists.
Qed.

(** werkzeug's decoding of [PATH_INFO] gives back the path [make_environ]
    encoded. *)
Lemma flask_request_path ip_address command target env addr hdrs :
  make_environ ip_address command target = Ok env → req_path (flask_request addr env hdrs) = path_info env.
Proof.
  intros (p & Hp & _)%make_environ_ok. cbn [flask_request req_path]. rewrite Hp.
  apply recode_valid_id, unquote_with_valid, replace_handler_valid.
Qed.

(** The debugger passes a request on to Flask when its query does not ask
    for the debugger and its path is not the console's. *)
Lemma serve_app_flask srv env hdrs :
  dict_get "__debugger__" (request_args env) ≠ Some "yes" → request_path env ≠ console_path →
  serve_app srv env hdrs = wsgi_app (srv_app srv) (flask_request (srv_addr srv) env hdrs).
Proof.
  intros Hd Hc. unfold serve_app. destruct (srv_debugger srv) as [dbg|]; [|done].
  unfold debugged_app. by rewrite !bool_decide_false.
Qed.


Lemma slash_target_ok toks q :
  toks ≠ [] → no_space (default "" q) = true →
  slash_path toks +:+ query_part q ≠ "" ∧ no_space (slash_path toks +:+ query_part q) = true.
Proof.
  intros Hne Hq. split; [by destruct toks as [|[] t]|].
  unfold no_space. rewrite all_chars_app. fold (no_space (slash_path toks)). rewrite slash_path_no_space.
  destruct q as [q|]; [|done]. cbn [query_part all_chars default] in *. exact Hq.
Qed.

Lemma request_path_slashes toks q :
  request_path {| request_method := "GET"; path_info := slash_path (map (λ _ : bool, true) toks);
                  query_text := q |} = "/".
Proof.
  unfold request_path. cbn [path_info]. rewrite recode_valid_id by apply ascii_valid, slash_path_ascii.
  by rewrite lstrip_all_slashes.
Qed.

(** With the debugger on, a request for [/console], whatever its method,
    is answered by the interactive console, never by Flask. *)
Lemma debugger_console_reached ip_address srv dbg m hdrs :
  srv_debugger srv = Some dbg → m ≠ "" → no_space m = true →
  String.length (str_join " " [m; "/console"; "HTTP/1.1"] +:+ line_end) ≤ 65536 →
  handle_one_request ip_address srv (str_join " " [m; "/console"; "HTTP/1.1"] +:+ line_end) hdrs
  = AppReply (dbg_console dbg).
Proof.
  intros Hd Hm Hms Hlen. unfold handle_one_request. rewrite bool_decide_false by lia.
  rewrite bool_decide_false by (destruct m; cbn [str_join]; [done|discriminate]).
  rewrite parse_request_words by (done || by right). unfold serve_app. rewrite Hd. reflexivity.
Qed.

(** A request line [GET <slashes>[?query] HTTP/1.x] reaches Flask's
    index. *)
Lemma handle_slashes_index (ip_address : string → option bool) (srv : server) (toks : list bool)
    (q : option string) (v : string) (hdrs : list (string * string)) :
  toks ≠ [] → v = "HTTP/1.0" ∨ v = "HTTP/1.1" →
  all_chars query_char (default "" q) = true → no_space (default "" q) = true →
  dict_get "__debugger__" (parse_qsl url_quote_handler (default "" q)) ≠ Some "yes" →
  String.length (str_join " " ["GET"; slash_path toks +:+ query_part q; v] +:+ line_end) ≤ 65536 →
  ∃ b, Json.jsonify_body (debug (srv_app srv)) Json.index_payload = Ok b ∧
  handle_one_request ip_address srv (str_join " " ["GET"; slash_path toks +:+ query_part q; v] +:+ line_end) hdrs
  = AppReply {| status := 200;
                resp_headers := resp_headers (json_response b) ++ cors_headers hdrs "GET";
                resp_body := BJson b |}.
Proof.
  intros Hne Hv Hq Hqs Hdbg Hlen. destruct (slash_target_ok toks q Hne Hqs) as [Ht Hts].
  unfold handle_one_request. rewrite bool_decide_false by lia.
  rewrite bool_decide_false by (cbn [str_join]; discriminate).
  rewrite parse_request_words by done.
  destruct (reduce_slash_path toks q Hne) as (toks' & Hne' & -> & Hsp).
  unfold make_environ. rewrite urlsplit_slash_path, bind_Ok by done.
  cbn [scheme netloc path query]. rewrite andb_false_r, unquote_slash_path.
  rewrite serve_app_flask; [|exact Hdbg|rewrite request_path_slashes; discriminate].
  destruct (wsgi_app_get_index (srv_app srv)
              (flask_request (srv_addr srv)
                 {| request_method := "GET"; path_info := slash_path (map (λ _ : bool, true) toks');
                    query_text := default "" q |} hdrs)) as (b & Hb & Hw).
  { reflexivity. }
  { cbn [flask_request req_path path_info]. rewrite recode_valid_id by apply ascii_valid, slash_path_ascii.
    apply path_part_slashes. by destruct toks'. }
  exists b. split; [done|]. by rewrite Hw.
Qed.

(** ** Properties *)

(** C39: Whatever the request target, the [PATH_INFO] werkzeug's server
    builds is well-formed UTF-8 (invalid percent-escapes become U+FFFD),
    so the path werkzeug decodes from it for Flask's routing is exactly
    that text: no byte of the unquoted path is lost or altered on the way
    to the application. *)
Theorem path_info_utf8 (ip_address : string → option bool) (command target : string)
    (env : wsgi_environ) (addr : string * Z) (hdrs : list (string * string)) :
  make_environ ip_address command target = Ok env →
  utf8_valid (path_info env) = true ∧ req_path (flask_request addr env hdrs) = path_info env.
Proof.
  intros Henv. split; [|by apply (flask_request_path ip_address command target)].
  destruct (make_environ_ok _ _ _ _ Henv) as (p & -> & _).
  apply unquote_with_valid, replace_handler_valid.
Qed.


(** ** Witnesses *)

Lemma path_info_utf8_witness :
  ∃ env, make_environ (λ _, None) "GET" "/caf%C3%A9/%FF%2" = Ok env ∧
    utf8_valid (path_info env) = true ∧ req_path (flask_request ("0.0.0.0", 5000%Z) env []) = path_info env.
Proof.
  destruct (make_environ (λ _, None) "GET" "/caf%C3%A9/%FF%2") as [env|e] eqn:H; [|vm_compute in H; discriminate].
  exists env. split; [done|].
  exact (path_info_utf8 (λ _, None) "GET" "/caf%C3%A9/%FF%2" env ("0.0.0.0", 5000%Z) [] H).
Defined.

(** The server of line 21: Flask in debug mode behind the debugger, here
    one that runs no command. *)
Definition sample_debugger : debugger := {| dbg_command := λ _, None; dbg_console := error_response 200 [] |}.
Definition debug_srv : server :=
  {| srv_addr := ("0.0.0.0", 5000%Z); srv_app := repo_cfg; srv_debugger := Some sample_debugger |}.


End Server.
