(* ===== verification/DotenvParser.v ===== *)
(** * DotenvParser: the [.env] grammar of python-dotenv

    [load_dotenv()] (line 8 of [src/backend/app.py]) reads the [.env] file
    through [DotEnv.parse] and [dotenv.parser.parse_stream]: a [Reader]
    over the whole text, and a loop that reads one binding per iteration
    with [parse_binding] until nothing is left.  This file models the
    [Reader] as a state-and-error monad over the text not yet read
    ([reader]: a [read_regex] that does not match raises [Error] where the
    reader stands), each regular expression of [parser.py] as a reader,
    the functions [parse_key], [parse_value], [parse_unquoted_value],
    [decode_escapes] and [parse_binding], the loop [parse_stream]
    (well-founded recursion on the length of the unread text, with
    Equations), and [DotEnv.parse], which keeps the bindings with a key.
    The regular expressions are read with the semantics of [re.match]:
    greedy repetition with backtracking, alternatives in their order.
    The warning [with_warn_for_invalid_lines] logs for a binding with
    [error=True] is not modelled; the [error] flag is. *)

From S2P Require Import Prelude.
From Equations Require Import Equations.

Module DotenvParser.

(** ** The reader *)

(** The outcome of a read: [Error] raised with the reader standing before
    [at_], or a value and the text left to read. *)
Inductive read_result (A : Type) :=
  | Fail (at_ : string)
  | Read (a : A) (rest : string).
Arguments Fail {A} at_.
Arguments Read {A} a rest.

(** A read from the current position of the [Reader]. *)
Definition reader (A : Type) : Type := string → read_result A.

#[export] Instance reader_ret : MRet reader := λ A a s, Read a s.
#[export] Instance reader_bind : MBind reader :=
  λ A B f m s, match m s with Fail p => Fail p | Read a r => f a r end.

(** [Reader.peek(1)]: the next character, [None] at the end. *)
Definition peek : reader (option ascii) :=
  λ s, Read (match s with String c _ => Some c | EmptyString => None end) s.

(** A regular expression that always matches, read for its effect. *)
Definition skip (f : string → string) : reader unit := λ s, Read () (f s).

(** ** The regular expressions of [parser.py] *)

(** [\r] or [\n] *)
Definition is_newline (c : ascii) : bool := bool_decide (c = "010"%char ∨ c = "013"%char).

(** [[^\S\r\n]]: a blank that does not end a line. *)
Definition is_hblank (c : ascii) : bool := str_isspace c && negb (is_newline c).

(** [_multiline_whitespace = \s*] *)
Definition multiline_whitespace (s : string) : string := (span str_isspace s).2.

(** [_whitespace = [^\S\r\n]*] *)
Definition whitespace (s : string) : string := (span is_hblank s).2.

(** [_export = (?:export[^\S\r\n]+)?] *)
Definition export_prefix (s : string) : string :=
  match strip_prefix "export" s with
  | Some (String c r) => if is_hblank c then whitespace r else s
  | _ => s
  end.

(** [_comment], the optional group of [[^\S\r\n]*#[^\r\n]*]: blanks, a
    [#] and the rest of the line. *)
Definition comment (s : string) : string :=
  match whitespace s with
  | String c r => if bool_decide (c = "#"%char) then (span (negb ∘ is_newline) r).2 else s
  | EmptyString => s
  end.

(** [_end_of_line = [^\S\r\n]*(?:\r\n|\n|\r|$)] *)
Definition end_of_line : reader unit := λ s,
  match whitespace s with
  | EmptyString => Read () EmptyString
  | String c r =>
      if bool_decide (c = "013"%char) then
        match r with
        | String d r' => if bool_decide (d = "010"%char) then Read () r' else Read () r
        | EmptyString => Read () r
        end
      else if bool_decide (c = "010"%char) then Read () r
      else Fail s
  end.

(** [_rest_of_line = [^\r\n]*(?:\r|\n|\r\n)?]: the alternatives in this
    order, so of a CR LF only the CR is read here. *)
Definition rest_of_line (s : string) : string :=
  match (span (negb ∘ is_newline) s).2 with
  | String _ r => r
  | EmptyString => EmptyString
  end.

(** [_equal_sign]: [=] and the blanks after it. *)
Definition equal_sign : reader unit := λ s,
  match s with
  | String c r => if bool_decide (c = "="%char) then Read () (whitespace r) else Fail s
  | EmptyString => Fail s
  end.

(** [_unquoted_key = ([^=\#\s]+)] *)
Definition key_char (c : ascii) : bool :=
  negb (bool_decide (c = "="%char ∨ c = "#"%char)) && negb (str_isspace c).

Definition squote : ascii := "'"%char.

(** The quoted values [_single_quoted_value] and [_double_quoted_value]
    are a quote [q], a group repeating the alternatives [\\q] and
    [[^q]], and [q].  [quoted_body q] reads them after the opening quote,
    and returns the body and the rest.  The repetition prefers the escape
    [\q] to a single character; when no closing quote follows, [re]
    backtracks to the last [\q] read as an escape and reads its quote as
    the closing one. *)
Fixpoint quoted_body (q : ascii) (s : string) : option (string * string) :=
  match s with
  | EmptyString => None
  | String c s' =>
      if bool_decide (c = q) then Some (EmptyString, s')
      else if bool_decide (c = bs_char) then
        match s' with
        | String c2 s'' =>
            if bool_decide (c2 = q) then
              match quoted_body q s'' with
              | Some (v, r) => Some (String c (String c2 v), r)
              | None => Some (String c EmptyString, s'')
              end
            else (λ vr, (String c vr.1, vr.2)) <$> quoted_body q s'
        | EmptyString => None
        end
      else (λ vr, (String c vr.1, vr.2)) <$> quoted_body q s'
  end.

Definition read_quoted (q : ascii) : reader string := λ s,
  match s with
  | String c r =>
      if bool_decide (c = q) then
        match quoted_body q r with Some (v, r') => Read v r' | None => Fail s end
      else Fail s
  | EmptyString => Fail s
  end.

(** ** [parse_key] and [parse_value] *)

(** [parse_key]: [None] on a comment; a quoted key [('[^']+')]; or
    [_unquoted_key]. *)
Definition parse_key : reader (option string) := λ s,
  match s with
  | String c r =>
      if bool_decide (c = "#"%char) then Read None s
      else if bool_decide (c = squote) then
        match span (λ d, negb (bool_decide (d = squote))) r with
        | (String k0 k, String _ r') => Read (Some (String k0 k)) r'
        | _ => Fail s
        end
      else
        match span key_char s with
        | (EmptyString, _) => Fail s
        | (k, r') => Read (Some k) r'
        end
  | EmptyString => Fail s
  end.

(** [decode_escapes(regex, value)]: [regex.sub] of the escapes [\x] the
    regex accepts by [codecs.decode(_, "unicode-escape")], left to right. *)
Fixpoint decode_escapes (esc : ascii → option ascii) (s : string) : string :=
  match s with
  | EmptyString => EmptyString
  | String c s' =>
      if bool_decide (c = bs_char) then
        match s' with
        | String d s'' =>
            match esc d with
            | Some e => String e (decode_escapes esc s'')
            | None => String c (decode_escapes esc s')
            end
        | EmptyString => s
        end
      else String c (decode_escapes esc s')
  end.

(** [_single_quote_escapes = \\[\\']] *)
Definition single_quote_escape (c : ascii) : option ascii :=
  if bool_decide (c = bs_char ∨ c = squote) then Some c else None.

(** [_double_quote_escapes]: a backslash and one of the backslash, the
    two quotes and [abfnrtv]. *)
Definition double_quote_escape (c : ascii) : option ascii :=
  if bool_decide (c = bs_char ∨ c = squote ∨ c = dq_char) then Some c
  else match c with
       | "a"%char => Some "007"%char
       | "b"%char => Some "008"%char
       | "f"%char => Some "012"%char
       | "n"%char => Some "010"%char
       | "r"%char => Some "013"%char
       | "t"%char => Some "009"%char
       | "v"%char => Some "011"%char
       | _ => None
       end.

Definition starts_with_hash (s : string) : bool :=
  match s with String c _ => bool_decide (c = "#"%char) | EmptyString => false end.

(** [re.sub(r"\s+#.*", "", part)]: cut at the first run of blanks that a
    [#] follows. *)
Fixpoint strip_inline_comment (s : string) : string :=
  match s with
  | EmptyString => EmptyString
  | String c s' =>
      if str_isspace c && starts_with_hash (span str_isspace s').2 then EmptyString
      else String c (strip_inline_comment s')
  end.

(** [parse_unquoted_value]: the rest of the line, [_unquoted_value], less
    an inline comment and trailing blanks. *)
Definition parse_unquoted_value : reader string := λ s,
  let (part, r) := span (negb ∘ is_newline) s in
  Read (rstrip (strip_inline_comment part)) r.

(** [parse_value] *)
Definition parse_value : reader string :=
  c ← peek;
  match c with
  | Some c =>
      if bool_decide (c = squote) then
        v ← read_quoted squote; mret (decode_escapes single_quote_escape v)
      else if bool_decide (c = dq_char) then
        v ← read_quoted dq_char; mret (decode_escapes double_quote_escape v)
      else if is_newline c then mret ""
      else parse_unquoted_value
  | None => mret ""
  end.

(** ** [parse_binding] and [parse_stream] *)

(** [Binding(key, value, original, error)], without [original]. *)
Record binding := { b_key : option string; b_value : option string; b_error : bool }.

(** The body of the [try] of [parse_binding], after the blanks: an
    optional [export], the key, an optional [=] and value, a comment and
    the end of the line. *)
Definition binding_body : reader (option string * option string) :=
  skip export_prefix;;
  key ← parse_key;
  skip whitespace;;
  c ← peek;
  value ← (if bool_decide (c = Some "="%char)
           then equal_sign;; v ← parse_value; mret (Some v)
           else mret None);
  skip comment;;
  end_of_line;;
  mret (key, value).

(** [parse_binding]: blanks; nothing else left gives an empty binding;
    an [Error] skips the rest of the line from where it was raised and
    gives an error binding. *)
Definition parse_binding (s : string) : binding * string :=
  match multiline_whitespace s with
  | EmptyString => ({| b_key := None; b_value := None; b_error := false |}, EmptyString)
  | s1 =>
      match binding_body s1 with
      | Read (k, v) r => ({| b_key := k; b_value := v; b_error := false |}, r)
      | Fail p => ({| b_key := None; b_value := None; b_error := true |}, rest_of_line p)
      end
  end.

(** ** Every read moves forward *)

Local Abbreviation len := String.length.

(** A reader never moves back: what is left after it, or where it raised,
    is no longer than what it started from. *)
Definition shrinks {A} (m : reader A) : Prop :=
  ∀ s, match m s with Read _ r => len r ≤ len s | Fail p => len p ≤ len s end.

Lemma bind_shrinks {A B} (m : reader A) (f : A → reader B) :
  shrinks m → (∀ a, shrinks (f a)) → shrinks (m ≫= f).
Proof.
  intros Hm Hf s. specialize (Hm s). unfold mbind, reader_bind.
  destruct (m s) as [p|a r]; [done|]. specialize (Hf a r). destruct (f a r); lia.
Qed.

Lemma ret_shrinks {A} (a : A) : shrinks (mret a).
Proof. intros s. cbn. lia. Qed.

Lemma skip_shrinks f : (∀ s, len (f s) ≤ len s) → shrinks (skip f).
Proof. intros Hf s. apply Hf. Qed.

Lemma peek_shrinks : shrinks peek.
Proof. intros s. cbn. lia. Qed.

Lemma whitespace_le s : len (whitespace s) ≤ len s.
Proof. apply span_length. Qed.

Lemma export_prefix_le s : len (export_prefix s) ≤ len s.
Proof.
  unfold export_prefix. destruct (strip_prefix "export" s) as [[|c r]|] eqn:E; [lia| |lia].
  apply strip_prefix_Some in E as ->. destruct (is_hblank c); [|lia].
  rewrite string_length_app. pose proof (whitespace_le r). simpl. lia.
Qed.

Lemma line_rest_lt c r : len (span (negb ∘ is_newline) r).2 < len (String c r).
Proof. pose proof (span_length (negb ∘ is_newline) r). simpl. lia. Qed.

Lemma comment_le s : len (comment s) ≤ len s.
Proof.
  unfold comment. pose proof (whitespace_le s).
  destruct (whitespace s) as [|c r] eqn:E; [lia|]. case_bool_decide; [|lia].
  pose proof (line_rest_lt c r). lia.
Qed.

(** A comment that starts the text is read. *)
Lemma comment_hash r : len (comment (String "#"%char r)) < len (String "#"%char r).
Proof.
  unfold comment. replace (whitespace _) with (String "#"%char r) by reflexivity.
  rewrite bool_decide_true by done. apply line_rest_lt.
Qed.

Lemma end_of_line_shrinks : shrinks end_of_line.
Proof.
  intros s. unfold end_of_line. pose proof (whitespace_le s).
  destruct (whitespace s) as [|c r] eqn:E; simpl; [lia|].
  repeat case_bool_decide; try destruct r as [|d r']; repeat case_bool_decide; simpl in *; lia.
Qed.

Lemma equal_sign_shrinks : shrinks equal_sign.
Proof. intros [|c r]; simpl; [lia|]. pose proof (whitespace_le r). case_bool_decide; simpl; lia. Qed.

Lemma quoted_body_lt q s : ∀ v r, quoted_body q s = Some (v, r) → len r < len s.
Proof.
  induction s as [[|c s] IH] using (well_founded_induction (Wf_nat.well_founded_ltof _ len));
    intros v r; simpl; [done|].
  assert (IH1 : ∀ t, len t ≤ len s → ∀ v r, quoted_body q t = Some (v, r) → len r < len t).
  { intros t Ht. apply IH. unfold Wf_nat.ltof. simpl. lia. }
  case_bool_decide; [intros [= _ <-]; lia|].
  case_bool_decide; [destruct s as [|c2 s']; [done|]; case_bool_decide|].
  - destruct (quoted_body q s') as [[v' r']|] eqn:E.
    + intros [= _ <-]. apply IH1 in E; simpl in *; lia.
    + intros [= _ <-]. simpl. lia.
  - destruct (quoted_body q (String c2 s')) as [[v' r']|] eqn:E; [|done].
    intros [= _ <-]. apply IH1 in E; [simpl in *; lia|lia].
  - destruct (quoted_body q s) as [[v' r']|] eqn:E; [|done].
    intros [= _ <-]. apply IH1 in E; [lia|lia].
Qed.

Lemma read_quoted_shrinks q : shrinks (read_quoted q).
Proof.
  intros [|c r]; unfold read_quoted; simpl; [lia|]. case_bool_decide; [|simpl; lia].
  destruct (quoted_body q r) as [[v r']|] eqn:E; [apply quoted_body_lt in E|]; simpl; lia.
Qed.

Lemma parse_unquoted_value_shrinks : shrinks parse_unquoted_value.
Proof.
  intros s. unfold parse_unquoted_value. pose proof (span_length (negb ∘ is_newline) s).
  destruct (span _ s) as [part r]. simpl in *. lia.
Qed.

Create HintDb shrinks discriminated.
#[export] Hint Resolve ret_shrinks peek_shrinks end_of_line_shrinks equal_sign_shrinks
  read_quoted_shrinks parse_unquoted_value_shrinks : shrinks.
#[export] Hint Extern 1 (shrinks (skip _)) =>
  apply skip_shrinks; intros; apply whitespace_le || apply export_prefix_le || apply comment_le : shrinks.

(** Composite readers shrink when their parts do. *)
Ltac solve_shrinks :=
  repeat match goal with
  | |- shrinks (_ ≫= _) => apply bind_shrinks; [|intros ?]
  | |- shrinks (if ?b then _ else _) => destruct b
  | |- shrinks (match ?x with _ => _ end) => destruct x
  | |- _ => solve [eauto with shrinks]
  end.

Lemma parse_value_shrinks : shrinks parse_value.
Proof. unfold parse_value. solve_shrinks. Qed.

#[export] Hint Resolve parse_value_shrinks : shrinks.

Lemma span_nonempty_lt p s w r : span p s = (w, r) → w ≠ EmptyString → len r < len s.
Proof.
  intros E Hw. pose proof (span_app p s) as A. rewrite E in A. simpl in A. rewrite <-A.
  rewrite string_length_app. destruct w; [done|]. simpl. lia.
Qed.

Lemma parse_key_fail s p : parse_key s = Fail p → p = s.
Proof.
  destruct s as [|c t]; simpl; [by intros [= <-]|].
  repeat case_bool_decide; try discriminate; repeat case_match; congruence.
Qed.

(** [parse_key] reads the key, or stops before a comment. *)
Lemma parse_key_read s k r :
  parse_key s = Read k r → len r < len s ∨ (r = s ∧ k = None ∧ ∃ t, s = String "#"%char t).
Proof.
  destruct s as [|c t]; intros Hr; unfold parse_key in Hr; lazy beta iota in Hr; [discriminate|].
  case_bool_decide as Hh; [injection Hr as <- <-; right; subst; eauto|left].
  case_bool_decide.
  - pose proof (span_length (λ d, negb (bool_decide (d = squote))) t) as L.
    destruct (span _ t) as [w r'] eqn:E. simpl in L.
    destruct w as [|? w], r' as [|? r']; try discriminate Hr.
    injection Hr as _ <-. simpl in *. lia.
  - destruct (span key_char (String c t)) as [w r'] eqn:E. destruct w as [|c' w]; [discriminate Hr|].
    injection Hr as _ <-. by apply (span_nonempty_lt key_char _ (String c' w)).
Qed.

Lemma parse_key_shrinks : shrinks parse_key.
Proof.
  intros s. destruct (parse_key s) as [p|k r] eqn:E.
  - apply parse_key_fail in E as ->. lia.
  - apply parse_key_read in E as [?|(-> & _)]; lia.
Qed.

#[export] Hint Resolve parse_key_shrinks : shrinks.

Lemma binding_body_shrinks : shrinks binding_body.
Proof. unfold binding_body. solve_shrinks. Qed.

Lemma bind_read {A B} (m : reader A) (f : A → reader B) s b r :
  (m ≫= f) s = Read b r → ∃ a r1, m s = Read a r1 ∧ f a r1 = Read b r.
Proof. unfold mbind, reader_bind. destruct (m s) as [p|a r1]; [discriminate|]. eauto. Qed.

Lemma shrinks_read {A} (m : reader A) s a r : shrinks m → m s = Read a r → len r ≤ len s.
Proof. intros Hm E. specialize (Hm s). by rewrite E in Hm. Qed.

Lemma shrinks_fail {A} (m : reader A) s p : shrinks m → m s = Fail p → len p ≤ len s.
Proof. intros Hm E. specialize (Hm s). by rewrite E in Hm. Qed.

(** A binding that is read consumes text: its key, or the comment that
    stands in its place. *)
Lemma binding_body_read s kv r : binding_body s = Read kv r → len r < len s.
Proof.
  intros H. unfold binding_body in H.
  apply bind_read in H as ([] & s0 & [= <-] & H).
  apply bind_read in H as (k & r1 & Hk & H).
  apply bind_read in H as ([] & r2 & [= <-] & H).
  apply bind_read in H as (c & r3 & [= <- <-] & H).
  apply bind_read in H as (v & r4 & Hv & H).
  apply bind_read in H as ([] & r5 & [= <-] & H).
  apply bind_read in H as ([] & r6 & He & [= _ <-]).
  apply (shrinks_read _ _ _ _ end_of_line_shrinks) in He.
  pose proof (export_prefix_le s). pose proof (comment_le r4).
  apply parse_key_read in Hk as [Hk|(-> & _ & t & Ht)].
  - assert (len r4 ≤ len (whitespace r1)).
    { revert Hv. case_bool_decide; [|by intros [= _ <-]].
      apply shrinks_read. solve_shrinks. }
    pose proof (whitespace_le r1). lia.
  - rewrite Ht in *. replace (whitespace _) with (String "#"%char t) in Hv by reflexivity.
    rewrite bool_decide_false in Hv by done. injection Hv as _ <-.
    pose proof (comment_hash t). lia.
Qed.

Lemma rest_of_line_lt p : p = EmptyString ∨ len (rest_of_line p) < len p.
Proof.
  destruct p as [|c r]; [by left|right]. unfold rest_of_line.
  pose proof (span_length (negb ∘ is_newline) (String c r)).
  destruct (span _ (String c r)).2 as [|d r']; simpl in *; lia.
Qed.

(** [parse_binding] on a non-empty text consumes at least one character. *)
Lemma parse_binding_progress s : s ≠ EmptyString → len (parse_binding s).2 < len s.
Proof.
  intros Hs. unfold parse_binding. pose proof (span_length str_isspace s) as Hm.
  fold (multiline_whitespace s) in Hm.
  destruct (multiline_whitespace s) as [|c r] eqn:E; simpl.
  - destruct s; [done|simpl; lia].
  - destruct (binding_body (String c r)) as [p|[k v] r'] eqn:B; simpl.
    + pose proof (shrinks_fail _ _ _ binding_body_shrinks B).
      destruct (rest_of_line_lt p) as [->|]; simpl in *; lia.
    + apply binding_body_read in B. lia.
Qed.

(** [parse_stream]: [while reader.has_next(): yield parse_binding(reader)]. *)
Equations? parse_stream (s : string) : list binding by wf (len s) lt :=
  parse_stream EmptyString := [];
  parse_stream (String c s') with Equations.Prop.Logic.inspect (parse_binding (String c s')) => {
    | exist _ (b, r) E := b :: parse_stream r }.
Proof. pose proof (parse_binding_progress (String c s')) as P. rewrite E in P. apply P. done. Qed.

(** [DotEnv.parse]: the key and value of each binding that has a key. *)
Definition dotenv_parse (text : string) : list (string * option string) :=
  omap (λ b, (λ k, (k, b_value b)) <$> b_key b) (parse_stream text).

Lemma parse_stream_cons c s :
  parse_stream (String c s) =
    (parse_binding (String c s)).1 :: parse_stream (parse_binding (String c s)).2.
Proof.
  simp parse_stream. destruct (Equations.Prop.Logic.inspect (parse_binding (String c s))) as [[b r] E].
  simp parse_stream. by rewrite E.
Qed.

Lemma read_bind_eq {A B} (m : reader A) (f : A → reader B) s a r :
  m s = Read a r → (m ≫= f) s = f a r.
Proof. intros E. unfold mbind, reader_bind. by rewrite E. Qed.

Lemma fail_bind_eq {A B} (m : reader A) (f : A → reader B) s p :
  m s = Fail p → (m ≫= f) s = Fail p.
Proof. intros E. unfold mbind, reader_bind. by rewrite E. Qed.

(** Run the next read of a reader whose outcome a hypothesis gives. *)
Ltac read_step H := erewrite read_bind_eq; [|exact H]; cbn beta iota.

(** Run the next read when it computes on the text at hand. *)
Ltac read_eval := erewrite read_bind_eq; [|reflexivity]; cbn beta iota.

Lemma span_skip p ws t : all_chars p ws = true → (span p (ws +:+ t)).2 = (span p t).2.
Proof.
  induction ws as [|c ws IH]; intros H; [done|]. rewrite string_app_cons. simpl in H |- *.
  apply andb_true_iff in H as [Hc Hws]. rewrite Hc, <-(IH Hws). by destruct (span p (ws +:+ t)).
Qed.

Lemma span_head_stop p c t : p c = false → span p (String c t) = (EmptyString, String c t).
Proof. simpl. by intros ->. Qed.

Lemma key_char_not_blank c : key_char c = true → is_hblank c = false ∧ str_isspace c = false.
Proof. unfold key_char, is_hblank. destruct (str_isspace c); [by rewrite andb_false_r|done]. Qed.

(** A prefix without [=] does not reach past the [=] that ends a key. *)
Lemma strip_prefix_key p k t c r :
  all_chars (λ a, negb (bool_decide (a = "="%char))) p = true → all_chars key_char k = true →
  strip_prefix p (k +:+ String "="%char t) = Some (String c r) → c = "="%char ∨ key_char c = true.
Proof.
  revert k. induction p as [|a p IH]; intros [|b k] Hp Hk; simpl.
  - by intros [= <- _]; left.
  - rewrite ?string_app_cons. intros [= <- _]. right. by apply andb_true_iff in Hk as [? _].
  - apply andb_true_iff in Hp as [Ha _]. case_bool_decide; [subst; discriminate|done].
  - rewrite ?string_app_cons. simpl. apply andb_true_iff in Hp as [_ Hp].
    apply andb_true_iff in Hk as [_ Hk]. case_bool_decide; [by apply IH|done].
Qed.

Lemma export_prefix_key k t :
  all_chars key_char k = true → export_prefix (k +:+ String "="%char t) = k +:+ String "="%char t.
Proof.
  intros Hk. unfold export_prefix.
  destruct (strip_prefix "export" _) as [[|c r]|] eqn:E; [done| |done].
  assert (Hc : c = "="%char ∨ key_char c = true)
    by (eapply (strip_prefix_key "export"); [reflexivity|exact Hk|exact E]).
  destruct Hc as [->|Hc]; [reflexivity|]. by rewrite (proj1 (key_char_not_blank c Hc)).
Qed.

(** ** Printing a [.env] file

    Not code of the repository: the printer the round-trip property is
    stated with.  A line [KEY="VALUE"], with backslashes and double quotes
    of the value escaped by a backslash. *)
Fixpoint escape_dq (v : string) : string :=
  match v with
  | EmptyString => EmptyString
  | String c v' =>
      if bool_decide (c = bs_char ∨ c = dq_char) then String bs_char (String c (escape_dq v'))
      else String c (escape_dq v')
  end.

Definition render_line (k v : string) : string :=
  k +:+ String "="%char (String dq_char (escape_dq v +:+ String dq_char (String nl_char EmptyString))).

Definition render (kvs : list (string * string)) : string :=
  foldr (λ kv t, render_line kv.1 kv.2 +:+ t) EmptyString kvs.

(** A key [_unquoted_key] reads whole: not empty, no [=], [#] or blank,
    not starting with a quote. *)
Definition plain_key (k : string) : bool :=
  match k with
  | String c _ => negb (bool_decide (c = squote)) && all_chars key_char k
  | EmptyString => false
  end.

Fixpoint ends_with_bs (v : string) : bool :=
  match v with
  | EmptyString => false
  | String c EmptyString => bool_decide (c = bs_char)
  | String _ v' => ends_with_bs v'
  end.

Lemma quoted_body_bs_other c w :
  c ≠ dq_char →
  quoted_body dq_char (String bs_char (String c w)) =
    (λ vr, (String bs_char vr.1, vr.2)) <$> quoted_body dq_char (String c w).
Proof.
  intros Hc. cbn [quoted_body].
  rewrite (bool_decide_false (bs_char = dq_char)), (bool_decide_true (bs_char = bs_char)),
    (bool_decide_false (c = dq_char)) by done.
  reflexivity.
Qed.

Lemma escape_dq_head v : v ≠ EmptyString → ∃ c w, escape_dq v = String c w ∧ c ≠ dq_char.
Proof. destruct v as [|c v]; [done|]. intros _. simpl. case_bool_decide; eauto. naive_solver. Qed.

(** The scan of a double-quoted value stops at the quote after an escaped
    value that does not end with a backslash. *)
Lemma quoted_body_escape v t :
  ends_with_bs v = false →
  quoted_body dq_char (escape_dq v +:+ String dq_char t) = Some (escape_dq v, t).
Proof.
  induction v as [|c v IH]; intros Hv; [reflexivity|].
  assert (Hv' : ends_with_bs v = false) by (destruct v; [done|exact Hv]).
  specialize (IH Hv'). simpl. case_bool_decide as Hc; rewrite !string_app_cons.
  - destruct Hc as [->| ->].
    + destruct v as [|c' v']; [by vm_compute in Hv|].
      destruct (escape_dq_head (String c' v')) as (d & w & Ew & Hd); [done|].
      rewrite quoted_body_bs_other by done. rewrite Ew in IH |- *. rewrite string_app_cons in IH |- *.
      rewrite quoted_body_bs_other, IH by done. reflexivity.
    + cbn [quoted_body].
      rewrite (bool_decide_false (bs_char = dq_char)), (bool_decide_true (bs_char = bs_char)),
        (bool_decide_true (dq_char = dq_char)), IH by done.
      reflexivity.
  - cbn [quoted_body]. rewrite !bool_decide_false by naive_solver. by rewrite IH.
Qed.

Lemma decode_escape_dq v : decode_escapes double_quote_escape (escape_dq v) = v.
Proof.
  induction v as [|c v IH]; [done|]. simpl. case_bool_decide as Hc.
  - cbn [decode_escapes]. rewrite bool_decide_true by done.
    assert (double_quote_escape c = Some c) as -> by (unfold double_quote_escape; by rewrite bool_decide_true by naive_solver).
    by rewrite IH.
  - cbn [decode_escapes]. rewrite bool_decide_false by naive_solver. by rewrite IH.
Qed.

Lemma render_line_app k v t :
  render_line k v +:+ t =
    k +:+ String "="%char (String dq_char (escape_dq v +:+ String dq_char (String nl_char t))).
Proof. unfold render_line. by rewrite <-string_app_assoc, !string_app_cons, <-string_app_assoc. Qed.

Lemma plain_key_cons k : plain_key k = true →
  ∃ c k', k = String c k' ∧ c ≠ squote ∧ c ≠ "#"%char ∧ str_isspace c = false ∧ all_chars key_char k = true.
Proof.
  destruct k as [|c k']; [done|]. simpl. intros [Hq Hk]%andb_true_iff.
  apply andb_true_iff in Hk as [Hc Hk]. apply negb_true_iff, bool_decide_eq_false in Hq.
  destruct (key_char_not_blank c Hc) as [_ Hs]. exists c, k'. split_and!; try done.
  - intros ->. done.
  - simpl. by rewrite Hc, Hk.
Qed.

(** The parser reads a printed line back. *)
Lemma parse_binding_line k v t :
  plain_key k = true → ends_with_bs v = false →
  parse_binding (render_line k v +:+ t) = ({| b_key := Some k; b_value := Some v; b_error := false |}, t).
Proof.
  intros Hk Hv. rewrite render_line_app.
  destruct (plain_key_cons k Hk) as (c & k' & -> & Hq & Hh & Hs & Hall).
  set (rest := String dq_char (escape_dq v +:+ String dq_char (String nl_char t))).
  assert (Hb : binding_body (String c k' +:+ String "="%char rest) = Read (Some (String c k'), Some v) t).
  { unfold binding_body.
    assert (H1 : skip export_prefix (String c k' +:+ String "="%char rest) = Read () (String c k' +:+ String "="%char rest))
      by (unfold skip; by rewrite export_prefix_key).
    read_step H1.
    assert (H2 : parse_key (String c k' +:+ String "="%char rest) = Read (Some (String c k')) (String "="%char rest)).
    { rewrite string_app_cons. unfold parse_key. rewrite !bool_decide_false by done.
      rewrite <-string_app_cons, span_stop by done. reflexivity. }
    read_step H2. read_eval.
    read_eval.
    rewrite bool_decide_true by done.
    assert (H3 : parse_value rest = Read v (String nl_char t)).
    { unfold parse_value, rest. read_eval.
      rewrite bool_decide_false, bool_decide_true by done.
      assert (Hq' : read_quoted dq_char rest = Read (escape_dq v) (String nl_char t)).
      { unfold read_quoted, rest. rewrite bool_decide_true by done. by rewrite quoted_body_escape. }
      read_step Hq'. by rewrite decode_escape_dq. }
    assert (H4 : equal_sign (String "="%char rest) = Read () rest) by (unfold rest; reflexivity).
    assert (H5 : (equal_sign;; v ← parse_value; mret (Some v)) (String "="%char rest)
                 = Read (Some v) (String nl_char t)).
    { read_step H4. read_step H3. reflexivity. }
    read_step H5. read_eval.
    read_eval. reflexivity. }
  unfold parse_binding, multiline_whitespace. rewrite string_app_cons, span_head_stop by done.
  cbn [snd]. rewrite <-string_app_cons, Hb. reflexivity.
Qed.

Lemma parse_stream_nonempty s :
  s ≠ EmptyString → parse_stream s = (parse_binding s).1 :: parse_stream (parse_binding s).2.
Proof. destruct s as [|c s]; [done|]. intros _. apply parse_stream_cons. Qed.

Lemma parse_stream_line k v t :
  plain_key k = true → ends_with_bs v = false →
  parse_stream (render_line k v +:+ t) = {| b_key := Some k; b_value := Some v; b_error := false |} :: parse_stream t.
Proof.
  intros Hk Hv. rewrite parse_stream_nonempty.
  - by rewrite parse_binding_line.
  - rewrite render_line_app. destruct (plain_key_cons k Hk) as (c & k' & -> & _).
    by rewrite string_app_cons.
Qed.

Lemma parse_binding_blank ws t : all_chars str_isspace ws = true → parse_binding (ws +:+ t) = parse_binding t.
Proof. intros H. unfold parse_binding, multiline_whitespace. by rewrite span_skip. Qed.

Lemma parse_binding_comment c t :
  all_chars (negb ∘ is_newline) c = true →
  parse_binding (String "#"%char (c +:+ String nl_char t)) = ({| b_key := None; b_value := None; b_error := false |}, t).
Proof.
  intros Hc. unfold parse_binding. replace (multiline_whitespace _) with (String "#"%char (c +:+ String nl_char t)) by reflexivity.
  assert (Hb : binding_body (String "#"%char (c +:+ String nl_char t)) = Read (None, None) t).
  { unfold binding_body. do 5 read_eval.
    assert (H : skip comment (String "#"%char (c +:+ String nl_char t)) = Read () (String nl_char t)).
    { unfold skip, comment. replace (whitespace _) with (String "#"%char (c +:+ String nl_char t)) by reflexivity.
      rewrite bool_decide_true by done. by rewrite span_stop. }
    read_step H. read_eval. reflexivity. }
  by rewrite Hb.
Qed.

Lemma parse_binding_no_key c t :
  all_chars (negb ∘ is_newline) c = true →
  parse_binding (String "="%char (c +:+ String nl_char t)) = ({| b_key := None; b_value := None; b_error := true |}, t).
Proof.
  intros Hc. unfold parse_binding. replace (multiline_whitespace _) with (String "="%char (c +:+ String nl_char t)) by reflexivity.
  assert (Hb : binding_body (String "="%char (c +:+ String nl_char t)) = Fail (String "="%char (c +:+ String nl_char t))).
  { unfold binding_body. read_eval. by apply fail_bind_eq. }
  rewrite Hb. unfold rest_of_line. rewrite <-string_app_cons, span_stop by (cbn [all_chars]; rewrite ?Hc; reflexivity). reflexivity.
Qed.

(** ** Properties *)

(** C29: Round trip: a file of lines [KEY="VALUE"] with the value escaped
    parses back to its keys and values, in order, when no key needs
    quoting and no value ends with a backslash. *)
Theorem dotenv_parse_render (kvs : list (string * string)) :
  Forall (λ kv, plain_key kv.1 = true ∧ ends_with_bs kv.2 = false) kvs →
  dotenv_parse (render kvs) = (λ kv, (kv.1, Some kv.2)) <$> kvs.
Proof.
  unfold dotenv_parse. induction 1 as [|[k v] kvs [Hk Hv] _ IH]; [reflexivity|].
  change (render ((k, v) :: kvs)) with (render_line k v +:+ render kvs).
  rewrite parse_stream_line by done. simpl. f_equal. exact IH.
Qed.


(** Blank text and comment lines contribute no variable: removing
    them from the front of a file does not change what [DotEnv.parse]
    yields. *)
Theorem dotenv_parse_blank_comment (ws c t : string) :
  all_chars str_isspace ws = true → all_chars (negb ∘ is_newline) c = true →
  dotenv_parse (ws +:+ t) = dotenv_parse t ∧
  dotenv_parse (String "#"%char (c +:+ String nl_char t)) = dotenv_parse t.
Proof.
  intros Hws Hc. unfold dotenv_parse. split.
  - destruct t as [|a t].
    + destruct ws as [|w ws]; [done|]. rewrite string_app_nil_r, parse_stream_cons.
      rewrite <-(string_app_nil_r (String w ws)), parse_binding_blank by done. reflexivity.
    + rewrite (parse_stream_nonempty (ws +:+ _)), parse_binding_blank, <-parse_stream_cons by
        (done || by destruct ws; [|rewrite string_app_cons]).
      reflexivity.
  - rewrite parse_stream_cons, parse_binding_comment by done. reflexivity.
Qed.

(** C31: A line with no key before its [=] raises [Error] in
    [parse_binding]: it becomes an error binding, and reading resumes on
    the next line. *)
Theorem parse_stream_no_key (c t : string) :
  all_chars (negb ∘ is_newline) c = true →
  parse_stream (String "="%char (c +:+ String nl_char t)) =
    {| b_key := None; b_value := None; b_error := true |} :: parse_stream t.
Proof. intros Hc. by rewrite parse_stream_cons, parse_binding_no_key. Qed.

(** A double-quoted value that ends with an escaped backslash is read up
    to the next double quote of the file: the line after it is swallowed
    and both variables are lost, although each line alone parses. *)
Lemma escaped_backslash_swallows_next_line :
  let line1 := "F=" +:+ String dq_char ("x" +:+ String bs_char (String bs_char (String dq_char (String nl_char EmptyString)))) in
  let line2 := "G=" +:+ String dq_char ("y" +:+ String dq_char (String nl_char EmptyString)) in
  dotenv_parse line1 = [("F", Some (String "x"%char (String bs_char EmptyString)))] ∧
  dotenv_parse line2 = [("G", Some "y")] ∧
  dotenv_parse (line1 +:+ line2) = [].
Proof. vm_compute. split_and!; reflexivity. Qed.

(** ** Witnesses *)

(** A key path, and a value with a quote and a backslash inside. *)
Definition sample_kvs : list (string * string) :=
  [("FIREBASE_KEY_PATH", "/root/key.json");
   ("GREETING", "say " +:+ String dq_char ("hi" +:+ String dq_char (String bs_char "n ok")))].

Lemma dotenv_parse_render_witness :
  Forall (λ kv, plain_key kv.1 = true ∧ ends_with_bs kv.2 = false) sample_kvs ∧
  dotenv_parse (render sample_kvs) = (λ kv, (kv.1, Some kv.2)) <$> sample_kvs.
Proof.
  assert (H : Forall (λ kv, plain_key kv.1 = true ∧ ends_with_bs kv.2 = false) sample_kvs)
    by (repeat constructor).
  split; [exact H|]. exact (dotenv_parse_render _ H).
Defined.

Lemma dotenv_parse_blank_comment_witness :
  all_chars str_isspace (String " "%char (String nl_char EmptyString)) = true ∧
  all_chars (negb ∘ is_newline) " set by the deploy script" = true ∧
  (dotenv_parse (String " "%char (String nl_char EmptyString) +:+ "PORT=8080") = dotenv_parse "PORT=8080" ∧
   dotenv_parse (String "#"%char (" set by the deploy script" +:+ String nl_char "PORT=8080"))
     = dotenv_parse "PORT=8080").
Proof.
  assert (H1 : all_chars str_isspace (String " "%char (String nl_char EmptyString)) = true) by reflexivity.
  assert (H2 : all_chars (negb ∘ is_newline) " set by the deploy script" = true) by reflexivity.
  split; [exact H1|]. split; [exact H2|]. exact (dotenv_parse_blank_comment _ _ _ H1 H2).
Defined.

Lemma parse_stream_no_key_witness :
  all_chars (negb ∘ is_newline) "8080" = true ∧
  parse_stream (String "="%char ("8080" +:+ String nl_char "PORT=8080")) =
    {| b_key := None; b_value := None; b_error := true |} :: parse_stream "PORT=8080".
Proof.
  assert (H : all_chars (negb ∘ is_newline) "8080" = true) by reflexivity.
  split; [exact H|]. exact (parse_stream_no_key _ _ H).
Defined.

End DotenvParser.
