(* ===== verification/Dotenv.v ===== *)
(** * Dotenv: the process environment and [load_dotenv()]

    Line 8 of [src/backend/app.py] calls python-dotenv's [load_dotenv()]
    with its defaults ([override=False], [interpolate=True]); lines 11 and
    20 then read [os.environ] through [os.getenv].  This file models
    [os.environ] as a finite map, [os.getenv], [find_dotenv] (the walk from
    the directory of [app.py] to the root), the [${NAME}] / [${NAME:-default}]
    interpolation of [parse_variables] and [resolve_variables], and
    [DotEnv.set_as_environment_variables] with the checks [os.environ]
    makes on each assignment ([putenv] refuses a key with [=], an empty
    key, and a NUL byte).  [os.environ] is shared state: [load_dotenv]
    returns the environment it leaves, also when an assignment raises, and
    how it ended.  The text of the [.env] file is read with
    [DotEnv.parse], which [DotenvParser] models. *)

From S2P Require Import Prelude Url DotenvParser.

Module Dotenv.

(** [os.environ] *)
Abbreviation environ := (gmap string string).

(** [os.getenv(key, default)] is [os.environ.get(key, default)]. *)
Definition getenv (env : environ) (k : string) (dflt : pyval) : pyval :=
  match env !! k with Some v => PyStr v | None => dflt end.

(** ** [find_dotenv] *)

(** A directory as its components from the innermost out: [backend],
    [src], ... . *)
Abbreviation rdir := (list string).

(** [_walk_to_root(path)]: the directory, its parent, ..., the root. *)
Fixpoint walk_to_root (d : rdir) : list rdir :=
  d :: match d with [] => [] | _ :: up => walk_to_root up end.

(** The bindings of a [.env] file, as [DotEnv.parse] yields them: a key,
    and [None] for a line [KEY] without [=]. *)
Definition bindings := list (string * option string).

(** The file system, as far as [load_dotenv] reads it: the text of the
    [.env] file in a directory, if it is a file. *)
Definition dotenv_fs := rdir → option string.

(** [find_dotenv()]: the first directory on the walk that holds a [.env]
    file; [""] (here [None]) when there is none. *)
Fixpoint first_with_dotenv (fs : dotenv_fs) (ds : list rdir) : option rdir :=
  match ds with
  | [] => None
  | d :: ds' => if is_Some_dec (fs d) then Some d else first_with_dotenv fs ds'
  end.

Definition find_dotenv (fs : dotenv_fs) (start : rdir) : option rdir :=
  first_with_dotenv fs (walk_to_root start).

(** ** Interpolation: [parse_variables] *)

Inductive atom :=
  | Literal (value : string)
  | Var (name : string) (dflt : option string).

(** Split [s] at the first character satisfying [stop]. *)
Fixpoint take_until (stop : ascii → bool) (s : string) : string * string :=
  match s with
  | EmptyString => ("", "")
  | String c s' =>
      if stop c then ("", s)
      else let '(w, r) := take_until stop s' in (String c w, r)
  end.

(** One match of python-dotenv's [_posix_variable] pattern at the start
    of [s]: a dollar sign and an opening brace, a name of characters other
    than a closing brace or a colon, optionally a colon, a dash and a
    default of characters other than a closing brace, then a closing
    brace.  The result is the name, the default, and what follows. *)
Definition match_var (s : string) : option (string * option string * string) :=
  match s with
  | String "$"%char (String "{"%char r) =>
      let '(name, r1) := take_until (λ c, bool_decide (c = "}"%char) || bool_decide (c = ":"%char)) r in
      match r1 with
      | String "}"%char r2 => Some (name, None, r2)
      | String ":"%char (String "-"%char r2) =>
          let '(dflt, r3) := take_until (λ c, bool_decide (c = "}"%char)) r2 in
          match r3 with
          | String "}"%char r4 => Some (name, Some dflt, r4)
          | _ => None
          end
      | _ => None
      end
  | _ => None
  end.

Definition flush (lit : string) : list atom :=
  if bool_decide (lit = "") then [] else [Literal lit].

(** [finditer] over the value: the text between matches becomes one
    [Literal], each match a [Var] ([Variable] in python-dotenv).  [fuel] bounds the scan; the
    length of the value plus one is enough ([parse_vars_total]). *)
Fixpoint parse_vars (fuel : nat) (lit s : string) : option (list atom) :=
  match fuel with
  | O => None
  | S f =>
      match s with
      | EmptyString => Some (flush lit)
      | String c s' =>
          match match_var s with
          | Some (n, d, r) => (λ atoms, flush lit ++ Var n d :: atoms) <$> parse_vars f "" r
          | None => parse_vars f (lit +:+ String c "") s'
          end
      end
  end.

Definition parse_variables (s : string) : list atom :=
  default [] (parse_vars (S (String.length s)) "" s).

(** ** Interpolation: [resolve_variables] with [override=False] *)

(** The mapping a value is resolved in: [env.update(new_values);
    env.update(os.environ)], so [os.environ] wins. *)
Definition interp_env (env : environ) (nv : dict (option string)) (k : string) : option (option string) :=
  match env !! k with
  | Some v => Some (Some v)
  | None => dict_get k nv
  end.

(** [Literal.resolve] and [Variable.resolve]: [env.get(name, default or "")],
    with [None] read as [""]. *)
Definition resolve_atom (look : string → option (option string)) (a : atom) : string :=
  match a with
  | Literal v => v
  | Var n d =>
      match look n with
      | Some (Some v) => v
      | Some None => ""
      | None => default "" d
      end
  end.

Definition resolve_value (env : environ) (nv : dict (option string)) (v : option string) : option string :=
  match v with
  | None => None
  | Some s => Some (String.concat "" (resolve_atom (interp_env env nv) <$> parse_variables s))
  end.

(** [resolve_variables(values, override=False)]: each binding is resolved
    against [os.environ] and the bindings before it, then stored in
    [new_values]. *)
Definition resolve_variables (env : environ) (bs : bindings) : dict (option string) :=
  foldl (λ nv kv, dict_set kv.1 (resolve_value env nv kv.2) nv) [] bs.

(** ** [set_as_environment_variables] and [load_dotenv] *)

(** [os.environ[k] = v] on POSIX: [os.putenv] converts the key and the
    value with [PyUnicode_FSConverter], which refuses an embedded NUL, then
    refuses a key holding [=]; [setenv] fails with [EINVAL] on an empty
    key. *)
Definition nul_char : ascii := ascii_of_nat 0.

Definition putenv_check (k v : string) : result unit :=
  if Url.has_char nul_char k || Url.has_char nul_char v then raise! (ValueError "embedded null byte")
  else if Url.has_char "=" k then raise! (ValueError "illegal environment variable name")
  else if bool_decide (k = "") then raise! (OSError "[Errno 22] Invalid argument")
  else Ok ().

Definition environ_setitem (env : environ) (k v : string) : result environ :=
  putenv_check k v;; Ok (<[k := v]> env).

(** The loop of [set_as_environment_variables] with [override=False]:
    skip a key already in [os.environ], skip a [None] value, assign the
    others in order.  An assignment that raises ends the loop; the ones
    before it have been made. *)
Fixpoint set_as_environment_variables (env : environ) (d : dict (option string))
    : environ * result unit :=
  match d with
  | [] => (env, Ok ())
  | (k, v) :: d' =>
      if bool_decide (is_Some (env !! k)) then set_as_environment_variables env d'
      else match v with
           | None => set_as_environment_variables env d'
           | Some w =>
               match environ_setitem env k w with
               | Ok env' => set_as_environment_variables env' d'
               | Raise e => (env, Raise e)
               end
           end
  end.

(** [load_dotenv(dotenv_path)] of the [.env] file [find_dotenv] finds from
    [start]: the environment it leaves and how it ends.  Without a file
    the stream is empty and nothing changes. *)
Definition load_dotenv (fs : dotenv_fs) (start : rdir) (env : environ) : environ * result unit :=
  match find_dotenv fs start with
  | None => (env, Ok ())
  | Some d =>
      match fs d with
      | Some text => set_as_environment_variables env (resolve_variables env (DotenvParser.dotenv_parse text))
      | None => (env, Ok ())
      end
  end.

(** ** Helper lemmas *)

Lemma dict_set_keys {A} k (v : A) (d : dict A) :
  NoDup d.*1 → NoDup (dict_set k v d).*1 ∧ (∀ j, j ∈ (dict_set k v d).*1 ↔ j = k ∨ j ∈ d.*1).
Proof.
  induction d as [|[k' v'] d IH]; simpl; intros Hnd.
  - split; [constructor; [set_solver|constructor]|set_solver].
  - apply NoDup_cons in Hnd as [Hk' Hnd]. case_bool_decide as Hkk; subst; simpl.
    + split; [by constructor|set_solver].
    + destruct (IH Hnd) as [IH1 IH2]. split; [constructor; [rewrite IH2; set_solver|done]|].
      intros j. rewrite !elem_of_cons, IH2. naive_solver.
Qed.

Lemma resolve_variables_foldl_nodup env bs nv :
  NoDup nv.*1 → NoDup (foldl (λ nv kv, dict_set kv.1 (resolve_value env nv kv.2) nv) nv bs).*1.
Proof. revert nv. induction bs as [|kv bs IH]; intros nv Hnd; [done|]. apply IH, dict_set_keys, Hnd. Qed.

Definition has_value (o : option string) : bool := match o with Some _ => true | None => false end.

(** Whether a binding has a value does not depend on the environment. *)
Lemma resolve_value_has_value env nv v : has_value (resolve_value env nv v) = has_value v.
Proof. by destruct v. Qed.

Lemma resolve_variables_shape env1 env2 bs nv1 nv2 :
  (∀ k, has_value <$> dict_get k nv1 = has_value <$> dict_get k nv2) →
  ∀ k, has_value <$> dict_get k (foldl (λ nv kv, dict_set kv.1 (resolve_value env1 nv kv.2) nv) nv1 bs)
     = has_value <$> dict_get k (foldl (λ nv kv, dict_set kv.1 (resolve_value env2 nv kv.2) nv) nv2 bs).
Proof.
  revert nv1 nv2. induction bs as [|[j v] bs IH]; intros nv1 nv2 Hag; [done|].
  apply IH. intros k. simpl. destruct (decide (k = j)) as [->|Hne].
  - rewrite !dict_get_set_eq. simpl. by rewrite !resolve_value_has_value.
  - by rewrite !dict_get_set_ne.
Qed.

Lemma set_as_env_keeps env d k v :
  env !! k = Some v → (set_as_environment_variables env d).1 !! k = Some v.
Proof.
  revert env. induction d as [|[j w] d IH]; intros env Hk; simpl; [done|].
  case_bool_decide as Hs; [by apply IH|]. destruct w as [w|]; [|by apply IH].
  unfold environ_setitem. destruct (putenv_check j w); simpl; [|done].
  apply IH. rewrite lookup_insert_ne; [done|]. intros ->. apply Hs. by eexists.
Qed.

(** A loop over bindings whose keys with a value are all set already
    does nothing. *)
Lemma set_as_env_id env d :
  (∀ k v, (k, Some v) ∈ d → is_Some (env !! k)) → set_as_environment_variables env d = (env, Ok ()).
Proof.
  induction d as [|[j w] d IH]; intros Hd; simpl; [done|].
  assert (Hd' : ∀ k v, (k, Some v) ∈ d → is_Some (env !! k)) by (intros; eapply Hd; by right).
  case_bool_decide as Hs; [by apply IH|]. destruct w as [w|]; [|by apply IH].
  destruct Hs. eapply Hd. by left.
Qed.

(** When the loop ends normally, the environment is the left-biased union
    of the old one and the bindings with a value. *)
Lemma set_as_env_lookup env d k :
  NoDup d.*1 → (set_as_environment_variables env d).2 = Ok () →
  (set_as_environment_variables env d).1 !! k =
    match env !! k with Some v => Some v | None => dict_get k d ≫= id end.
Proof.
  revert env. induction d as [|[j w] d IH]; intros env Hnd; simpl; [by destruct (env !! k)|].
  apply NoDup_cons in Hnd as [Hj Hnd]. pose proof (proj2 (dict_get_None j d) Hj) as Hdj.
  case_bool_decide as Hs.
  - intros Hok. rewrite IH by done. destruct (decide (k = j)) as [->|Hne].
    + destruct Hs as [? ->]. done.
    + by rewrite bool_decide_false.
  - destruct w as [w|].
    + unfold environ_setitem. destruct (putenv_check j w); simpl; [|done]. intros Hok.
      rewrite IH by done. destruct (decide (k = j)) as [->|Hne].
      * rewrite lookup_insert_eq, bool_decide_true by done. apply eq_None_not_Some in Hs. by rewrite Hs.
      * by rewrite lookup_insert_ne, bool_decide_false by done.
    + intros Hok. rewrite IH by done. destruct (decide (k = j)) as [->|Hne].
      * rewrite bool_decide_true by done. apply eq_None_not_Some in Hs. by rewrite Hs, Hdj.
      * by rewrite bool_decide_false.
Qed.

(** The loop ends normally exactly when every binding it assigns passes
    [os.environ]'s checks. *)
Lemma set_as_env_ok_iff env d :
  NoDup d.*1 →
  (set_as_environment_variables env d).2 = Ok () ↔
  ∀ k v, (k, Some v) ∈ d → env !! k = None → putenv_check k v = Ok ().
Proof.
  revert env. induction d as [|[j w] d IH]; intros env Hnd; simpl.
  { split; [|done]. intros _ k v Hin. by apply elem_of_nil in Hin. }
  apply NoDup_cons in Hnd as [Hj Hnd].
  assert (Hnotj : ∀ k v, (k, Some v) ∈ d → k ≠ j).
  { intros k v Hin ->. apply Hj. by apply (list_elem_of_fmap_2 fst) in Hin. }
  case_bool_decide as Hs; [|destruct w as [w|]].
  - rewrite IH by done. split; intros H k v Hin Hk.
    + apply elem_of_cons in Hin as [Heq|Hin]; [|by apply H].
      injection Heq as -> <-. destruct Hs as [x Hx]. congruence.
    + apply H; [by right|done].
  - unfold environ_setitem. destruct (putenv_check j w) as [[]|e] eqn:Hc; simpl.
    + rewrite IH by done. split; intros H k v Hin Hk.
      * apply elem_of_cons in Hin as [[= -> ->]|Hin]; [done|].
        apply H; [done|]. rewrite lookup_insert_ne; [done|]. by apply not_eq_sym, (Hnotj k v).
      * apply H; [by right|]. rewrite lookup_insert_ne in Hk; [done|]. by apply not_eq_sym, (Hnotj k v).
    + split; [done|]. intros H. rewrite (H j w) in Hc; [done|by left|]. by apply eq_None_not_Some.
  - rewrite IH by done. split; intros H k v Hin Hk.
    + apply elem_of_cons in Hin as [[=]|Hin]. by apply H.
    + apply H; [by right|done].
Qed.

Lemma load_dotenv_found fs start env d text :
  find_dotenv fs start = Some d → fs d = Some text →
  load_dotenv fs start env =
    set_as_environment_variables env (resolve_variables env (DotenvParser.dotenv_parse text)).
Proof. intros Hf Hd. unfold load_dotenv. by rewrite Hf, Hd. Qed.

Lemma take_until_length p s w r : take_until p s = (w, r) → String.length r ≤ String.length s.
Proof.
  revert w r. induction s as [|c s IH]; intros w r; simpl; [by intros [= <- <-]|].
  destruct (p c); [intros [= <- <-]; simpl; lia|].
  destruct (take_until p s) as [w' r'] eqn:E. intros [= <- <-]. specialize (IH _ _ eq_refl). lia.
Qed.

Lemma match_var_length s n d r : match_var s = Some (n, d, r) → String.length r < String.length s.
Proof.
  unfold match_var. repeat case_match; intros Hs; simplify_eq;
    repeat match goal with H : take_until _ _ = _ |- _ => apply take_until_length in H end;
    simpl in *; lia.
Qed.

(** ** Properties *)

(** C14: [load_dotenv()] with [override=False] never changes a variable
    that is already in [os.environ], also when an assignment raises. *)
Theorem load_dotenv_keeps (fs : dotenv_fs) (start : rdir) (env : environ) (k v : string) :
  env !! k = Some v → (load_dotenv fs start env).1 !! k = Some v.
Proof.
  intros Hk. unfold load_dotenv.
  destruct (find_dotenv fs start) as [d|]; [destruct (fs d)|]; [by apply set_as_env_keeps|done..].
Qed.

(** C3: [load_dotenv()] raises exactly when [os.environ] refuses one of
    the assignments it makes: a binding with a value, whose key is not
    set yet, and whose key holds [=] (a quoted key such as ['A=B']) or is
    empty, or whose key or value holds a NUL byte. *)
Theorem load_dotenv_raises_iff (fs : dotenv_fs) (start : rdir) (env : environ) (d : rdir) (text : string) :
  find_dotenv fs start = Some d → fs d = Some text →
  (load_dotenv fs start env).2 = Ok () ↔
  ∀ k v, (k, Some v) ∈ resolve_variables env (DotenvParser.dotenv_parse text) → env !! k = None →
    putenv_check k v = Ok ().
Proof.
  intros Hf Hd. rewrite (load_dotenv_found _ _ _ _ _ Hf Hd).
  apply set_as_env_ok_iff, resolve_variables_foldl_nodup. constructor.
Qed.

(** C15: When [load_dotenv()] returns, [os.environ] is the left-biased
    union the [.env] pass describes: a variable already set keeps its
    value, any other variable gets the resolved value of its last binding
    in the file, and a key without a value is not set. *)
Theorem load_dotenv_lookup (fs : dotenv_fs) (start : rdir) (env : environ) (d : rdir)
    (text : string) (k : string) :
  find_dotenv fs start = Some d → fs d = Some text → (load_dotenv fs start env).2 = Ok () →
  (load_dotenv fs start env).1 !! k =
    match env !! k with
    | Some v => Some v
    | None => dict_get k (resolve_variables env (DotenvParser.dotenv_parse text)) ≫= id
    end.
Proof.
  intros Hf Hd. rewrite (load_dotenv_found _ _ _ _ _ Hf Hd).
  apply set_as_env_lookup, resolve_variables_foldl_nodup. constructor.
Qed.

(** C16: Loading twice is loading once: after a [load_dotenv()] that
    returned, a second one finds every key of the file that has a value
    already set, so it changes nothing and returns, although
    interpolation then sees the new environment.  (After one that
    raised, a second load may go further: see the findings.) *)
Theorem load_dotenv_idempotent (fs : dotenv_fs) (start : rdir) (env : environ) :
  (load_dotenv fs start env).2 = Ok () →
  load_dotenv fs start (load_dotenv fs start env).1 = load_dotenv fs start env.
Proof.
  destruct (find_dotenv fs start) as [d|] eqn:Hf; [|by (unfold load_dotenv; rewrite !Hf)].
  destruct (fs d) as [text|] eqn:Hd; [|by (unfold load_dotenv; rewrite !Hf, !Hd)].
  rewrite !(load_dotenv_found _ _ _ _ _ Hf Hd).
  set (bs := DotenvParser.dotenv_parse text).
  assert (Hnd : ∀ e, NoDup (resolve_variables e bs).*1)
    by (intros; apply resolve_variables_foldl_nodup; constructor).
  destruct (set_as_environment_variables env (resolve_variables env bs)) as [env' r] eqn:Hset.
  cbn [fst snd]. intros ->. apply set_as_env_id. intros k w Hkv.
  pose proof (proj2 (dict_get_elem _ _ _ (Hnd env')) Hkv) as Hget.
  pose proof (resolve_variables_shape env' env bs [] [] (λ _, eq_refl) k) as Hsh.
  fold (resolve_variables env' bs) (resolve_variables env bs) in Hsh.
  rewrite Hget in Hsh. simpl in Hsh.
  destruct (dict_get k (resolve_variables env bs)) as [[w'|]|] eqn:E; simpl in Hsh; try done.
  pose proof (set_as_env_lookup env (resolve_variables env bs) k (Hnd env)) as Hl.
  rewrite Hset in Hl. cbn [fst snd] in Hl. rewrite (Hl eq_refl), E. by destruct (env !! k).
Qed.

(** C17: The interpolation scan terminates: with more fuel than the
    length of the value, [parse_vars] always returns a list of atoms. *)
Theorem parse_vars_total (fuel : nat) (lit s : string) :
  String.length s < fuel → is_Some (parse_vars fuel lit s).
Proof.
  revert lit s. induction fuel as [|f IH]; intros lit s Hlen; [lia|].
  destruct s as [|c s']; cbn [parse_vars]; [by eexists|].
  destruct (match_var (String c s')) as [[[n d] r]|] eqn:E.
  - apply match_var_length in E. simpl in *.
    destruct (IH "" r) as [atoms ->]; [lia|]. by eexists.
  - apply IH. simpl in Hlen. lia.
Qed.

(** ** Witnesses *)

(** A checkout with a [.env] beside [app.py] that points the key path at
    the user's home directory. *)
Definition sample_dotenv : string :=
"# local settings
FIREBASE_KEY_PATH=${HOME}/key.json
export PORT=8080   # the dev port
HOME=/tmp
DEBUG
".

Definition sample_fs : dotenv_fs :=
  λ d, if bool_decide (d = ["backend"; "src"]) then Some sample_dotenv else None.

Definition sample_env : environ := <["HOME" := "/root"]> ∅.

Lemma load_dotenv_keeps_witness :
  sample_env !! "HOME" = Some "/root" ∧
  (load_dotenv sample_fs ["backend"; "src"] sample_env).1 !! "HOME" = Some "/root".
Proof.
  assert (H : sample_env !! "HOME" = Some "/root") by reflexivity.
  split; [exact H|]. by apply load_dotenv_keeps.
Defined.

Lemma load_dotenv_lookup_witness :
  find_dotenv sample_fs ["backend"; "src"] = Some ["backend"; "src"] ∧
  sample_fs ["backend"; "src"] = Some sample_dotenv ∧
  (load_dotenv sample_fs ["backend"; "src"] sample_env).2 = Ok () ∧
  (load_dotenv sample_fs ["backend"; "src"] sample_env).1 !! "FIREBASE_KEY_PATH" = Some "/root/key.json".
Proof.
  assert (H1 : find_dotenv sample_fs ["backend"; "src"] = Some ["backend"; "src"]) by reflexivity.
  assert (H2 : sample_fs ["backend"; "src"] = Some sample_dotenv) by reflexivity.
  assert (H3 : (load_dotenv sample_fs ["backend"; "src"] sample_env).2 = Ok ()) by (vm_compute; reflexivity).
  split; [exact H1|]. split; [exact H2|]. split; [exact H3|].
  rewrite (load_dotenv_lookup _ _ _ _ _ _ H1 H2 H3). vm_compute. reflexivity.
Defined.

Lemma load_dotenv_idempotent_witness :
  (load_dotenv sample_fs ["backend"; "src"] sample_env).2 = Ok () ∧
  load_dotenv sample_fs ["backend"; "src"] (load_dotenv sample_fs ["backend"; "src"] sample_env).1
  = load_dotenv sample_fs ["backend"; "src"] sample_env.
Proof.
  assert (H : (load_dotenv sample_fs ["backend"; "src"] sample_env).2 = Ok ()) by (vm_compute; reflexivity).
  split; [exact H|]. exact (load_dotenv_idempotent _ _ _ H).
Defined.

(** A [.env] whose second line has a quoted key with [=]: [os.environ]
    refuses it after the first line has been set. *)
Definition bad_key_dotenv : string :=
  "PORT=8080" +:+ String nl_char ("'A=B'=1" +:+ String nl_char "").

Definition bad_key_fs : dotenv_fs :=
  λ d, if bool_decide (d = ["backend"; "src"]) then Some bad_key_dotenv else None.

Lemma load_dotenv_raises_iff_witness :
  find_dotenv bad_key_fs ["backend"; "src"] = Some ["backend"; "src"] ∧
  bad_key_fs ["backend"; "src"] = Some bad_key_dotenv ∧
  ("A=B", Some "1") ∈ resolve_variables ∅ (DotenvParser.dotenv_parse bad_key_dotenv) ∧
  putenv_check "A=B" "1" = raise! (ValueError "illegal environment variable name") ∧
  (load_dotenv bad_key_fs ["backend"; "src"] ∅).2 ≠ Ok () ∧
  load_dotenv bad_key_fs ["backend"; "src"] ∅
  = (<["PORT" := "8080"]> ∅, raise! (ValueError "illegal environment variable name")).
Proof.
  assert (H1 : find_dotenv bad_key_fs ["backend"; "src"] = Some ["backend"; "src"]) by reflexivity.
  assert (H2 : bad_key_fs ["backend"; "src"] = Some bad_key_dotenv) by reflexivity.
  assert (H3 : ("A=B", Some "1") ∈ resolve_variables ∅ (DotenvParser.dotenv_parse bad_key_dotenv))
    by (vm_compute; right; left).
  assert (H4 : putenv_check "A=B" "1" = raise! (ValueError "illegal environment variable name"))
    by reflexivity.
  split; [exact H1|]. split; [exact H2|]. split; [exact H3|]. split; [exact H4|]. split.
  - intros Hok. pose proof (proj1 (load_dotenv_raises_iff _ _ ∅ _ _ H1 H2) Hok "A=B" "1" H3 eq_refl) as H.
    by rewrite H4 in H.
  - vm_compute. reflexivity.
Defined.

Lemma parse_vars_total_witness :
  String.length "${HOME}/key.json" < 17 ∧ is_Some (parse_vars 17 "" "${HOME}/key.json").
Proof.
  assert (H : String.length "${HOME}/key.json" < 17) by (vm_compute; lia).
  split; [exact H|]. by apply parse_vars_total.
Defined.

(** After a [load_dotenv()] that raised, loading again may go further.
    [K] interpolates [X]: the first time from the first binding of [X],
    whose NUL byte [os.environ] refuses; the second time from the
    environment, where the first load had set the last binding of [X]. *)
Definition nul_dotenv : string :=
  "X=a" +:+ String nul_char (String nl_char ("K=${X}" +:+ String nl_char ("X=b" +:+ String nl_char ""))).

Definition nul_fs : dotenv_fs :=
  λ d, if bool_decide (d = ["backend"; "src"]) then Some nul_dotenv else None.

Lemma load_dotenv_twice_after_error :
  load_dotenv nul_fs ["backend"; "src"] ∅ = (<["X" := "b"]> ∅, raise! (ValueError "embedded null byte")) ∧
  load_dotenv nul_fs ["backend"; "src"] (<["X" := "b"]> ∅) = (<["K" := "b"]> (<["X" := "b"]> ∅), Ok ()).
Proof. split; vm_compute; reflexivity. Qed.

End Dotenv.
