(* ===== verification/App.v ===== *)
(** * App: the module [src/backend/app.py] as a program

    Importing the module runs lines 8-17 in order; running it as a script
    then runs lines 19-21.  This file composes the models of the other
    files into that sequence, as a computation in the [result] monad over
    what the machine holds when the process starts (its environment, the
    [.env] and [.flaskenv] files, the working directory, the key file, the
    static folder, the ports it may bind), and describes the process as a
    labelled transition system: it boots once, then either serves
    requests forever through werkzeug's server and debugger, exits, or
    has crashed.

    [app.run(debug=True)] turns werkzeug's reloader on: the first process
    binds the socket, then runs the script again in a child process whose
    environment is its own [os.environ] (both [.env] passes included) and
    which inherits the socket; the child serves, and the first process
    exits with the child's status.  [main] models both runs. *)

From S2P Require Import Prelude PyInt Json JsonDecode Url Http Server Dotenv Firebase.

Module App.
Import Dotenv Firebase Http Url Server.

(** What the machine holds when the process starts. *)
Record host := {
  installed : list string;             (* the importable modules *)
  os_env : environ;                    (* [os.environ] at start-up *)
  dotenv_files : dotenv_fs;            (* the [.env] files on the disk *)
  flaskenv_files : dotenv_fs;          (* the [.flaskenv] files on the disk *)
  app_dir : rdir;                      (* the directory of [app.py] *)
  cwd : rdir;                          (* the working directory *)
  fb_world : Firebase.world;           (* key files and parsers *)
  static_files : string → option string; (* the [static] folder *)
  port_free : Z → bool;                (* [socket.bind] to the port succeeds *)
  ephemeral_port : Z;                  (* the port the kernel picks for port 0 *)
  set_order : list string;             (* the serving process's order of a set of methods *)
  set_order_perm : set_order ≡ₚ rule_methods;
  ip_parse : string → option bool;     (* [ipaddress.ip_address] *)
  debugger_of : debugger               (* the debugger's commands and console *)
}.

(** [flask.helpers.get_debug_flag()]: [FLASK_DEBUG] set, non-empty and not
    one of [0], [false], [no] in any case.  [Flask(__name__)] puts it in
    [config["DEBUG"]]. *)
Definition get_debug_flag (env : environ) : bool :=
  match env !! "FLASK_DEBUG" with
  | None => false
  | Some v => negb (bool_decide (v = "")) && negb (bool_decide (string_lower v ∈ ["0"; "false"; "no"]))
  end.

(** The module's globals after the import: [os.environ], [app] (its
    configuration), [firebase_admin._apps] and [db]. *)
Record module_state := {
  m_env : environ;
  m_cfg : app_config;
  m_fb : fb_state;
  m_db : firestore_client
}.

(** ** The imports, lines 1-6 *)

(** The modules lines 2-6 import, in their order: [os] (line 1) is in
    the standard library; line 5 imports [firebase_admin.firestore],
    which imports [google.cloud.firestore] from the google-cloud-firestore
    distribution. *)
Definition required_modules : list string :=
  ["flask"; "flask_cors"; "firebase_admin"; "google.cloud.firestore"; "dotenv"].

(** The message [firebase_admin/firestore.py] raises when its
    [from google.cloud import firestore] fails. *)
Definition firestore_import_msg : string :=
  "Failed to import the Cloud Firestore library for Python. Make sure to install the "
  +:+ String dq_char ("google-cloud-firestore" +:+ String dq_char " module.").

(** What importing a missing module raises: [ModuleNotFoundError], but
    [firebase_admin.firestore] catches it and raises [ImportError]. *)
Definition import_error (m : string) : exn :=
  if bool_decide (m = "google.cloud.firestore") then ImportError firestore_import_msg
  else ModuleNotFoundError m.

Definition import_module (h : host) (m : string) : result unit :=
  if bool_decide (m ∈ installed h) then Ok () else raise! (import_error m).

(** Lines 1-6. *)
Definition import_lines (h : host) : result unit :=
  import_module h "flask";;                      (* line 2 *)
  import_module h "flask_cors";;                 (* line 3 *)
  import_module h "firebase_admin";;             (* line 4 *)
  import_module h "google.cloud.firestore";;     (* line 5 *)
  import_module h "dotenv".                      (* line 6 *)

(** Lines 1-13 in a process whose [os.environ] starts as [env0] (lines
    15-17 define [index], which [Http.index] models and [Http.dispatch]
    routes to).  Line 8 raises what [os.environ] raises on an assignment
    of [load_dotenv]. *)
Definition import_app (h : host) (env0 : environ) : result module_state :=
  import_lines h;;
  let '(env, r) := load_dotenv (dotenv_files h) (app_dir h) env0 in
  r;;
  let cfg := {| debug := get_debug_flag env; static_lookup := static_files h;
                allow_order := set_order h; allow_order_perm := set_order_perm h |} in
  cred ← certificate (fb_world h) (getenv env "FIREBASE_KEY_PATH" PyNone);
  '(fb1, _) ← initialize_app (fb_world h) env fb_init cred default_app_name;
  '(fb2, db) ← client env fb1;
  mret {| m_env := env; m_cfg := cfg; m_fb := fb2; m_db := db |}.

(** ** [app.run(host="0.0.0.0", port=port, debug=True)] *)

(** [flask.helpers.get_load_dotenv()]: [FLASK_SKIP_DOTENV] unset or empty,
    or one of [0], [false], [no]. *)
Definition get_load_dotenv (env : environ) : bool :=
  match env !! "FLASK_SKIP_DOTENV" with
  | None => true
  | Some v => bool_decide (v = "") || bool_decide (string_lower v ∈ ["0"; "false"; "no"])
  end.

(** [Flask.run]'s own [.env] pass, [flask.cli.load_dotenv()]: the [.env]
    and then the [.flaskenv] that [find_dotenv(name, usecwd=True)] finds
    from the working directory, each loaded with [override=False]. *)
Definition flask_run_dotenv (h : host) (env : environ) : environ * result unit :=
  if get_load_dotenv env then
    let '(env1, r) := load_dotenv (dotenv_files h) (cwd h) env in
    match r with
    | Ok _ => load_dotenv (flaskenv_files h) (cwd h) env1
    | Raise e => (env1, Raise e)
    end
  else (env, Ok ()).

(** The C [long] that [socket.getaddrinfo] converts the port to. *)
Definition c_long_ok (p : Z) : bool := bool_decide (- 2 ^ 63 ≤ p < 2 ^ 63)%Z.

(** glibc's [getaddrinfo] reads the service [str(p)] with [strtoul] (a
    minus sign negates modulo 2^64) into an [int], its low 32 bits in
    two's complement. *)
Definition service_int (p : Z) : Z :=
  let u := (p mod 2 ^ 32)%Z in if (u <? 2 ^ 31)%Z then u else (u - 2 ^ 32)%Z.

(** [socket.getaddrinfo("0.0.0.0", p, AF_INET, SOCK_STREAM, IPPROTO_TCP)]:
    an [int] that is not negative gives the port [htons] keeps, its low 16
    bits; a negative one is looked up as a service name, which fails with
    [gaierror] ([None]). *)
Definition getaddrinfo_port (p : Z) : result (option Z) :=
  if c_long_ok p then
    let n := service_int p in
    if (n <? 0)%Z then Ok None else Ok (Some (n mod 2 ^ 16)%Z)
  else raise! (OverflowError "Python int too large to convert to C long").

(** werkzeug's [get_sockaddr]: the port of [getaddrinfo]'s first address,
    or the port itself when [getaddrinfo] raises [gaierror]. *)
Definition get_sockaddr (p : Z) : result Z :=
  o ← getaddrinfo_port p;
  mret (default p o).

(** The port the socket ends up on ([getsockname]): the kernel's choice
    for port 0. *)
Definition bound_port (h : host) (q : Z) : Z := if (q =? 0)%Z then ephemeral_port h else q.

(** [BaseWSGIServer.__init__] binding [("0.0.0.0", q)]: [socket.bind]
    refuses a port outside [0..65535] with [OverflowError], which
    propagates; an [OSError] of the bind (the port in use, or not
    allowed) is printed and ends the process with [sys.exit(1)]. *)
Definition server_bind (h : host) (q : Z) : result Z :=
  if bool_decide (0 ≤ q ≤ 65535)%Z then
    if port_free h q then Ok (bound_port h q) else raise! (SystemExit 1)
  else raise! (OverflowError "bind(): port must be 0-65535.").

(** The application [run_simple] serves in the child: Flask in debug
    mode ([debug=True] overrides [FLASK_DEBUG]) behind
    [DebuggedApplication], on the inherited socket. *)
Definition child_server (h : host) (m : module_state) (bound : Z) : server :=
  {| srv_addr := ("0.0.0.0", bound);
     srv_app := {| debug := true; static_lookup := static_lookup (m_cfg m);
                   allow_order := allow_order (m_cfg m); allow_order_perm := allow_order_perm (m_cfg m) |};
     srv_debugger := Some (debugger_of h) |}.

Inductive run_outcome :=
  | Served (s : server)
  | Ignored.

(** The child of the reloader: the script again, from the environment
    [env] the first process has now, up to [app.run], which under
    [FLASK_RUN_FROM_CLI=true] returns; otherwise its [.env] pass, then
    [run_simple] with the inherited socket: [make_server] still computes
    [get_sockaddr] of the child's port, but binds nothing. *)
Definition serve_child (h : host) (env : environ) (bound : Z) : result run_outcome :=
  m ← import_app h env;
  p ← PyInt.py_int PyInt.default_max_str_digits (getenv (m_env m) "PORT" (PyInt 5000));
  if bool_decide (m_env m !! "FLASK_RUN_FROM_CLI" = Some "true") then Ok Ignored else
  (flask_run_dotenv h (m_env m)).2;;
  get_sockaddr p;;
  mret (Served (child_server h m bound)).

(** [python app.py]: the import, line 20, then [app.run]: returns under
    [flask run]; otherwise [Flask.run]'s [.env] pass, [run_simple] binds
    the socket, and the reloader's child takes over. *)
Definition main (h : host) : result run_outcome :=
  m ← import_app h (os_env h);
  p ← PyInt.py_int PyInt.default_max_str_digits (getenv (m_env m) "PORT" (PyInt 5000));
  if bool_decide (m_env m !! "FLASK_RUN_FROM_CLI" = Some "true") then Ok Ignored else
  let '(env1, r) := flask_run_dotenv h (m_env m) in
  r;;
  q ← get_sockaddr p;
  bound ← server_bind h q;
  serve_child h env1 bound.

(** ** The process *)

Inductive proc :=
  | Booting
  | Serving (s : server)
  | Exited
  | Crashed (e : exn).

(** The start-up, or one request: a request line read from a connection
    and its headers, and the reply. *)
Inductive event :=
  | EvStart
  | EvRequest (raw : string) (hdrs : list (string * string)) (rep : reply).

(** One step: the start-up, or one request answered by werkzeug's
    [WSGIRequestHandler] in front of the debugger and Flask. *)
Inductive step (h : host) : proc → event → proc → Prop :=
  | step_serve s : main h = Ok (Served s) → step h Booting EvStart (Serving s)
  | step_ignored : main h = Ok Ignored → step h Booting EvStart Exited
  | step_crash e : main h = Raise e → step h Booting EvStart (Crashed e)
  | step_request s raw hdrs :
      step h (Serving s) (EvRequest raw hdrs (handle_one_request (ip_parse h) s raw hdrs)) (Serving s).

(** Runs: finite sequences of steps with their events. *)
Inductive run (h : host) : proc → list event → proc → Prop :=
  | run_nil p : run h p [] p
  | run_cons p ev p' evs p'' : step h p ev p' → run h p' evs p'' → run h p (ev :: evs) p''.

(** ** Helper lemmas *)

(** Line 8 in the first process: the environment it leaves and how it
    ends. *)
Definition loaded (h : host) : environ * result unit :=
  load_dotenv (dotenv_files h) (app_dir h) (os_env h).

Lemma import_lines_ok h : required_modules ⊆ installed h → import_lines h = Ok ().
Proof.
  intros Hs. unfold import_lines, import_module.
  rewrite !bool_decide_true by (apply Hs; by repeat constructor). reflexivity.
Qed.

(** Imports in order, each only when those before it succeeded. *)
Fixpoint import_all (h : host) (ms : list string) : result unit :=
  match ms with
  | [] => Ok ()
  | [m] => import_module h m
  | m :: ms' => import_module h m;; import_all h ms'
  end.

Lemma import_lines_all h : import_lines h = import_all h required_modules.
Proof. reflexivity. Qed.

Lemma import_all_first_missing h ms i m :
  ms !! i = Some m → m ∉ installed h →
  (∀ j m', j < i → ms !! j = Some m' → m' ∈ installed h) →
  import_all h ms = raise! (import_error m).
Proof.
  revert i. induction ms as [|m0 ms IH]; intros [|i] Hi Hm Hbefore; simpl in Hi; try discriminate.
  - injection Hi as ->. assert (Hm0 : import_module h m = raise! (import_error m)).
    { unfold import_module. by rewrite bool_decide_false. }
    destruct ms; cbn [import_all]; rewrite Hm0; reflexivity.
  - assert (Hm0 : import_module h m0 = Ok ()).
    { unfold import_module. by rewrite bool_decide_true by (apply (Hbefore 0); [lia|done]). }
    destruct ms as [|m1 ms]; [done|]. cbn [import_all]. rewrite Hm0. simpl.
    apply (IH i); [done..|]. intros j m' Hj. apply (Hbefore (S j)). lia.
Qed.

(** Once the imports pass and line 8 returns, the import is lines 11-13 on
    the environment line 8 left. *)
Lemma import_app_after_dotenv h env0 :
  required_modules ⊆ installed h → (load_dotenv (dotenv_files h) (app_dir h) env0).2 = Ok () →
  import_app h env0 =
    let env := (load_dotenv (dotenv_files h) (app_dir h) env0).1 in
    cred ← certificate (fb_world h) (getenv env "FIREBASE_KEY_PATH" PyNone);
    '(fb1, _) ← initialize_app (fb_world h) env fb_init cred default_app_name;
    '(fb2, db) ← client env fb1;
    mret {| m_env := env;
            m_cfg := {| debug := get_debug_flag env; static_lookup := static_files h;
                        allow_order := set_order h; allow_order_perm := set_order_perm h |};
            m_fb := fb2; m_db := db |}.
Proof.
  intros Hs Hok. unfold import_app. rewrite import_lines_ok by done. simpl.
  destruct (load_dotenv _ _ _) as [env r]. simpl in Hok. by subst r.
Qed.

Lemma import_fails_dotenv h env0 e :
  required_modules ⊆ installed h → (load_dotenv (dotenv_files h) (app_dir h) env0).2 = Raise e →
  import_app h env0 = Raise e.
Proof.
  intros Hs He. unfold import_app. rewrite import_lines_ok by done. simpl.
  destruct (load_dotenv _ _ _) as [env r]. simpl in He. by subst r.
Qed.

(** The import raises what [credentials.Certificate] raises on the key
    path of the loaded environment. *)
Lemma import_fails_cert h env0 e :
  required_modules ⊆ installed h → (load_dotenv (dotenv_files h) (app_dir h) env0).2 = Ok () →
  certificate (fb_world h) (getenv (load_dotenv (dotenv_files h) (app_dir h) env0).1 "FIREBASE_KEY_PATH" PyNone)
    = Raise e →
  import_app h env0 = Raise e.
Proof. intros Hs Hok Hc. rewrite import_app_after_dotenv by done. cbv zeta. by rewrite Hc. Qed.

Lemma import_app_ok h env0 m :
  import_app h env0 = Ok m →
  (load_dotenv (dotenv_files h) (app_dir h) env0).2 = Ok () ∧
  m_env m = (load_dotenv (dotenv_files h) (app_dir h) env0).1 ∧
  m_cfg m = {| debug := get_debug_flag (m_env m); static_lookup := static_files h;
               allow_order := set_order h; allow_order_perm := set_order_perm h |}.
Proof.
  unfold import_app. destruct (import_lines h); simpl; [|discriminate].
  destruct (load_dotenv _ _ _) as [env [[]|e]]; simpl; [|discriminate].
  destruct (certificate _ _); simpl; [|discriminate].
  destruct (initialize_app _ _ _ _ _) as [[fb1 ?]|]; simpl; [|discriminate].
  destruct (client _ _) as [[fb2 db]|]; simpl; [|discriminate].
  by intros [= <-].
Qed.

Lemma main_bind_import h :
  main h =
    (m ← import_app h (os_env h);
     p ← PyInt.py_int PyInt.default_max_str_digits (getenv (m_env m) "PORT" (PyInt 5000));
     if bool_decide (m_env m !! "FLASK_RUN_FROM_CLI" = Some "true") then Ok Ignored else
     let '(env1, r) := flask_run_dotenv h (m_env m) in
     r;; q ← get_sockaddr p; bound ← server_bind h q; serve_child h env1 bound).
Proof. reflexivity. Qed.

(** After a successful import and line 20, [main] is [app.run]. *)
Lemma main_after_import h m p :
  import_app h (os_env h) = Ok m →
  PyInt.py_int PyInt.default_max_str_digits (getenv (m_env m) "PORT" (PyInt 5000)) = Ok p →
  m_env m !! "FLASK_RUN_FROM_CLI" ≠ Some "true" → (flask_run_dotenv h (m_env m)).2 = Ok () →
  main h = (q ← get_sockaddr p; bound ← server_bind h q; serve_child h (flask_run_dotenv h (m_env m)).1 bound).
Proof.
  intros Hi Hp Hcli Hok. rewrite main_bind_import, Hi. simpl. rewrite Hp. simpl.
  rewrite bool_decide_false by done. destruct (flask_run_dotenv h (m_env m)) as [env1 r].
  simpl in Hok. by subst r.
Qed.

(** [getaddrinfo] keeps a port of [0..65535]. *)
Lemma get_sockaddr_in_range p : (0 ≤ p ≤ 65535)%Z → get_sockaddr p = Ok p.
Proof.
  intros Hp. unfold get_sockaddr, getaddrinfo_port, c_long_ok, service_int.
  rewrite bool_decide_true by lia. rewrite (Z.mod_small p) by lia.
  rewrite (proj2 (Z.ltb_lt p _)) by lia. rewrite (proj2 (Z.ltb_ge p 0)) by lia.
  simpl. by rewrite Z.mod_small by lia.
Qed.

(** A port of [65536..2^31-1] wraps to its low 16 bits. *)
Lemma get_sockaddr_wrap p : (65535 < p < 2 ^ 31)%Z → get_sockaddr p = Ok (p mod 65536)%Z.
Proof.
  intros Hp. unfold get_sockaddr, getaddrinfo_port, c_long_ok, service_int.
  rewrite bool_decide_true by lia. rewrite (Z.mod_small p) by lia.
  rewrite (proj2 (Z.ltb_lt p _)) by lia. rewrite (proj2 (Z.ltb_ge p 0)) by lia. reflexivity.
Qed.

(** A port of [-2^31..-1] is an [int] below zero: [gaierror], and the
    port is passed on unchanged. *)
Lemma get_sockaddr_negative p : (- 2 ^ 31 ≤ p < 0)%Z → get_sockaddr p = Ok p.
Proof.
  intros Hp. unfold get_sockaddr, getaddrinfo_port, c_long_ok, service_int.
  rewrite bool_decide_true by lia.
  replace (p mod 2 ^ 32)%Z with (p + 2 ^ 32)%Z
    by (apply (Z.mod_unique _ _ (-1)); lia).
  rewrite (proj2 (Z.ltb_ge (p + 2 ^ 32) (2 ^ 31))) by lia. replace (p + 2 ^ 32 - 2 ^ 32)%Z with p by lia.
  rewrite (proj2 (Z.ltb_lt p 0)) by lia. reflexivity.
Qed.

(** The server a successful [main] starts comes out of the child. *)
Lemma main_served_inv h s :
  main h = Ok (Served s) →
  ∃ m p q m', import_app h (os_env h) = Ok m ∧
    PyInt.py_int PyInt.default_max_str_digits (getenv (m_env m) "PORT" (PyInt 5000)) = Ok p ∧
    get_sockaddr p = Ok q ∧ (0 ≤ q ≤ 65535)%Z ∧ port_free h q = true ∧
    s = child_server h m' (bound_port h q).
Proof.
  rewrite main_bind_import. destruct (import_app h (os_env h)) as [m|] eqn:Hi; simpl; [|discriminate].
  destruct (PyInt.py_int _ _) as [p|] eqn:Hp; simpl; [|discriminate].
  case_bool_decide; [discriminate|]. destruct (flask_run_dotenv h (m_env m)) as [env1 [[]|]]; simpl; [|discriminate].
  destruct (get_sockaddr p) as [q|] eqn:Hq; simpl; [|discriminate].
  unfold server_bind. case_bool_decide as Hr; [|discriminate]. destruct (port_free h q) eqn:Hf; [|discriminate].
  simpl. unfold serve_child. destruct (import_app h env1) as [m'|]; simpl; [|discriminate].
  destruct (PyInt.py_int PyInt.default_max_str_digits (getenv (m_env m') "PORT" (PyInt 5000)))
    as [p'|]; simpl; [|discriminate].
  case_bool_decide; [discriminate|]. destruct (flask_run_dotenv h (m_env m')) as [? [[]|]]; simpl; [|discriminate].
  destruct (get_sockaddr p'); simpl; [|discriminate]. unfold mret, result_ret. intros [= <-].
  by exists m, p, q, m'.
Qed.

Lemma run_from_serving h s evs p :
  run h (Serving s) evs p →
  p = Serving s ∧
  Forall (λ ev, ∃ raw hdrs, ev = EvRequest raw hdrs (handle_one_request (ip_parse h) s raw hdrs)) evs.
Proof.
  remember (Serving s) as q eqn:Hq. induction 1 as [|p0 ev p' evs p'' Hst Hrun IH]; subst.
  - by split.
  - inversion Hst; subst. destruct (IH eq_refl) as [-> Hall]. split; [done|]. constructor; eauto.
Qed.

Lemma run_from_final h p evs p' :
  (p = Exited ∨ ∃ e, p = Crashed e) → run h p evs p' → evs = [] ∧ p' = p.
Proof.
  intros Hp Hrun. destruct Hrun as [|p0 ev p1 evs p2 Hst _]; [done|].
  destruct Hp as [->|[e ->]]; inversion Hst.
Qed.

(** Every run from [Booting]: nothing yet, or the start-up followed by
    what the outcome of [main] allows. *)
Lemma run_from_booting h evs p :
  run h Booting evs p →
  (evs = [] ∧ p = Booting) ∨
  ∃ evs', evs = EvStart :: evs' ∧
    ((∃ s, main h = Ok (Served s) ∧ p = Serving s ∧
           Forall (λ ev, ∃ raw hdrs, ev = EvRequest raw hdrs (handle_one_request (ip_parse h) s raw hdrs)) evs') ∨
     (main h = Ok Ignored ∧ evs' = [] ∧ p = Exited) ∨
     (∃ e, main h = Raise e ∧ evs' = [] ∧ p = Crashed e)).
Proof.
  intros Hrun. inversion Hrun as [|p0 ev p1 evs' p2 Hst Hrun']; subst; [by left|]. right.
  clear Hrun. rename Hrun' into Hrun.
  inversion Hst as [s Hm|Hm|e Hm|]; subst; exists evs'; (split; [done|]).
  - left. exists s. apply run_from_serving in Hrun as [-> Hall]. auto.
  - right; left. apply run_from_final in Hrun as [-> ->]; [auto|by left].
  - right; right. exists e. apply run_from_final in Hrun as [-> ->]; [auto|by right; eexists].
Qed.

(** A process whose [main] does not serve answers no request. *)
Lemma no_request_unless_served h evs p :
  (∀ s, main h ≠ Ok (Served s)) → run h Booting evs p → ∀ raw hdrs rep, EvRequest raw hdrs rep ∉ evs.
Proof.
  intros Hns Hrun raw hdrs rep. apply run_from_booting in Hrun as [[-> _]|(evs' & -> & Hcase)];
    [apply not_elem_of_nil|].
  destruct Hcase as [(s & Hs & _)|[(_ & -> & _)|(e & _ & -> & _)]]; [by destruct (Hns s)|..];
    intros [Hin|Hin]%elem_of_cons; [discriminate|by apply elem_of_nil in Hin|discriminate|by apply elem_of_nil in Hin].
Qed.

(** Every reply in a run comes from the server [main] started. *)
Lemma run_replies h evs p raw hdrs rep :
  run h Booting evs p → EvRequest raw hdrs rep ∈ evs →
  ∃ s, main h = Ok (Served s) ∧ rep = handle_one_request (ip_parse h) s raw hdrs.
Proof.
  intros Hrun Hin. apply run_from_booting in Hrun as [[-> _]|(evs' & -> & Hcase)];
    [by apply elem_of_nil in Hin|].
  apply elem_of_cons in Hin as [Hin|Hin]; [discriminate|].
  destruct Hcase as [(s & Hm & _ & Hall)|[(_ & -> & _)|(e & _ & -> & _)]];
    [|by apply elem_of_nil in Hin..].
  rewrite Forall_forall in Hall. destruct (Hall _ Hin) as (raw' & hdrs' & [= -> -> ->]).
  by exists s.
Qed.

(** ** Properties *)

(** C13: A [.env] assignment that [os.environ] refuses (a quoted key with
    [=], an empty key, a NUL byte) stops the script at line 8: once the
    imports pass, the script raises that exception, whatever the key file
    and the port, and its process answers no request. *)
Theorem main_dotenv_error (h : host) (e : exn) :
  required_modules ⊆ installed h → (loaded h).2 = Raise e →
  main h = Raise e ∧ ∀ evs p, run h Booting evs p → ∀ raw hdrs rep, EvRequest raw hdrs rep ∉ evs.
Proof.
  intros Hs He. assert (Hm : main h = Raise e) by (by rewrite main_bind_import, (import_fails_dotenv h _ e)).
  split; [exact Hm|]. intros evs p. apply no_request_unless_served. intros s. congruence.
Qed.

(** C22: Without [FIREBASE_KEY_PATH] (neither in the process environment
    nor in the [.env] file), a script whose imports and line 8 succeed
    fails fast: line 11 passes [None] to [credentials.Certificate], which
    raises [ValueError]. *)
Theorem main_fails_without_key_path (h : host) :
  required_modules ⊆ installed h → (loaded h).2 = Ok () → (loaded h).1 !! "FIREBASE_KEY_PATH" = None →
  main h = raise! invalid_cert_arg.
Proof.
  intros Hs Hok H. rewrite main_bind_import, (import_fails_cert h _ invalid_cert_arg); [done..|].
  unfold getenv. fold (loaded h). by rewrite H.
Qed.

(** C23: Such a process never answers a request: every run of it has
    either not started or crashed with that [ValueError]. *)
Theorem no_request_without_key_path (h : host) (evs : list event) (p : proc) :
  required_modules ⊆ installed h → (loaded h).2 = Ok () → (loaded h).1 !! "FIREBASE_KEY_PATH" = None →
  run h Booting evs p →
  (∀ raw hdrs rep, EvRequest raw hdrs rep ∉ evs) ∧ (p = Booting ∨ p = Crashed invalid_cert_arg).
Proof.
  intros Hmods Hok Hk Hrun. assert (Hm : main h = raise! invalid_cert_arg).
  { rewrite main_bind_import, (import_fails_cert h _ invalid_cert_arg); [done..|].
    unfold getenv. fold (loaded h). by rewrite Hk. }
  split; [apply (no_request_unless_served h evs p); [intros s; congruence|done]|].
  apply run_from_booting in Hrun as [[_ ->]|(evs' & _ & Hcase)]; [by left|].
  destruct Hcase as [(s & Hs & _)|[(Hs & _)|(e & He & _ & ->)]]; [congruence|congruence|].
  rewrite Hm in He. injection He as <-. by right.
Qed.

(** C24: A server that starts listens on ["0.0.0.0"], on the port
    [getaddrinfo] derives from [int(os.getenv("PORT", 5000))] (that very
    port when it is within [0..65535]; the kernel's choice for 0), which
    was free; it runs Flask in debug mode behind werkzeug's debugger. *)
Theorem main_served (h : host) (s : server) :
  main h = Ok (Served s) →
  ∃ m p q, import_app h (os_env h) = Ok m ∧ m_env m = (loaded h).1 ∧
    PyInt.py_int PyInt.default_max_str_digits (getenv (m_env m) "PORT" (PyInt 5000)) = Ok p ∧
    get_sockaddr p = Ok q ∧ (0 ≤ q ≤ 65535)%Z ∧ ((0 ≤ p ≤ 65535)%Z → q = p) ∧ port_free h q = true ∧
    srv_addr s = ("0.0.0.0", bound_port h q) ∧ debug (srv_app s) = true ∧ srv_debugger s = Some (debugger_of h).
Proof.
  intros Hm. destruct (main_served_inv h s Hm) as (m & p & q & m' & Hi & Hp & Hq & Hr & Hf & ->).
  exists m, p, q. split; [done|]. split; [exact (proj1 (proj2 (import_app_ok h _ m Hi)))|].
  do 3 (split; [done|]).
  split; [intros Hp'; rewrite get_sockaddr_in_range in Hq by exact Hp'; congruence|].
  split; [done|]. split; [reflexivity|]. split; reflexivity.
Qed.

(** C25: Without [PORT], a script that gets past [Flask.run]'s checks
    binds port 5000 when it is free and hands that socket to the
    reloader's child. *)
Theorem main_default_port (h : host) (m : module_state) :
  import_app h (os_env h) = Ok m → m_env m !! "PORT" = None →
  m_env m !! "FLASK_RUN_FROM_CLI" ≠ Some "true" → (flask_run_dotenv h (m_env m)).2 = Ok () →
  port_free h 5000 = true →
  main h = serve_child h (flask_run_dotenv h (m_env m)).1 5000.
Proof.
  intros Hi Hp Hcli Hok Hf. rewrite (main_after_import h m 5000); [|done|by unfold getenv; rewrite Hp|done|done].
  rewrite get_sockaddr_in_range by lia. simpl. unfold server_bind.
  rewrite bool_decide_true by lia. by rewrite Hf.
Qed.

(** C26: [int()] accepts any integer, the socket takes 16 bits: a [PORT]
    of [65536..2^31-1] is served on its low 16 bits ([70000] on [4464]),
    never on itself, and a negative [PORT] of at least [-2^31] makes
    [bind] raise [OverflowError]. *)
Theorem main_port_wraps (h : host) (m : module_state) (p : Z) :
  import_app h (os_env h) = Ok m → m_env m !! "FLASK_RUN_FROM_CLI" ≠ Some "true" →
  (flask_run_dotenv h (m_env m)).2 = Ok () →
  PyInt.py_int PyInt.default_max_str_digits (getenv (m_env m) "PORT" (PyInt 5000)) = Ok p →
  ((65535 < p < 2 ^ 31)%Z →
     main h = if port_free h (p mod 65536)%Z
              then serve_child h (flask_run_dotenv h (m_env m)).1 (bound_port h (p mod 65536)%Z)
              else raise! (SystemExit 1)) ∧
  ((- 2 ^ 31 ≤ p < 0)%Z → main h = raise! (OverflowError "bind(): port must be 0-65535.")).
Proof.
  intros Hi Hcli Hok Hp. rewrite (main_after_import h m p) by done. split; intros Hr.
  - rewrite get_sockaddr_wrap by done. simpl. unfold server_bind.
    rewrite bool_decide_true by (pose proof (Z.mod_pos_bound p 65536); lia).
    by destruct (port_free h _).
  - rewrite get_sockaddr_negative by done. simpl. unfold server_bind.
    by rewrite bool_decide_false by lia.
Qed.


(** C28: Under [flask run] ([FLASK_RUN_FROM_CLI=true], which the [.env]
    file of line 8 can set), [app.run] returns at once: the script exits
    after importing and answers no request. *)
Theorem run_from_cli_no_request (h : host) (m : module_state) (z : Z) (evs : list event) (p : proc) :
  import_app h (os_env h) = Ok m → m_env m !! "FLASK_RUN_FROM_CLI" = Some "true" →
  PyInt.py_int PyInt.default_max_str_digits (getenv (m_env m) "PORT" (PyInt 5000)) = Ok z →
  run h Booting evs p →
  main h = Ok Ignored ∧ (∀ raw hdrs rep, EvRequest raw hdrs rep ∉ evs) ∧ (p = Booting ∨ p = Exited).
Proof.
  intros Hi Hcli Hp Hrun.
  assert (Hm : main h = Ok Ignored).
  { rewrite main_bind_import, Hi. simpl. rewrite Hp. simpl. by rewrite bool_decide_true. }
  split; [done|]. split; [apply (no_request_unless_served h evs p); [by rewrite Hm|done]|].
  apply run_from_booting in Hrun as [[_ ->]|(evs' & _ & Hcase)]; [by left|right].
  destruct Hcase as [(s & Hs & _)|[(_ & _ & ->)|(e & He & _)]]; congruence.
Qed.

(** C32: The imports of lines 2-6 run before anything else: the first
    module of [required_modules] that is missing decides what the script
    raises ([ModuleNotFoundError], or [ImportError] for the Firestore
    library), whatever the environment and the [.env] file hold. *)
Theorem main_first_missing_module (h : host) (i : nat) (m : string) :
  required_modules !! i = Some m → m ∉ installed h →
  (∀ j m', j < i → required_modules !! j = Some m' → m' ∈ installed h) →
  main h = raise! (import_error m).
Proof.
  intros Hi Hm Hbefore. rewrite main_bind_import. unfold import_app.
  enough (import_lines h = raise! (import_error m)) as -> by reflexivity.
  rewrite import_lines_all. by apply (import_all_first_missing _ _ i).
Qed.

(** C37: A key file that [json.load] cannot decode stops the start-up:
    when line 8 returns and [FIREBASE_KEY_PATH] names a file whose text
    the decoder refuses, the script, whose imports succeed, raises the
    decoder's exception, and its process answers no request. *)
Theorem main_key_file_undecodable (h : host) (path : string) (text : JsonDecode.ustr) (e : exn) :
  required_modules ⊆ installed h → (loaded h).2 = Ok () → (loaded h).1 !! "FIREBASE_KEY_PATH" = Some path →
  key_files (fb_world h) path = Some text → JsonDecode.loads text = Raise e →
  main h = Raise e ∧ ∀ evs p, run h Booting evs p → ∀ raw hdrs rep, EvRequest raw hdrs rep ∉ evs.
Proof.
  intros Hs Hok Hp Hk Hl.
  assert (Hm : main h = Raise e).
  { rewrite main_bind_import, (import_fails_cert h _ e); [done|done|done|].
    unfold getenv. fold (loaded h). rewrite Hp. unfold certificate. by rewrite Hk, Hl. }
  split; [exact Hm|]. intros evs p. apply no_request_unless_served. intros s. congruence.
Qed.

(** ** Witnesses *)

(** A machine with the checkout of [Dotenv.sample_fs] layout: [app.py]
    in [src/backend], run from there, every port free, no [.flaskenv],
    the key of [Firebase.sample_world] unless said otherwise. *)
Definition machine (mods : list string) (env : environ) (fs : dotenv_fs) (w : Firebase.world) : host :=
  {| installed := mods; os_env := env; dotenv_files := fs; flaskenv_files := λ _, None;
     app_dir := ["backend"; "src"]; cwd := ["backend"; "src"]; fb_world := w; static_files := no_static;
     port_free := λ _, true; ephemeral_port := 40000; set_order := rule_methods;
     set_order_perm := reflexivity rule_methods; ip_parse := λ _, None; debugger_of := sample_debugger |}.

Definition at_backend (text : string) : dotenv_fs :=
  λ d, if bool_decide (d = ["backend"; "src"]) then Some text else None.

Definition sample_host : host := machine required_modules sample_env sample_fs sample_world.

(** The same machine with no [.env] file and an empty environment. *)
Definition bare_host : host := machine required_modules ∅ (λ _, None) sample_world.

(** A [.env] that sets the key path but no port. *)
Definition noport_host : host :=
  machine required_modules ∅ (at_backend "FIREBASE_KEY_PATH=/root/key.json") sample_world.

(** A [.env] with a port [int()] accepts beyond 16 bits. *)
Definition bigport_host : host :=
  machine required_modules ∅
    (at_backend ("FIREBASE_KEY_PATH=/root/key.json" +:+ String nl_char
                 ("PORT=" +:+ String dq_char (" 70_000" +:+ String dq_char EmptyString))))
    sample_world.

(** A machine where google-cloud-firestore is not installed. *)
Definition nofirestore_host : host :=
  machine ["flask"; "flask_cors"; "firebase_admin"; "dotenv"] ∅ (λ _, None) sample_world.

(** A key file cut short after its opening brace. *)
Definition badkey_host : host :=
  machine required_modules sample_env sample_fs
    {| key_files := λ p, if bool_decide (p = "/root/key.json")
                         then Some (JsonDecode.ustr_of "{ project_id") else None;
       pem_valid := λ _, true |}.

(** A [.env] with the quoted key ['A=B'] of [Dotenv.bad_key_fs]. *)
Definition badenv_host : host := machine required_modules ∅ bad_key_fs sample_world.

(** A [.env] that sets the key path and [FLASK_RUN_FROM_CLI]. *)
Definition cli_host : host :=
  machine required_modules ∅
    (at_backend ("FIREBASE_KEY_PATH=/root/key.json" +:+ String nl_char "FLASK_RUN_FROM_CLI=true"))
    sample_world.

Lemma main_dotenv_error_witness :
  required_modules ⊆ installed badenv_host ∧
  (loaded badenv_host).2 = raise! (ValueError "illegal environment variable name") ∧
  main badenv_host = raise! (ValueError "illegal environment variable name") ∧
  ∀ evs p, run badenv_host Booting evs p → ∀ raw hdrs rep, EvRequest raw hdrs rep ∉ evs.
Proof.
  assert (H0 : required_modules ⊆ installed badenv_host) by done.
  assert (H1 : (loaded badenv_host).2 = raise! (ValueError "illegal environment variable name"))
    by (vm_compute; reflexivity).
  split; [exact H0|]. split; [exact H1|]. exact (main_dotenv_error _ _ H0 H1).
Defined.

Lemma main_fails_without_key_path_witness :
  required_modules ⊆ installed bare_host ∧ (loaded bare_host).2 = Ok () ∧
  (loaded bare_host).1 !! "FIREBASE_KEY_PATH" = None ∧ main bare_host = raise! invalid_cert_arg.
Proof.
  assert (H0 : required_modules ⊆ installed bare_host) by done.
  assert (H1 : (loaded bare_host).2 = Ok ()) by reflexivity.
  assert (H2 : (loaded bare_host).1 !! "FIREBASE_KEY_PATH" = None) by reflexivity.
  split; [exact H0|]. split; [exact H1|]. split; [exact H2|]. exact (main_fails_without_key_path _ H0 H1 H2).
Defined.

Lemma no_request_without_key_path_witness :
  required_modules ⊆ installed bare_host ∧ (loaded bare_host).2 = Ok () ∧
  (loaded bare_host).1 !! "FIREBASE_KEY_PATH" = None ∧
  run bare_host Booting [EvStart] (Crashed invalid_cert_arg) ∧
  (∀ raw hdrs rep, EvRequest raw hdrs rep ∉ [EvStart]) ∧
  (Crashed invalid_cert_arg = Booting ∨ Crashed invalid_cert_arg = Crashed invalid_cert_arg).
Proof.
  assert (H0 : required_modules ⊆ installed bare_host) by done.
  assert (H1 : (loaded bare_host).2 = Ok ()) by reflexivity.
  assert (H2 : (loaded bare_host).1 !! "FIREBASE_KEY_PATH" = None) by reflexivity.
  assert (H3 : run bare_host Booting [EvStart] (Crashed invalid_cert_arg)).
  { econstructor; [apply step_crash; vm_compute; reflexivity|constructor]. }
  split; [exact H0|]. split; [exact H1|]. split; [exact H2|]. split; [exact H3|].
  exact (no_request_without_key_path _ _ _ H0 H1 H2 H3).
Defined.

Lemma main_served_witness :
  ∃ s, main sample_host = Ok (Served s) ∧ srv_addr s = ("0.0.0.0", 8080%Z) ∧
  ∃ m p q, import_app sample_host (os_env sample_host) = Ok m ∧ m_env m = (loaded sample_host).1 ∧
    PyInt.py_int PyInt.default_max_str_digits (getenv (m_env m) "PORT" (PyInt 5000)) = Ok p ∧
    get_sockaddr p = Ok q ∧ (0 ≤ q ≤ 65535)%Z ∧ ((0 ≤ p ≤ 65535)%Z → q = p) ∧ port_free sample_host q = true ∧
    srv_addr s = ("0.0.0.0", bound_port sample_host q) ∧ debug (srv_app s) = true ∧
    srv_debugger s = Some (debugger_of sample_host).
Proof.
  destruct (main sample_host) as [[s|]|e] eqn:Hm; [|vm_compute in Hm; discriminate..].
  exists s. split; [reflexivity|]. split.
  - pose proof Hm as Hm'. vm_compute in Hm'. injection Hm' as <-. reflexivity.
  - exact (main_served _ _ Hm).
Defined.

Lemma main_default_port_witness :
  ∃ m, import_app noport_host (os_env noport_host) = Ok m ∧ m_env m !! "PORT" = None ∧
    m_env m !! "FLASK_RUN_FROM_CLI" ≠ Some "true" ∧ (flask_run_dotenv noport_host (m_env m)).2 = Ok () ∧
    port_free noport_host 5000 = true ∧
    main noport_host = serve_child noport_host (flask_run_dotenv noport_host (m_env m)).1 5000.
Proof.
  destruct (import_app noport_host (os_env noport_host)) as [m|e] eqn:Hi; [|vm_compute in Hi; discriminate].
  assert (He : m_env m = (loaded noport_host).1) by exact (proj1 (proj2 (import_app_ok _ _ _ Hi))).
  assert (H1 : m_env m !! "PORT" = None) by (rewrite He; reflexivity).
  assert (H2 : m_env m !! "FLASK_RUN_FROM_CLI" ≠ Some "true") by (rewrite He; vm_compute; congruence).
  assert (H3 : (flask_run_dotenv noport_host (m_env m)).2 = Ok ()) by (rewrite He; vm_compute; reflexivity).
  assert (H4 : port_free noport_host 5000 = true) by reflexivity.
  exists m. split; [done|]. split; [exact H1|]. split; [exact H2|]. split; [exact H3|]. split; [exact H4|].
  exact (main_default_port _ _ Hi H1 H2 H3 H4).
Defined.

Lemma main_port_wraps_witness :
  ∃ m, import_app bigport_host (os_env bigport_host) = Ok m ∧ m_env m !! "FLASK_RUN_FROM_CLI" ≠ Some "true" ∧
    (flask_run_dotenv bigport_host (m_env m)).2 = Ok () ∧
    PyInt.py_int PyInt.default_max_str_digits (getenv (m_env m) "PORT" (PyInt 5000)) = Ok 70000%Z ∧
    (70000 mod 65536 = 4464)%Z ∧
    ((65535 < 70000 < 2 ^ 31)%Z →
       main bigport_host = if port_free bigport_host (70000 mod 65536)%Z
              then serve_child bigport_host (flask_run_dotenv bigport_host (m_env m)).1
                     (bound_port bigport_host (70000 mod 65536)%Z)
              else raise! (SystemExit 1)) ∧
    ((- 2 ^ 31 ≤ 70000 < 0)%Z → main bigport_host = raise! (OverflowError "bind(): port must be 0-65535.")).
Proof.
  destruct (import_app bigport_host (os_env bigport_host)) as [m|e] eqn:Hi; [|vm_compute in Hi; discriminate].
  assert (He : m_env m = (loaded bigport_host).1) by exact (proj1 (proj2 (import_app_ok _ _ _ Hi))).
  assert (H1 : m_env m !! "FLASK_RUN_FROM_CLI" ≠ Some "true") by (rewrite He; vm_compute; congruence).
  assert (H2 : (flask_run_dotenv bigport_host (m_env m)).2 = Ok ()) by (rewrite He; vm_compute; reflexivity).
  assert (H3 : PyInt.py_int PyInt.default_max_str_digits (getenv (m_env m) "PORT" (PyInt 5000))
               = Ok 70000%Z) by (rewrite He; vm_compute; reflexivity).
  exists m. split; [done|]. split; [exact H1|]. split; [exact H2|]. split; [exact H3|].
  split; [reflexivity|]. exact (main_port_wraps _ _ _ Hi H1 H2 H3).
Defined.


Lemma run_from_cli_no_request_witness :
  ∃ m, import_app cli_host (os_env cli_host) = Ok m ∧ m_env m !! "FLASK_RUN_FROM_CLI" = Some "true" ∧
    PyInt.py_int PyInt.default_max_str_digits (getenv (m_env m) "PORT" (PyInt 5000)) = Ok 5000%Z ∧
    run cli_host Booting [EvStart] Exited ∧
    (main cli_host = Ok Ignored ∧ (∀ raw hdrs rep, EvRequest raw hdrs rep ∉ [EvStart]) ∧
     (Exited = Booting ∨ Exited = Exited)).
Proof.
  destruct (import_app cli_host (os_env cli_host)) as [m|e] eqn:Hi; [|vm_compute in Hi; discriminate].
  assert (He : m_env m = (loaded cli_host).1) by exact (proj1 (proj2 (import_app_ok _ _ _ Hi))).
  assert (H1 : m_env m !! "FLASK_RUN_FROM_CLI" = Some "true") by (rewrite He; reflexivity).
  assert (H2 : PyInt.py_int PyInt.default_max_str_digits (getenv (m_env m) "PORT" (PyInt 5000))
               = Ok 5000%Z) by (rewrite He; reflexivity).
  assert (H3 : run cli_host Booting [EvStart] Exited).
  { apply (run_cons _ _ _ Exited); [apply step_ignored; vm_compute; reflexivity|apply run_nil]. }
  exists m. split; [done|]. split; [exact H1|]. split; [exact H2|]. split; [exact H3|].
  exact (run_from_cli_no_request _ _ _ _ _ Hi H1 H2 H3).
Defined.

Lemma main_first_missing_module_witness :
  required_modules !! 3 = Some "google.cloud.firestore" ∧
  "google.cloud.firestore" ∉ installed nofirestore_host ∧
  (∀ j m', j < 3 → required_modules !! j = Some m' → m' ∈ installed nofirestore_host) ∧
  main nofirestore_host = raise! (ImportError firestore_import_msg).
Proof.
  assert (H1 : required_modules !! 3 = Some "google.cloud.firestore") by reflexivity.
  assert (H2 : "google.cloud.firestore" ∉ installed nofirestore_host) by (vm_compute; set_solver).
  assert (H3 : ∀ j m', j < 3 → required_modules !! j = Some m' → m' ∈ installed nofirestore_host).
  { intros j m' Hj. destruct j as [|[|[|j]]]; [..|lia]; intros [= <-]; simpl; set_solver. }
  split; [exact H1|]. split; [exact H2|]. split; [exact H3|].
  exact (main_first_missing_module _ _ _ H1 H2 H3).
Defined.

Lemma main_key_file_undecodable_witness :
  required_modules ⊆ installed badkey_host ∧ (loaded badkey_host).2 = Ok () ∧
  (loaded badkey_host).1 !! "FIREBASE_KEY_PATH" = Some "/root/key.json" ∧
  key_files (fb_world badkey_host) "/root/key.json" = Some (JsonDecode.ustr_of "{ project_id") ∧
  JsonDecode.loads (JsonDecode.ustr_of "{ project_id")
    = raise! (JSONDecodeError "Expecting property name enclosed in double quotes" 2) ∧
  main badkey_host = raise! (JSONDecodeError "Expecting property name enclosed in double quotes" 2).
Proof.
  assert (H0 : required_modules ⊆ installed badkey_host) by done.
  assert (H1 : (loaded badkey_host).2 = Ok ()) by (vm_compute; reflexivity).
  assert (H2 : (loaded badkey_host).1 !! "FIREBASE_KEY_PATH" = Some "/root/key.json") by (vm_compute; reflexivity).
  assert (H3 : key_files (fb_world badkey_host) "/root/key.json" = Some (JsonDecode.ustr_of "{ project_id"))
    by reflexivity.
  assert (H4 : JsonDecode.loads (JsonDecode.ustr_of "{ project_id")
               = raise! (JSONDecodeError "Expecting property name enclosed in double quotes" 2))
    by (vm_compute; reflexivity).
  split; [exact H0|]. split; [exact H1|]. split; [exact H2|]. split; [exact H3|]. split; [exact H4|].
  exact (proj1 (main_key_file_undecodable _ _ _ _ H0 H1 H2 H3 H4)).
Defined.

(** A [.flaskenv] in the working directory that sets
    [FLASK_RUN_FROM_CLI=true]: the first process binds port 5000, then
    [Flask.run]'s [.env] pass sets the variable, the reloader's child
    inherits it and its [app.run] returns: the process exits without
    serving. *)
Definition flaskenv_cli_host : host :=
  {| installed := required_modules; os_env := ∅;
     dotenv_files := at_backend "FIREBASE_KEY_PATH=/root/key.json";
     flaskenv_files := at_backend "FLASK_RUN_FROM_CLI=true";
     app_dir := ["backend"; "src"]; cwd := ["backend"; "src"]; fb_world := sample_world;
     static_files := no_static; port_free := λ _, true; ephemeral_port := 40000;
     set_order := rule_methods; set_order_perm := reflexivity rule_methods; ip_parse := λ _, None;
     debugger_of := sample_debugger |}.

Lemma flaskenv_cli_child_exits :
  (loaded flaskenv_cli_host).1 !! "FLASK_RUN_FROM_CLI" = None ∧ main flaskenv_cli_host = Ok Ignored.
Proof. split; vm_compute; reflexivity. Qed.

End App.
